(** * QuickServe: the booking lifecycle of the public and admin APIs

    A shallow embedding of the Express route handlers that read and write
    bookings and payments:

    - [apps/api-public/src/modules/bookings/bookings.routes.ts]
      ([post_booking], [patch_status], [post_accept]),
    - [apps/api-public/src/modules/payments/payments.routes.ts]
      ([post_initiate]),
    - the admin bookings router ([admin_post_cancel]),
    - the error middleware ([errorHandler]).

    With them, the handlers that read a booking and a payment
    ([get_booking], [get_payment]), the webhook of the mobile-money
    provider ([post_webhook_mtn]), the creation of a review
    ([apps/api-public/src/modules/reviews/reviews.routes.ts], [post_review])
    and the phone numbers of [apps/api-public/src/common/utils/phone.ts].

    A handler is a finite tree of atomic Prisma operations (every [await] is
    one node), so the same definition is run to completion for the
    sequential results and interleaved with other requests at its [await]
    points for the race on claiming a booking. *)

From Stdlib Require Import QArith ZArith Ascii.
From stdpp Require Import gmap strings list pretty.

Open Scope string_scope.

(** ** Enumerations of the schema *)

Inductive BookingStatus :=
  PENDING | ACCEPTED | WORKER_EN_ROUTE | IN_PROGRESS | COMPLETED | CANCELLED.

Inductive UserRole := CUSTOMER | WORKER | ADMIN.

Inductive VerificationStatus := VERIFICATION_PENDING | VERIFIED | REJECTED.

Inductive PaymentMethod := MTN_MOMO | VODAFONE_CASH | CASH.

Inductive PaymentStatus := PAYMENT_PROCESSING | PAYMENT_COMPLETED | PAYMENT_FAILED.

#[global] Instance BookingStatus_eq_dec : EqDecision BookingStatus.
Proof. solve_decision. Defined.
#[global] Instance UserRole_eq_dec : EqDecision UserRole.
Proof. solve_decision. Defined.
#[global] Instance VerificationStatus_eq_dec : EqDecision VerificationStatus.
Proof. solve_decision. Defined.
#[global] Instance PaymentMethod_eq_dec : EqDecision PaymentMethod.
Proof. solve_decision. Defined.
#[global] Instance PaymentStatus_eq_dec : EqDecision PaymentStatus.
Proof. solve_decision. Defined.

(** The value a template string prints for a status. *)
Definition statusName (s : BookingStatus) : string :=
  match s with
  | PENDING => "PENDING"
  | ACCEPTED => "ACCEPTED"
  | WORKER_EN_ROUTE => "WORKER_EN_ROUTE"
  | IN_PROGRESS => "IN_PROGRESS"
  | COMPLETED => "COMPLETED"
  | CANCELLED => "CANCELLED"
  end.

Definition methodName (m : PaymentMethod) : string :=
  match m with
  | MTN_MOMO => "MTN_MOMO"
  | VODAFONE_CASH => "VODAFONE_CASH"
  | CASH => "CASH"
  end.

(** ** JSON values and JavaScript truthiness *)

(** A request body is the JSON object [express.json] produced; a field that
    is absent is [None].  JSON numbers are rationals: the handlers store and
    compare them and never compute with them. *)
#[local] Unset Elimination Schemes.
Inductive JValue :=
| JNull
| JBool (b : bool)
| JNum (q : Q)
| JStr (s : string)
| JArr (items : list JValue)
| JObj (fields : list (string * JValue)).
#[local] Set Elimination Schemes.

(** [!!x] for a number: zero is falsy. *)
Definition truthyNum (q : Q) : bool := negb (Qnum q =? 0)%Z.

(** [!!x] for a string: the empty string is falsy. *)
Definition truthyStr (s : string) : bool := negb (String.eqb s "").

(** [!!x] for a nullable value. *)
Definition truthyOpt {A} (t : A -> bool) (o : option A) : bool :=
  match o with
  | Some a => t a
  | None => false
  end.

(** [a || b] on nullable numbers, as in [finalPrice || estimatedPrice]. *)
Definition orNum (a b : option Q) : option Q :=
  if truthyOpt truthyNum a then a else b.

(** zod's [.positive()]. *)
Definition positiveNum (q : Q) : bool := (0 <? Qnum q)%Z.

(** ** Rows of the database

    The Prisma schema is not part of the sources; the rows carry the columns
    the handlers read and write, and the booking has the attributes the
    specification lists for it. *)

Record Worker := {
  worker_id : string;
  worker_userId : string;
  worker_verificationStatus : VerificationStatus;
}.

Record WorkerService := {
  service_workerId : string;
  service_categoryId : string;
  service_isActive : bool;
  service_basePrice : Q;
}.

Record Booking := {
  booking_id : string;
  booking_customerId : string;
  booking_workerId : option string;
  booking_categoryId : string;
  booking_description : string;
  booking_latitude : Q;
  booking_longitude : Q;
  booking_address : string;
  booking_status : BookingStatus;
  booking_estimatedPrice : option Q;
  booking_finalPrice : option Q;
  booking_scheduledAt : option Z;
  booking_startedAt : option Z;
  booking_completedAt : option Z;
  booking_createdAt : Z;
}.

Record Payment := {
  payment_id : string;
  payment_bookingId : string;
  payment_amount : Q;
  payment_method : PaymentMethod;
  payment_status : PaymentStatus;
  payment_paidAt : option Z;
  payment_providerRef : option string;
}.

Record Notification := {
  notification_userId : string;
  notification_type : string;
  notification_title : string;
  notification_body : string;
  notification_data : list (string * JValue);
}.

Record Conversation := {
  conversation_id : string;
  conversation_bookingId : string;
  conversation_participants : list string;
}.

(** One [io.to(room).emit(event, data)]. *)
Record Emitted := {
  emitted_room : string;
  emitted_event : string;
  emitted_data : list (string * JValue);
}.

(** ** The world a handler runs in

    A table is the list of its rows in storage order, searched by the
    column a query names; the categories, which the handlers only look up
    by id, are a finite map from the id to the name.  [clock] is what
    [new Date()] reads and [cuid] with [idgen] is the generator of the ids
    of created rows. *)
Record World := {
  categories : gmap string string;
  workers : list Worker;
  workerServices : list WorkerService;
  bookings : list Booking;
  payments : list Payment;
  conversations : list Conversation;
  notifications : list Notification;
  emitted : list Emitted;
  clock : Z;
  cuid : nat -> string;
  idgen : nat;
}.

Definition withBookings (m : list Booking) (w : World) : World :=
  {| categories := categories w; workers := workers w;
     workerServices := workerServices w; bookings := m;
     payments := payments w; conversations := conversations w;
     notifications := notifications w; emitted := emitted w;
     clock := clock w; cuid := cuid w; idgen := idgen w |}.

Definition withPayments (m : list Payment) (w : World) : World :=
  {| categories := categories w; workers := workers w;
     workerServices := workerServices w; bookings := bookings w;
     payments := m; conversations := conversations w;
     notifications := notifications w; emitted := emitted w;
     clock := clock w; cuid := cuid w; idgen := idgen w |}.

Definition withConversations (m : list Conversation) (w : World) : World :=
  {| categories := categories w; workers := workers w;
     workerServices := workerServices w; bookings := bookings w;
     payments := payments w; conversations := m;
     notifications := notifications w; emitted := emitted w;
     clock := clock w; cuid := cuid w; idgen := idgen w |}.

Definition withNotifications (l : list Notification) (w : World) : World :=
  {| categories := categories w; workers := workers w;
     workerServices := workerServices w; bookings := bookings w;
     payments := payments w; conversations := conversations w;
     notifications := l; emitted := emitted w;
     clock := clock w; cuid := cuid w; idgen := idgen w |}.

Definition withEmitted (l : list Emitted) (w : World) : World :=
  {| categories := categories w; workers := workers w;
     workerServices := workerServices w; bookings := bookings w;
     payments := payments w; conversations := conversations w;
     notifications := notifications w; emitted := l;
     clock := clock w; cuid := cuid w; idgen := idgen w |}.

Definition withIdgen (n : nat) (w : World) : World :=
  {| categories := categories w; workers := workers w;
     workerServices := workerServices w; bookings := bookings w;
     payments := payments w; conversations := conversations w;
     notifications := notifications w; emitted := emitted w;
     clock := clock w; cuid := cuid w; idgen := n |}.

(** ** Errors and the error middleware *)

(** What a handler can throw: an [AppError], the [ZodError] of a schema (with
    the names of the offending fields) or a Prisma request error (with its
    code). *)
Inductive Error :=
| AppError (statusCode : nat) (message : string) (code : string)
| ZodError (fieldErrors : list string)
| PrismaError (code : string)
| TypeError (message : string).

Record ErrorResponse := {
  response_status : nat;
  response_code : string;
  response_message : string;
}.

(** [errorHandler] of the error middleware, as the admin API has it (the
    public API mounts a middleware of the same name); the message of the
    last case is the one of production. *)
Definition errorHandler (err : Error) : ErrorResponse :=
  match err with
  | ZodError _ =>
      {| response_status := 400; response_code := "VALIDATION_ERROR";
         response_message := "Invalid request data" |}
  | AppError statusCode message code =>
      {| response_status := statusCode; response_code := code;
         response_message := message |}
  | TypeError _ =>
      {| response_status := 500; response_code := "INTERNAL_SERVER_ERROR";
         response_message := "An unexpected error occurred" |}
  | PrismaError code =>
      if String.eqb code "P2002" then
        {| response_status := 409; response_code := "DUPLICATE_ENTRY";
           response_message := "A record with this data already exists" |}
      else if String.eqb code "P2025" then
        {| response_status := 404; response_code := "NOT_FOUND";
           response_message := "Record not found" |}
      else
        {| response_status := 500; response_code := "INTERNAL_SERVER_ERROR";
           response_message := "An unexpected error occurred" |}
  end.

(** ** Handlers as trees of atomic operations *)

(** [Await q k] is [const x = await q; k x]: [q] is one atomic operation of
    the database (it may throw) and the handler yields to other requests
    before it.  [Sync f k] is synchronous code that touches the world
    ([new Date()], a socket emit): it runs with what precedes it. *)
Inductive Handler (R : Type) : Type :=
| Done (r : R)
| Throw (e : Error)
| Await {X : Type} (q : World -> World * (Error + X)) (k : X -> Handler R)
| Sync {X : Type} (f : World -> World * X) (k : X -> Handler R).

Arguments Done {R} r.
Arguments Throw {R} e.
Arguments Await {R X} q k.
Arguments Sync {R X} f k.

Fixpoint bind {A B} (h : Handler A) (f : A -> Handler B) : Handler B :=
  match h with
  | Done a => f a
  | Throw e => Throw e
  | Await q k => Await q (fun x => bind (k x) f)
  | Sync g k => Sync g (fun x => bind (k x) f)
  end.

Notation "x <~ q ;; k" := (Await q (fun x => k))
  (at level 100, q at next level, right associativity, only parsing).
Notation "x <: f ;; k" := (Sync f (fun x => k))
  (at level 100, f at next level, right associativity, only parsing).
Notation "x <- h ;; k" := (bind h (fun x => k))
  (at level 100, h at next level, right associativity, only parsing).

Inductive Result (R : Type) : Type :=
| Ok (r : R)
| Err (e : Error).

Arguments Ok {R} r.
Arguments Err {R} e.

Definition isOk {R} (r : Result R) : bool :=
  match r with Ok _ => true | Err _ => false end.

(** A request handled alone, from its first line to its response. *)
Fixpoint run {R} (h : Handler R) (w : World) : World * Result R :=
  match h with
  | Done r => (w, Ok r)
  | Throw e => (w, Err e)
  | Await q k =>
      match q w with
      | (w', inl e) => (w', Err e)
      | (w', inr x) => run (k x) w'
      end
  | Sync f k =>
      match f w with
      | (w', x) => run (k x) w'
      end
  end.

(** *** Requests interleaved at their awaits *)

(** The synchronous code at the head of a handler. *)
Fixpoint settle {R} (h : Handler R) (w : World) : World * Handler R :=
  match h with
  | Sync f k => match f w with (w', x) => settle (k x) w' end
  | _ => (w, h)
  end.

(** One turn of the event loop for one request: its pending operation and
    the synchronous code up to the next [await]. *)
Definition turn {R} (h : Handler R) (w : World) : World * Handler R :=
  match settle h w with
  | (w1, Await q k) =>
      match q w1 with
      | (w2, inl e) => (w2, Throw e)
      | (w2, inr x) => settle (k x) w2
      end
  | (w1, h1) => (w1, h1)
  end.

(** The requests in flight, run in the order a schedule gives: each entry
    names the request whose turn it is. *)
Fixpoint runInterleaved {R} (schedule : list nat) (hs : list (Handler R)) (w : World)
  : World * list (Handler R) :=
  match schedule with
  | [] => (w, hs)
  | i :: rest =>
      match hs !! i with
      | Some h =>
          match turn h w with
          | (w', h') => runInterleaved rest (<[i := h']> hs) w'
          end
      | None => runInterleaved rest hs w
      end
  end.

(** [n] turns of one request. *)
Fixpoint turns {R} (n : nat) (h : Handler R) (w : World) : World * Handler R :=
  match n with
  | O => (w, h)
  | S n => match turn h w with (w', h') => turns n h' w' end
  end.

(** The response of a request that has finished. *)
Definition response {R} (h : Handler R) : option (Result R) :=
  match h with
  | Done r => Some (Ok r)
  | Throw e => Some (Err e)
  | _ => None
  end.

(** ** The Prisma operations the handlers await *)

Definition Query (X : Type) : Type := World -> World * (Error + X).

Definition findWorkerById (w : World) (id : string) : option Worker :=
  find (fun k => String.eqb (worker_id k) id) (workers w).

Definition findWorkerByUserId (w : World) (userId : string) : option Worker :=
  find (fun k => String.eqb (worker_userId k) userId) (workers w).

(** [prisma.worker.findUnique({ where: { userId } })] *)
Definition worker_findUnique_userId (userId : string) : Query (option Worker) :=
  fun w => (w, inr (findWorkerByUserId w userId)).

(** [prisma.worker.findUnique({ where: { id } })] *)
Definition worker_findUnique_id (id : string) : Query (option Worker) :=
  fun w => (w, inr (findWorkerById w id)).

Definition findBooking (w : World) (id : string) : option Booking :=
  find (fun b => String.eqb (booking_id b) id) (bookings w).

Definition findPayment (w : World) (bookingId : string) : option Payment :=
  find (fun p => String.eqb (payment_bookingId p) bookingId) (payments w).

Definition findConversation (w : World) (bookingId : string) : option Conversation :=
  find (fun c => String.eqb (conversation_bookingId c) bookingId) (conversations w).

(** The rows a [where: { key }] selects, rewritten by [f]. *)
Definition updateRows {A} (key : A -> string) (k : string) (f : A -> A) (rows : list A)
  : list A :=
  map (fun r => if String.eqb (key r) k then f r else r) rows.

(** [prisma.booking.findUnique({ where: { id } })] *)
Definition booking_findUnique (id : string) : Query (option Booking) :=
  fun w => (w, inr (findBooking w id)).

(** The relation [booking.worker] of an [include: { worker: true }]. *)
Definition workerOf (w : World) (b : Booking) : option Worker :=
  match booking_workerId b with
  | Some wid => findWorkerById w wid
  | None => None
  end.

(** [prisma.booking.findUnique({ where: { id }, include: { worker: true } })] *)
Definition booking_findUnique_worker (id : string)
  : Query (option (Booking * option Worker)) :=
  fun w => (w, inr (match findBooking w id with
                    | Some b => Some (b, workerOf w b)
                    | None => None
                    end)).

(** [prisma.booking.findUnique({ where: { id }, include: { payment: true } })] *)
Definition booking_findUnique_payment (id : string)
  : Query (option (Booking * option Payment)) :=
  fun w => (w, inr (match findBooking w id with
                    | Some b => Some (b, findPayment w (booking_id b))
                    | None => None
                    end)).

(** [prisma.workerService.findFirst({ where })] *)
Definition workerService_findFirst (where_ : World -> WorkerService -> bool)
  : Query (option WorkerService) :=
  fun w => (w, inr (find (where_ w) (workerServices w))).

(** The [data] of a [prisma.booking.update]: the keys that are present. *)
Record BookingUpdateInput := {
  set_status : option BookingStatus;
  set_workerId : option string;
  set_estimatedPrice : option Q;
  set_finalPrice : option Q;
  set_startedAt : option Z;
  set_completedAt : option Z;
}.

Definition setOr {A} (new : option A) (old : option A) : option A :=
  match new with
  | Some a => Some a
  | None => old
  end.

Definition applyUpdate (data : BookingUpdateInput) (b : Booking) : Booking :=
  {| booking_id := booking_id b;
     booking_customerId := booking_customerId b;
     booking_workerId := setOr (set_workerId data) (booking_workerId b);
     booking_categoryId := booking_categoryId b;
     booking_description := booking_description b;
     booking_latitude := booking_latitude b;
     booking_longitude := booking_longitude b;
     booking_address := booking_address b;
     booking_status := default (booking_status b) (set_status data);
     booking_estimatedPrice := setOr (set_estimatedPrice data) (booking_estimatedPrice b);
     booking_finalPrice := setOr (set_finalPrice data) (booking_finalPrice b);
     booking_scheduledAt := booking_scheduledAt b;
     booking_startedAt := setOr (set_startedAt data) (booking_startedAt b);
     booking_completedAt := setOr (set_completedAt data) (booking_completedAt b);
     booking_createdAt := booking_createdAt b |}.

(** [prisma.booking.update({ where: { id }, data })]: the row is rewritten
    whatever it holds now; a missing row is Prisma's P2025. *)
Definition booking_update (id : string) (data : BookingUpdateInput) : Query Booking :=
  fun w =>
    match findBooking w id with
    | Some b =>
        (withBookings (updateRows booking_id id (applyUpdate data) (bookings w)) w,
         inr (applyUpdate data b))
    | None => (w, inl (PrismaError "P2025"))
    end.

(** [prisma.notification.create({ data })] *)
Definition notification_create (n : Notification) : Query unit :=
  fun w => (withNotifications (notifications w ++ [n]) w, inr tt).

(** [prisma.conversation.findUnique({ where: { bookingId } })] *)
Definition conversation_findUnique (bookingId : string) : Query (option Conversation) :=
  fun w => (w, inr (findConversation w bookingId)).

(** [prisma.conversationParticipant.create({ data: { conversationId, userId } })]:
    the conversation must still be there (P2003 is the broken foreign key). *)
Definition conversationParticipant_create (conversationId userId : string)
  : Query unit :=
  fun w =>
    if existsb (fun c => String.eqb (conversation_id c) conversationId) (conversations w)
    then
      (withConversations
         (updateRows conversation_id conversationId
            (fun c => {| conversation_id := conversation_id c;
                         conversation_bookingId := conversation_bookingId c;
                         conversation_participants :=
                           conversation_participants c ++ [userId] |})
            (conversations w)) w,
       inr tt)
    else (w, inl (PrismaError "P2003")).

(** [new Date()] *)
Definition newDate : World -> World * Z := fun w => (w, clock w).

(** [emitToUser] and [emitToBooking] of the websocket module. *)
Definition emitToUser (userId event : string) (data : list (string * JValue))
  : World -> World * unit :=
  fun w => (withEmitted (emitted w ++ [{| emitted_room := "user:" ++ userId;
                                          emitted_event := event;
                                          emitted_data := data |}]) w, tt).

Definition emitToBooking (bookingId event : string) (data : list (string * JValue))
  : World -> World * unit :=
  fun w => (withEmitted (emitted w ++ [{| emitted_room := "booking:" ++ bookingId;
                                          emitted_event := event;
                                          emitted_data := data |}]) w, tt).

(** ** Requests *)

(** [req.user] as the [authenticate] middleware leaves it. *)
Record AuthUser := {
  user_id : string;
  user_role : UserRole;
}.

Record Request (B : Type) := {
  req_user : AuthUser;
  req_params_id : string;
  req_body : B;
}.

Arguments req_user {B} r.
Arguments req_params_id {B} r.
Arguments req_body {B} r.

(** [authorize(...roles)] *)
Definition authorize {R} (roles : list UserRole) (user : AuthUser) (next : Handler R)
  : Handler R :=
  if existsb (fun r => bool_decide (r = user_role user)) roles then next
  else Throw (AppError 403 "Insufficient permissions" "FORBIDDEN").

(** [adminOnly] of the admin API, after the token has been read. *)
Definition adminOnly {R} (user : AuthUser) (next : Handler R) : Handler R :=
  if bool_decide (user_role user = ADMIN) then next
  else Throw (AppError 403 "Admin access required" "FORBIDDEN").

(** ** PATCH /api/v1/bookings/:id/status *)

Record StatusBody := {
  body_status : option JValue;
  body_finalPrice : option JValue;
}.

Record StatusData := {
  data_status : BookingStatus;
  data_finalPrice : option Q;
}.

(** [z.enum(['ACCEPTED', 'WORKER_EN_ROUTE', 'IN_PROGRESS', 'COMPLETED',
    'CANCELLED'])] *)
Definition statusEnum (v : option JValue) : option BookingStatus :=
  match v with
  | Some (JStr s) =>
      if String.eqb s "ACCEPTED" then Some ACCEPTED
      else if String.eqb s "WORKER_EN_ROUTE" then Some WORKER_EN_ROUTE
      else if String.eqb s "IN_PROGRESS" then Some IN_PROGRESS
      else if String.eqb s "COMPLETED" then Some COMPLETED
      else if String.eqb s "CANCELLED" then Some CANCELLED
      else None
  | _ => None
  end.

(** [z.number().positive().optional()]: [Some None] is an absent field. *)
Definition optionalPositive (v : option JValue) : option (option Q) :=
  match v with
  | None => Some None
  | Some (JNum q) => if positiveNum q then Some (Some q) else None
  | Some _ => None
  end.

Definition updateBookingStatusSchema (body : StatusBody) : Error + StatusData :=
  match statusEnum (body_status body), optionalPositive (body_finalPrice body) with
  | Some s, Some p => inr {| data_status := s; data_finalPrice := p |}
  | s, p =>
      inl (ZodError (match s with Some _ => [] | None => ["status"] end
                       ++ match p with Some _ => [] | None => ["finalPrice"] end))
  end.

Definition validTransitions (s : BookingStatus) : option (list BookingStatus) :=
  match s with
  | PENDING => Some [ACCEPTED; CANCELLED]
  | ACCEPTED => Some [WORKER_EN_ROUTE; CANCELLED]
  | WORKER_EN_ROUTE => Some [IN_PROGRESS; CANCELLED]
  | IN_PROGRESS => Some [COMPLETED; CANCELLED]
  | COMPLETED => None
  | CANCELLED => None
  end.

Definition includes (l : list BookingStatus) (s : BookingStatus) : bool :=
  existsb (fun x => bool_decide (x = s)) l.

(** [validTransitions[from]?.includes(to)], [undefined] being falsy. *)
Definition transitionAllowed (from to : BookingStatus) : bool :=
  match validTransitions from with
  | Some l => includes l to
  | None => false
  end.

Definition notificationTypes (s : BookingStatus) : option (string * string * string) :=
  match s with
  | ACCEPTED =>
      Some ("BOOKING_ACCEPTED", "Booking Accepted",
            "Your service request has been accepted")
  | WORKER_EN_ROUTE =>
      Some ("WORKER_EN_ROUTE", "Worker On The Way",
            "Your service provider is on the way")
  | COMPLETED =>
      Some ("SERVICE_COMPLETED", "Service Completed",
            "Your service has been completed. Please rate your experience.")
  | _ => None
  end.

Definition statusOnly (s : BookingStatus) : BookingUpdateInput :=
  {| set_status := Some s; set_workerId := None; set_estimatedPrice := None;
     set_finalPrice := None; set_startedAt := None; set_completedAt := None |}.

Definition withWorkerId (wid : string) (d : BookingUpdateInput) : BookingUpdateInput :=
  {| set_status := set_status d; set_workerId := Some wid;
     set_estimatedPrice := set_estimatedPrice d; set_finalPrice := set_finalPrice d;
     set_startedAt := set_startedAt d; set_completedAt := set_completedAt d |}.

Definition withStartedAt (t : Z) (d : BookingUpdateInput) : BookingUpdateInput :=
  {| set_status := set_status d; set_workerId := set_workerId d;
     set_estimatedPrice := set_estimatedPrice d; set_finalPrice := set_finalPrice d;
     set_startedAt := Some t; set_completedAt := set_completedAt d |}.

Definition withCompletedAt (t : Z) (d : BookingUpdateInput) : BookingUpdateInput :=
  {| set_status := set_status d; set_workerId := set_workerId d;
     set_estimatedPrice := set_estimatedPrice d; set_finalPrice := set_finalPrice d;
     set_startedAt := set_startedAt d; set_completedAt := Some t |}.

Definition withFinalPrice (p : Q) (d : BookingUpdateInput) : BookingUpdateInput :=
  {| set_status := set_status d; set_workerId := set_workerId d;
     set_estimatedPrice := set_estimatedPrice d; set_finalPrice := Some p;
     set_startedAt := set_startedAt d; set_completedAt := set_completedAt d |}.

(** The body of the handler from [// Update booking] to the
    [prisma.booking.update]: the [updateData] it builds. *)
Definition patch_updateData (userId : string) (booking : Booking) (data : StatusData)
  : Handler BookingUpdateInput :=
  let updateData := statusOnly (data_status data) in
  updateData <-
    (if bool_decide (data_status data = ACCEPTED)
        && negb (truthyOpt truthyStr (booking_workerId booking))
     then
       worker <~ worker_findUnique_userId userId ;;
       match worker with
       | None => Throw (AppError 400 "Worker profile not found" "NOT_WORKER")
       | Some worker => Done (withWorkerId (worker_id worker) updateData)
       end
     else Done updateData) ;;
  updateData <-
    (if bool_decide (data_status data = IN_PROGRESS)
     then now <: newDate ;; Done (withStartedAt now updateData)
     else Done updateData) ;;
  if bool_decide (data_status data = COMPLETED)
  then
    now <: newDate ;;
    let updateData := withCompletedAt now updateData in
    Done (if truthyOpt truthyNum (data_finalPrice data)
          then match data_finalPrice data with
               | Some p => withFinalPrice p updateData
               | None => updateData
               end
          else updateData)
  else Done updateData.

(** The notification of the customer that ends the handler. *)
Definition patch_notify (booking : Booking) (status : BookingStatus) : Handler unit :=
  match notificationTypes status with
  | Some (type, title, body) =>
      _ <~ notification_create
             {| notification_userId := booking_customerId booking;
                notification_type := type;
                notification_title := title;
                notification_body := body;
                notification_data := [("bookingId", JStr (booking_id booking))] |} ;;
      _ <: emitToUser (booking_customerId booking) "notification"
             [("type", JStr type); ("title", JStr title); ("body", JStr body)] ;;
      Done tt
  | None => Done tt
  end.

(** [booking.worker?.userId === req.user!.id] *)
Definition isWorkerOf (bookingWorker : option Worker) (user : AuthUser) : bool :=
  match bookingWorker with
  | Some k => String.eqb (worker_userId k) (user_id user)
  | None => false
  end.

(** [booking.customerId === req.user!.id] *)
Definition isCustomerOf (booking : Booking) (user : AuthUser) : bool :=
  String.eqb (booking_customerId booking) (user_id user).

(** The [// Permission checks] of the handler: the error they throw. *)
Definition permissionChecks (status : BookingStatus) (isWorker isCustomer : bool)
  : option Error :=
  if bool_decide (status = CANCELLED) then
    if negb isWorker && negb isCustomer
    then Some (AppError 403 "Only customer or worker can cancel" "FORBIDDEN")
    else None
  else if negb isWorker
  then Some (AppError 403 "Only worker can update status" "FORBIDDEN")
  else None.

Definition patch_status (req : Request StatusBody) : Handler Booking :=
  match updateBookingStatusSchema (req_body req) with
  | inl zodError => Throw zodError
  | inr data =>
    found <~ booking_findUnique_worker (req_params_id req) ;;
    match found with
    | None => Throw (AppError 404 "Booking not found" "NOT_FOUND")
    | Some (booking, bookingWorker) =>
      let isWorker := isWorkerOf bookingWorker (req_user req) in
      let isCustomer := isCustomerOf booking (req_user req) in
      if negb (transitionAllowed (booking_status booking) (data_status data)) then
        Throw (AppError 400
                 ("Cannot transition from " ++ statusName (booking_status booking)
                    ++ " to " ++ statusName (data_status data))
                 "INVALID_STATUS_TRANSITION")
      else match permissionChecks (data_status data) isWorker isCustomer with
      | Some forbidden => Throw forbidden
      | None =>
        updateData <- patch_updateData (user_id (req_user req)) booking data ;;
        updatedBooking <~ booking_update (booking_id booking) updateData ;;
        _ <: emitToBooking (booking_id booking) "booking:status"
               [("bookingId", JStr (booking_id booking));
                ("status", JStr (statusName (data_status data)))] ;;
        _ <- patch_notify booking (data_status data) ;;
        Done updatedBooking
      end
    end
  end.

(** ** POST /api/v1/bookings/:id/accept *)

Definition post_accept (req : Request unit) : Handler Booking :=
  authorize [WORKER] (req_user req) (
    worker <~ worker_findUnique_userId (user_id (req_user req)) ;;
    match worker with
    | None => Throw (AppError 403 "Worker not verified" "NOT_VERIFIED")
    | Some worker =>
      if negb (bool_decide (worker_verificationStatus worker = VERIFIED)) then
        Throw (AppError 403 "Worker not verified" "NOT_VERIFIED")
      else
        booking <~ booking_findUnique (req_params_id req) ;;
        match booking with
        | None => Throw (AppError 404 "Booking not found" "NOT_FOUND")
        | Some booking =>
          if negb (bool_decide (booking_status booking = PENDING)) then
            Throw (AppError 400 "Booking is not available" "NOT_AVAILABLE")
          else
            workerService <~ workerService_findFirst (fun _ s =>
              String.eqb (service_workerId s) (worker_id worker)
              && String.eqb (service_categoryId s) (booking_categoryId booking)
              && service_isActive s) ;;
            match workerService with
            | None =>
                Throw (AppError 400 "You do not offer this service" "SERVICE_NOT_OFFERED")
            | Some workerService =>
              updatedBooking <~ booking_update (booking_id booking)
                {| set_status := Some ACCEPTED;
                   set_workerId := Some (worker_id worker);
                   set_estimatedPrice := Some (service_basePrice workerService);
                   set_finalPrice := None; set_startedAt := None;
                   set_completedAt := None |} ;;
              conversation <~ conversation_findUnique (booking_id booking) ;;
              _ <- match conversation with
                   | Some conversation =>
                       _ <~ conversationParticipant_create
                              (conversation_id conversation) (user_id (req_user req)) ;;
                       Done tt
                   | None => Done tt
                   end ;;
              _ <: emitToUser (booking_customerId booking) "booking:accepted"
                     [("bookingId", JStr (booking_id booking));
                      ("worker", JObj [("id", JStr (worker_id worker));
                                       ("userId", JStr (user_id (req_user req)))])] ;;
              _ <~ notification_create
                     {| notification_userId := booking_customerId booking;
                        notification_type := "BOOKING_ACCEPTED";
                        notification_title := "Booking Accepted";
                        notification_body := "A worker has accepted your service request";
                        notification_data := [("bookingId", JStr (booking_id booking))] |} ;;
              Done updatedBooking
            end
        end
    end).

(** ** POST /api/v1/admin/bookings/:id/cancel *)

Definition admin_post_cancel (req : Request unit) : Handler Booking :=
  adminOnly (req_user req) (
    booking <~ booking_update (req_params_id req) (statusOnly CANCELLED) ;;
    _ <- (if truthyOpt truthyStr (booking_workerId booking) then
            worker <~ worker_findUnique_id (default "" (booking_workerId booking)) ;;
            match worker with
            | Some worker =>
                _ <~ notification_create
                       {| notification_userId := worker_userId worker;
                          notification_type := "BOOKING_CANCELLED";
                          notification_title := "Booking Cancelled";
                          notification_body := "A booking has been cancelled by admin.";
                          notification_data := [("bookingId", JStr (booking_id booking))] |} ;;
                Done tt
            | None => Done tt
            end
          else Done tt) ;;
    _ <~ notification_create
           {| notification_userId := booking_customerId booking;
              notification_type := "BOOKING_CANCELLED";
              notification_title := "Booking Cancelled";
              notification_body := "Your booking has been cancelled.";
              notification_data := [("bookingId", JStr (booking_id booking))] |} ;;
    Done booking).

(** ** POST /api/v1/payments/initiate *)

(** [prisma.payment.upsert({ where: { bookingId }, create, update })]: the
    [update] branch leaves the amount and the provider reference alone. *)
Definition payment_upsert (bookingId : string) (amount : Q) (method : PaymentMethod)
    (status : PaymentStatus) (paidAt : option Z) : Query Payment :=
  fun w =>
    let update p := {| payment_id := payment_id p;
                       payment_bookingId := payment_bookingId p;
                       payment_amount := payment_amount p;
                       payment_method := method;
                       payment_status := status;
                       payment_paidAt := paidAt;
                       payment_providerRef := payment_providerRef p |} in
    match findPayment w bookingId with
    | Some p =>
        (withPayments (updateRows payment_bookingId bookingId update (payments w)) w,
         inr (update p))
    | None =>
        let p' := {| payment_id := cuid w (idgen w);
                     payment_bookingId := bookingId;
                     payment_amount := amount;
                     payment_method := method;
                     payment_status := status;
                     payment_paidAt := paidAt;
                     payment_providerRef := None |} in
        (withIdgen (S (idgen w)) (withPayments (payments w ++ [p']) w), inr p')
    end.

Record InitiateBody := {
  initiateBody_bookingId : option JValue;
  initiateBody_method : option JValue;
  initiateBody_phone : option JValue;
}.

Record InitiateData := {
  initiate_bookingId : string;
  initiate_method : PaymentMethod;
  initiate_phone : option string;
}.

(** [z.string()] *)
Definition zString (v : option JValue) : option string :=
  match v with
  | Some (JStr s) => Some s
  | _ => None
  end.

(** [z.string().optional()] *)
Definition zStringOptional (v : option JValue) : option (option string) :=
  match v with
  | None => Some None
  | Some (JStr s) => Some (Some s)
  | Some _ => None
  end.

(** [z.enum(['MTN_MOMO', 'VODAFONE_CASH', 'CASH'])] *)
Definition methodEnum (v : option JValue) : option PaymentMethod :=
  match v with
  | Some (JStr s) =>
      if String.eqb s "MTN_MOMO" then Some MTN_MOMO
      else if String.eqb s "VODAFONE_CASH" then Some VODAFONE_CASH
      else if String.eqb s "CASH" then Some CASH
      else None
  | _ => None
  end.

Definition issue {A} (name : string) (parsed : option A) : list string :=
  match parsed with
  | Some _ => []
  | None => [name]
  end.

Definition initiatePaymentSchema (body : InitiateBody) : Error + InitiateData :=
  match zString (initiateBody_bookingId body),
        methodEnum (initiateBody_method body),
        zStringOptional (initiateBody_phone body) with
  | Some b, Some m, Some p =>
      inr {| initiate_bookingId := b; initiate_method := m; initiate_phone := p |}
  | b, m, p =>
      inl (ZodError (issue "bookingId" b ++ issue "method" m ++ issue "phone" p))
  end.

Section Builtins.

(** Built-ins of JavaScript and of zod that the handlers call: how a number
    prints in a template string, the length of a string in code units, and
    the instant of a string that [z.string().datetime()] accepts. *)
Variable numberToString : Q -> string.
Variable strLength : string -> nat.
Variable isoDatetime : string -> option Z.

(** The end of the handler for a cash payment: the notice to the worker. *)
Definition initiate_notifyWorker (booking : Booking) (amount : Q) : Handler unit :=
  if truthyOpt truthyStr (booking_workerId booking) then
    worker <~ worker_findUnique_id (default "" (booking_workerId booking)) ;;
    match worker with
    | Some worker =>
        _ <: emitToUser (worker_userId worker) "payment:completed"
               [("bookingId", JStr (booking_id booking));
                ("amount", JNum amount); ("method", JStr "CASH")] ;;
        _ <~ notification_create
               {| notification_userId := worker_userId worker;
                  notification_type := "PAYMENT_RECEIVED";
                  notification_title := "Payment Received";
                  notification_body :=
                    "Cash payment of GHS " ++ numberToString amount ++ " confirmed";
                  notification_data := [("bookingId", JStr (booking_id booking))] |} ;;
        Done tt
    | None => Done tt
    end
  else Done tt.

Definition post_initiate (req : Request InitiateBody) : Handler (Payment * string) :=
  match initiatePaymentSchema (req_body req) with
  | inl zodError => Throw zodError
  | inr data =>
    found <~ booking_findUnique_payment (initiate_bookingId data) ;;
    match found with
    | None => Throw (AppError 404 "Booking not found" "NOT_FOUND")
    | Some (booking, bookingPayment) =>
      if negb (String.eqb (booking_customerId booking) (user_id (req_user req))) then
        Throw (AppError 403 "Not your booking" "FORBIDDEN")
      else if negb (bool_decide (booking_status booking = COMPLETED)) then
        Throw (AppError 400 "Booking is not completed yet" "NOT_COMPLETED")
      else if bool_decide (payment_status <$> bookingPayment = Some PAYMENT_COMPLETED) then
        Throw (AppError 400 "Payment already completed" "ALREADY_PAID")
      else
        match orNum (booking_finalPrice booking) (booking_estimatedPrice booking) with
        | None => Throw (AppError 400 "No price set for booking" "NO_PRICE")
        | Some amount =>
          if negb (truthyNum amount) then
            Throw (AppError 400 "No price set for booking" "NO_PRICE")
          else
            let isCash := bool_decide (initiate_method data = CASH) in
            status <- Done (if isCash then PAYMENT_COMPLETED else PAYMENT_PROCESSING) ;;
            paidAt <- (if isCash then now <: newDate ;; Done (Some now) else Done None) ;;
            payment <~ payment_upsert (booking_id booking) amount
                         (initiate_method data) status paidAt ;;
            match initiate_method data with
            | CASH =>
                _ <- initiate_notifyWorker booking amount ;;
                Done (payment, "Cash payment recorded")
            | MTN_MOMO | VODAFONE_CASH =>
                if negb (truthyOpt truthyStr (initiate_phone data)) then
                  Throw (AppError 400 "Phone number required for mobile money"
                           "PHONE_REQUIRED")
                else Done (payment, "Payment initiated. Please confirm on your phone.")
            end
        end
    end
  end.

(** ** POST /api/v1/bookings *)

Record CreateBody := {
  createBody_categoryId : option JValue;
  createBody_workerId : option JValue;
  createBody_description : option JValue;
  createBody_latitude : option JValue;
  createBody_longitude : option JValue;
  createBody_address : option JValue;
  createBody_scheduledAt : option JValue;
}.

Record CreateData := {
  create_categoryId : string;
  create_workerId : option string;
  create_description : string;
  create_latitude : Q;
  create_longitude : Q;
  create_address : string;
  create_scheduledAt : option string;
}.

(** [z.string().min(lo).max(hi)] *)
Definition zStringBetween (lo hi : nat) (v : option JValue) : option string :=
  match v with
  | Some (JStr s) =>
      if (lo <=? strLength s)%nat && (strLength s <=? hi)%nat then Some s else None
  | _ => None
  end.

(** [z.number().min(lo).max(hi)] *)
Definition zNumberBetween (lo hi : Q) (v : option JValue) : option Q :=
  match v with
  | Some (JNum q) => if Qle_bool lo q && Qle_bool q hi then Some q else None
  | _ => None
  end.

(** [z.string().datetime().optional()] *)
Definition zDatetimeOptional (v : option JValue) : option (option string) :=
  match v with
  | None => Some None
  | Some (JStr s) =>
      match isoDatetime s with
      | Some _ => Some (Some s)
      | None => None
      end
  | Some _ => None
  end.

Definition createBookingSchema (body : CreateBody) : Error + CreateData :=
  match zString (createBody_categoryId body),
        zStringOptional (createBody_workerId body),
        zStringBetween 10 1000 (createBody_description body),
        zNumberBetween (-90) 90 (createBody_latitude body),
        zNumberBetween (-180) 180 (createBody_longitude body),
        zStringBetween 5 500 (createBody_address body),
        zDatetimeOptional (createBody_scheduledAt body) with
  | Some c, Some k, Some d, Some la, Some lo, Some a, Some t =>
      inr {| create_categoryId := c; create_workerId := k; create_description := d;
             create_latitude := la; create_longitude := lo; create_address := a;
             create_scheduledAt := t |}
  | c, k, d, la, lo, a, t =>
      inl (ZodError (issue "categoryId" c ++ issue "workerId" k
                       ++ issue "description" d ++ issue "latitude" la
                       ++ issue "longitude" lo ++ issue "address" a
                       ++ issue "scheduledAt" t))
  end.

(** [prisma.serviceCategory.findUnique({ where: { id } })]: the name of the
    category. *)
Definition serviceCategory_findUnique (id : string) : Query (option string) :=
  fun w => (w, inr (categories w !! id)).

(** The [data] of [prisma.booking.create]. *)
Record BookingCreateInput := {
  new_customerId : string;
  new_workerId : option string;
  new_categoryId : string;
  new_description : string;
  new_latitude : Q;
  new_longitude : Q;
  new_address : string;
  new_scheduledAt : option Z;
  new_estimatedPrice : option Q;
  new_status : BookingStatus;
}.

(** [prisma.booking.create({ data, include: { category, worker } })]: the
    row gets a generated id and the creation time; the columns that [data]
    leaves out are null.  A worker id that names no worker breaks the
    foreign key (P2003), an id already taken the primary key (P2002). *)
Definition booking_create (data : BookingCreateInput)
  : Query (Booking * option string * option Worker) :=
  fun w =>
    let id := cuid w (idgen w) in
    let b := {| booking_id := id;
                booking_customerId := new_customerId data;
                booking_workerId := new_workerId data;
                booking_categoryId := new_categoryId data;
                booking_description := new_description data;
                booking_latitude := new_latitude data;
                booking_longitude := new_longitude data;
                booking_address := new_address data;
                booking_status := new_status data;
                booking_estimatedPrice := new_estimatedPrice data;
                booking_finalPrice := None;
                booking_scheduledAt := new_scheduledAt data;
                booking_startedAt := None;
                booking_completedAt := None;
                booking_createdAt := clock w |} in
    match findBooking w id with
    | Some _ => (w, inl (PrismaError "P2002"))
    | None =>
        match new_workerId data, workerOf w b with
        | Some _, None => (w, inl (PrismaError "P2003"))
        | _, worker =>
            (withIdgen (S (idgen w)) (withBookings (bookings w ++ [b]) w),
             inr (b, categories w !! new_categoryId data, worker))
        end
    end.

(** [prisma.conversation.create({ data: { bookingId, participants } })] *)
Definition conversation_create (bookingId : string) (participants : list string)
  : Query unit :=
  fun w =>
    match findConversation w bookingId with
    | Some _ => (w, inl (PrismaError "P2002"))
    | None =>
        let c := {| conversation_id := cuid w (idgen w);
                    conversation_bookingId := bookingId;
                    conversation_participants := participants |} in
        (withIdgen (S (idgen w)) (withConversations (conversations w ++ [c]) w), inr tt)
    end.

Definition post_booking (req : Request CreateBody) : Handler Booking :=
  match createBookingSchema (req_body req) with
  | inl zodError => Throw zodError
  | inr data =>
    category <~ serviceCategory_findUnique (create_categoryId data) ;;
    match category with
    | None => Throw (AppError 404 "Service category not found" "NOT_FOUND")
    | Some _ =>
      estimatedPrice <-
        (if truthyOpt truthyStr (create_workerId data) then
           workerService <~ workerService_findFirst (fun w s =>
             match findWorkerById w (service_workerId s) with
             | Some k =>
                 bool_decide (Some (worker_id k) = create_workerId data)
                 && bool_decide (worker_verificationStatus k = VERIFIED)
             | None => false
             end
             && String.eqb (service_categoryId s) (create_categoryId data)
             && service_isActive s) ;;
           match workerService with
           | None =>
               Throw (AppError 400 "Worker does not offer this service" "INVALID_WORKER")
           | Some workerService => Done (Some (service_basePrice workerService))
           end
         else Done None) ;;
      created <~ booking_create
        {| new_customerId := user_id (req_user req);
           new_workerId := create_workerId data;
           new_categoryId := create_categoryId data;
           new_description := create_description data;
           new_latitude := create_latitude data;
           new_longitude := create_longitude data;
           new_address := create_address data;
           new_scheduledAt :=
             (if truthyOpt truthyStr (create_scheduledAt data)
              then create_scheduledAt data ≫= isoDatetime else None);
           new_estimatedPrice := estimatedPrice;
           new_status :=
             (if truthyOpt truthyStr (create_workerId data) then PENDING else PENDING) |} ;;
      let '(booking, categoryName, bookingWorker) := created in
      workerParticipant <-
        (if truthyOpt truthyStr (create_workerId data) then
           match bookingWorker with
           | Some k => Done [worker_userId k]
           | None => Throw (TypeError "Cannot read properties of null (reading 'userId')")
           end
         else Done []) ;;
      _ <~ conversation_create (booking_id booking)
             (user_id (req_user req) :: workerParticipant) ;;
      _ <- (if truthyOpt truthyStr (create_workerId data) then
              match bookingWorker with
              | Some k =>
                  _ <: emitToUser (worker_userId k) "booking:new"
                         [("bookingId", JStr (booking_id booking));
                          ("category", JStr (default "" categoryName));
                          ("address", JStr (booking_address booking))] ;;
                  _ <~ notification_create
                         {| notification_userId := worker_userId k;
                            notification_type := "BOOKING_REQUEST";
                            notification_title := "New Booking Request";
                            notification_body :=
                              "New " ++ default "" categoryName ++ " service request";
                            notification_data :=
                              [("bookingId", JStr (booking_id booking))] |} ;;
                  Done tt
              | None => Done tt
              end
            else Done tt) ;;
      Done booking
    end
  end.

End Builtins.

(** ** Vocabulary of the properties *)

(** The tables and generators that a status update never touches. *)
Definition sameButBookings (w w' : World) : Prop :=
  categories w' = categories w /\ workers w' = workers w
  /\ workerServices w' = workerServices w /\ payments w' = payments w
  /\ conversations w' = conversations w /\ clock w' = clock w
  /\ cuid w' = cuid w /\ idgen w' = idgen w.

(** The tables that only the creation of a booking and the payments write. *)
Definition sameCatalogue (w w' : World) : Prop :=
  categories w' = categories w /\ workers w' = workers w
  /\ workerServices w' = workerServices w /\ payments w' = payments w.

(** The [data] of the update that accepting a booking makes. *)
Definition acceptData (worker : Worker) (service : WorkerService) : BookingUpdateInput :=
  {| set_status := Some ACCEPTED;
     set_workerId := Some (worker_id worker);
     set_estimatedPrice := Some (service_basePrice service);
     set_finalPrice := None; set_startedAt := None; set_completedAt := None |}.

(** The user has a verified worker profile with an active service of the
    category. *)
Definition claimant (w : World) (user : AuthUser) (categoryId : string) : Prop :=
  exists worker service,
    findWorkerByUserId w (user_id user) = Some worker
    /\ worker_verificationStatus worker = VERIFIED
    /\ In service (workerServices w)
    /\ service_workerId service = worker_id worker
    /\ service_categoryId service = categoryId
    /\ service_isActive service = true.

(** The transition table of section 4.1 of the specification, as the pairs
    (current status, target status) it allows. *)
Definition transitionTable : list (BookingStatus * BookingStatus) :=
  [(PENDING, ACCEPTED); (PENDING, CANCELLED);
   (ACCEPTED, WORKER_EN_ROUTE); (ACCEPTED, CANCELLED);
   (WORKER_EN_ROUTE, IN_PROGRESS); (WORKER_EN_ROUTE, CANCELLED);
   (IN_PROGRESS, COMPLETED); (IN_PROGRESS, CANCELLED)].

(** The terminal statuses of the specification. *)
Definition terminal (s : BookingStatus) : bool :=
  match s with
  | COMPLETED | CANCELLED => true
  | _ => false
  end.

(** The message of the error for a pair outside the table. *)
Definition invalidTransition (from to : BookingStatus) : Error :=
  AppError 400
    ("Cannot transition from " ++ statusName from ++ " to " ++ statusName to)
    "INVALID_STATUS_TRANSITION".

(** The requests that write bookings or payments, and the world each one
    leaves when it is handled alone. *)
Inductive Call :=
| PostBooking (req : Request CreateBody)
| PatchStatus (req : Request StatusBody)
| PostAccept (req : Request unit)
| PostInitiate (req : Request InitiateBody)
| AdminPostCancel (req : Request unit).

(** The calls of the public API. *)
Definition publicApi (c : Call) : bool :=
  match c with
  | AdminPostCancel _ => false
  | _ => true
  end.

Definition isAccept (c : Call) : bool :=
  match c with
  | PostAccept _ => true
  | _ => false
  end.

Section Api.

Variable numberToString : Q -> string.
Variable strLength : string -> nat.
Variable isoDatetime : string -> option Z.

Definition serve (c : Call) (w : World) : World :=
  match c with
  | PostBooking req => fst (run (post_booking strLength isoDatetime req) w)
  | PatchStatus req => fst (run (patch_status req) w)
  | PostAccept req => fst (run (post_accept req) w)
  | PostInitiate req => fst (run (post_initiate numberToString req) w)
  | AdminPostCancel req => fst (run (admin_post_cancel req) w)
  end.

Definition serveAll (calls : list Call) (w : World) : World :=
  fold_left (fun w c => serve c w) calls w.

End Api.

(** How a call may rewrite a booking [b] into [b']. *)
Definition rewrites (c : Call) (b b' : Booking) : Prop :=
  match c with
  | PatchStatus _ =>
      transitionAllowed (booking_status b) (booking_status b') = true
      /\ (truthyOpt truthyStr (booking_workerId b) = true ->
          booking_workerId b' = booking_workerId b)
      /\ (booking_status b' <> CANCELLED -> booking_workerId b <> None)
      /\ (booking_workerId b <> None -> booking_workerId b' <> None)
  | PostAccept _ =>
      booking_status b = PENDING /\ booking_status b' = ACCEPTED
      /\ booking_workerId b' <> None
  | AdminPostCancel _ =>
      booking_status b' = CANCELLED /\ booking_workerId b' = booking_workerId b
  | PostBooking _ => False
  | PostInitiate _ => False
  end.

(** A booking past PENDING and not cancelled has a worker. *)
Definition workersKnown (w : World) : Prop :=
  forall id b,
    findBooking w id = Some b ->
    booking_status b <> PENDING -> booking_status b <> CANCELLED ->
    booking_workerId b <> None.

(** ** The seeded database

    The rows that the seed script creates, with readable ids in place of the
    generated ones: five categories, six workers (the last one not yet
    verified), and five bookings, one in each of COMPLETED (twice),
    IN_PROGRESS, ACCEPTED and PENDING (not assigned). *)
Module Seed.

Definition worker (n : string) (v : VerificationStatus) : Worker :=
  {| worker_id := "worker-" ++ n; worker_userId := "user-worker-" ++ n;
     worker_verificationStatus := v |}.

Definition service (n c : string) (price : Q) : WorkerService :=
  {| service_workerId := "worker-" ++ n; service_categoryId := "category-" ++ c;
     service_isActive := true; service_basePrice := price |}.

Definition booking (n customer : string) (w : option string) (c description : string)
    (latitude longitude : Q) (address : string) (status : BookingStatus)
    (estimated final : option Q) (started completed : option Z) : Booking :=
  {| booking_id := "booking-" ++ n;
     booking_customerId := "customer-" ++ customer;
     booking_workerId := (fun k => "worker-" ++ k) <$> w;
     booking_categoryId := "category-" ++ c;
     booking_description := description;
     booking_latitude := latitude;
     booking_longitude := longitude;
     booking_address := address;
     booking_status := status;
     booking_estimatedPrice := estimated;
     booking_finalPrice := final;
     booking_scheduledAt := None;
     booking_startedAt := started;
     booking_completedAt := completed;
     booking_createdAt := 0 |}.

Definition sink : Booking :=
  booking "0" "0" (Some "0") "0" "Kitchen sink is leaking. Need urgent repair."
    5.6037 (-0.1870) "Osu, Accra" COMPLETED (Some 50%Q) (Some 55%Q) (Some 100%Z) (Some 200%Z).

Definition outlet : Booking :=
  booking "1" "1" (Some "1") "1" "Power outlet not working in living room"
    5.5913 (-0.2219) "Dansoman, Accra" COMPLETED (Some 80%Q) (Some 80%Q) (Some 300%Z) (Some 400%Z).

Definition screen : Booking :=
  booking "2" "2" (Some "2") "2" "iPhone 13 screen cracked, need replacement"
    5.6145 (-0.2053) "Cantonments, Accra" IN_PROGRESS (Some 30%Q) None (Some 500%Z) None.

Definition cleaning : Booking :=
  booking "3" "0" (Some "3") "3" "Need deep cleaning for 4-bedroom house"
    5.6037 (-0.1870) "Osu, Accra" ACCEPTED (Some 200%Q) None None None.

Definition wardrobe : Booking :=
  booking "4" "1" None "4" "Wardrobe door broken, need repair"
    5.5913 (-0.2219) "Dansoman, Accra" PENDING (Some 120%Q) None None None.

Definition paid (b : Booking) (amount : Q) : Payment :=
  {| payment_id := "payment-" ++ booking_id b; payment_bookingId := booking_id b;
     payment_amount := amount; payment_method := MTN_MOMO;
     payment_status := PAYMENT_COMPLETED; payment_paidAt := Some 450%Z;
     payment_providerRef := None |}.

Definition world : World :=
  {| categories := {[ "category-0" := "Plumber"; "category-1" := "Electrician";
                      "category-2" := "Phone Repair"; "category-3" := "House Cleaning";
                      "category-4" := "Carpenter" ]};
     workers := [worker "0" VERIFIED; worker "1" VERIFIED; worker "2" VERIFIED;
                 worker "3" VERIFIED; worker "4" VERIFIED;
                 worker "5" VERIFICATION_PENDING];
     workerServices := [service "0" "0" 50; service "1" "1" 80; service "2" "2" 30;
                        service "3" "3" 100; service "4" "4" 120;
                        service "5" "0" 60; service "5" "1" 70];
     bookings := [sink; outlet; screen; cleaning; wardrobe];
     payments := [paid sink 55; paid outlet 80];
     conversations := [];
     notifications := [];
     emitted := [];
     clock := 1000;
     cuid := fun n => "cuid-" ++ pretty n;
     idgen := 0 |}.

(** The seeded database with one more verified carpenter. *)
Definition contested : World :=
  {| categories := categories world;
     workers := workers world ++ [worker "6" VERIFIED];
     workerServices := workerServices world ++ [service "6" "4" 110];
     bookings := bookings world;
     payments := payments world;
     conversations := conversations world;
     notifications := notifications world;
     emitted := emitted world;
     clock := clock world;
     cuid := cuid world;
     idgen := idgen world |}.

Definition asWorker (n : string) : AuthUser :=
  {| user_id := "user-worker-" ++ n; user_role := WORKER |}.

Definition asCustomer (n : string) : AuthUser :=
  {| user_id := "customer-" ++ n; user_role := CUSTOMER |}.

Definition asAdmin : AuthUser :=
  {| user_id := "admin"; user_role := ADMIN |}.

(** [PATCH /bookings/:id/status] with the body [{ status }] or
    [{ status, finalPrice }]. *)
Definition patch (user : AuthUser) (b : Booking) (status : string) (price : option Q)
  : Request StatusBody :=
  {| req_user := user; req_params_id := booking_id b;
     req_body := {| body_status := Some (JStr status);
                    body_finalPrice := JNum <$> price |} |}.

(** A request without a body for the booking [b]. *)
Definition post (user : AuthUser) (b : Booking) : Request unit :=
  {| req_user := user; req_params_id := booking_id b; req_body := tt |}.

(** Built-ins for the examples: lengths in bytes, no date accepted, and a
    number printed as its numerator. *)
Definition noDatetime (s : string) : option Z := None.

Definition numerator (q : Q) : string := pretty (Qnum q).

(** A customer asks for the carpenter of the seed by name. *)
Definition shelfRequest : Request CreateBody :=
  {| req_user := asCustomer "2"; req_params_id := "";
     req_body :=
       {| createBody_categoryId := Some (JStr "category-4");
          createBody_workerId := Some (JStr "worker-4");
          createBody_description := Some (JStr "Bookshelf needs new hinges");
          createBody_latitude := Some (JNum 5.6145);
          createBody_longitude := Some (JNum (-0.2053));
          createBody_address := Some (JStr "Cantonments, Accra");
          createBody_scheduledAt := None |} |}.

(** The booking that request creates in the seeded database. *)
Definition shelf : Booking :=
  {| booking_id := "cuid-0"; booking_customerId := "customer-2";
     booking_workerId := Some "worker-4"; booking_categoryId := "category-4";
     booking_description := "Bookshelf needs new hinges";
     booking_latitude := 5.6145; booking_longitude := -0.2053;
     booking_address := "Cantonments, Accra"; booking_status := PENDING;
     booking_estimatedPrice := Some 120%Q; booking_finalPrice := None;
     booking_scheduledAt := None; booking_startedAt := None;
     booking_completedAt := None; booking_createdAt := 1000 |}.

(** The database with the rival once the customer has asked for the
    carpenter of the seed. *)
Definition requested : World :=
  fst (run (post_booking String.length noDatetime shelfRequest) contested).

(** The seeded database once the phone repair is completed for 35, and the
    request of its customer to pay in cash. *)
Definition repaired : World :=
  fst (run (patch_status (patch (asWorker "2") screen "COMPLETED" (Some 35%Q))) world).

Definition payCash : Request InitiateBody :=
  {| req_user := asCustomer "2"; req_params_id := "";
     req_body := {| initiateBody_bookingId := Some (JStr "booking-2");
                    initiateBody_method := Some (JStr "CASH");
                    initiateBody_phone := None |} |}.

Definition cashPayment : Payment :=
  {| payment_id := "cuid-0"; payment_bookingId := "booking-2";
     payment_amount := 35; payment_method := CASH;
     payment_status := PAYMENT_COMPLETED; payment_paidAt := Some 1000%Z;
     payment_providerRef := None |}.

(** Two carpenters accept the unassigned booking of the seed at the same
    time; in [raced] each one has read the booking before the other writes,
    in [queued] the second request starts when the first has finished. *)
Definition rivals : list (Handler Booking) :=
  [post_accept (post (asWorker "4") wardrobe); post_accept (post (asWorker "6") wardrobe)].

Definition raced : list nat := [0; 0; 1; 1; 0; 0; 0; 0; 0; 1; 1; 1; 1; 1]%nat.

Definition queued : list nat := [0; 0; 0; 0; 0; 0; 0; 1; 1]%nat.

End Seed.


(** ** GET /api/v1/bookings/:id *)

(** [prisma.booking.findUnique({ where: { id }, include: { worker, payment,
    ... } })]: the booking with its worker and its payment. *)
Definition booking_findUnique_details (id : string)
  : Query (option (Booking * option Worker * option Payment)) :=
  fun w => (w, inr (match findBooking w id with
                    | Some b => Some (b, workerOf w b, findPayment w (booking_id b))
                    | None => None
                    end)).

Definition get_booking (req : Request unit)
  : Handler (Booking * option Worker * option Payment) :=
  found <~ booking_findUnique_details (req_params_id req) ;;
  match found with
  | None => Throw (AppError 404 "Booking not found" "NOT_FOUND")
  | Some (booking, bookingWorker, bookingPayment) =>
    let isCustomer := isCustomerOf booking (req_user req) in
    let isWorker := isWorkerOf bookingWorker (req_user req) in
    let isAdmin := bool_decide (user_role (req_user req) = ADMIN) in
    if negb isCustomer && negb isWorker && negb isAdmin then
      Throw (AppError 403 "Access denied" "FORBIDDEN")
    else Done (booking, bookingWorker, bookingPayment)
  end.

(** ** GET /api/v1/payments/:id *)

Definition findPaymentById (w : World) (id : string) : option Payment :=
  find (fun p => String.eqb (payment_id p) id) (payments w).

(** [prisma.payment.findUnique({ where: { id }, include: { booking } })]:
    the payment with the booking it belongs to and the worker of that
    booking. *)
Definition payment_findUnique_booking (id : string)
  : Query (option (Payment * option (Booking * option Worker))) :=
  fun w => (w, inr (match findPaymentById w id with
                    | Some p =>
                        Some (p, match findBooking w (payment_bookingId p) with
                                 | Some b => Some (b, workerOf w b)
                                 | None => None
                                 end)
                    | None => None
                    end)).

Definition get_payment (req : Request unit) : Handler Payment :=
  found <~ payment_findUnique_booking (req_params_id req) ;;
  match found with
  | None => Throw (AppError 404 "Payment not found" "NOT_FOUND")
  | Some (payment, None) =>
      Throw (TypeError "Cannot read properties of null (reading 'customerId')")
  | Some (payment, Some (booking, bookingWorker)) =>
    let isCustomer := isCustomerOf booking (req_user req) in
    let isWorker := isWorkerOf bookingWorker (req_user req) in
    let isAdmin := bool_decide (user_role (req_user req) = ADMIN) in
    if negb isCustomer && negb isWorker && negb isAdmin then
      Throw (AppError 403 "Access denied" "FORBIDDEN")
    else Done payment
  end.

(** ** POST /api/v1/payments/webhook/mtn *)

(** The body of the webhook, which is read without a schema.  The
    transaction id is a string, as the provider sends it; the status is
    whatever the body holds.  The column [providerResponse], which keeps
    the body, is not among the columns of [Payment]. *)
Record WebhookBody := {
  webhook_transactionId : string;
  webhook_status : option JValue;
}.

(** [status === s] *)
Definition statusIs (status : option JValue) (s : string) : bool :=
  match status with
  | Some (JStr t) => String.eqb t s
  | _ => false
  end.

Definition findPaymentByRef (w : World) (ref : string) : option Payment :=
  find (fun p => bool_decide (payment_providerRef p = Some ref)) (payments w).

(** [prisma.payment.findFirst({ where: { providerRef }, include: { booking:
    true } })] *)
Definition payment_findFirst_providerRef (ref : string)
  : Query (option (Payment * option Booking)) :=
  fun w => (w, inr (match findPaymentByRef w ref with
                    | Some p => Some (p, findBooking w (payment_bookingId p))
                    | None => None
                    end)).

(** [prisma.payment.update({ where: { id }, data })] *)
Definition payment_update (id : string) (data : Payment -> Payment) : Query Payment :=
  fun w =>
    match findPaymentById w id with
    | Some p => (withPayments (updateRows payment_id id data (payments w)) w, inr (data p))
    | None => (w, inl (PrismaError "P2025"))
    end.

(** [data: { status: 'COMPLETED', paidAt: new Date() }] *)
Definition paymentCompleted (now : Z) (p : Payment) : Payment :=
  {| payment_id := payment_id p; payment_bookingId := payment_bookingId p;
     payment_amount := payment_amount p; payment_method := payment_method p;
     payment_status := PAYMENT_COMPLETED; payment_paidAt := Some now;
     payment_providerRef := payment_providerRef p |}.

(** [data: { status: 'FAILED' }] *)
Definition paymentFailed (p : Payment) : Payment :=
  {| payment_id := payment_id p; payment_bookingId := payment_bookingId p;
     payment_amount := payment_amount p; payment_method := payment_method p;
     payment_status := PAYMENT_FAILED; payment_paidAt := payment_paidAt p;
     payment_providerRef := payment_providerRef p |}.

Section Webhook.

Variable numberToString : Q -> string.

(** The handler answers [{ received: true }] with 200 on every path that
    does not throw. *)
Definition post_webhook_mtn (body : WebhookBody) : Handler unit :=
  found <~ payment_findFirst_providerRef (webhook_transactionId body) ;;
  match found with
  | None => Done tt
  | Some (payment, paymentBooking) =>
    if statusIs (webhook_status body) "SUCCESSFUL" then
      now <: newDate ;;
      _ <~ payment_update (payment_id payment) (paymentCompleted now) ;;
      match paymentBooking with
      | None => Throw (TypeError "Cannot read properties of null (reading 'workerId')")
      | Some booking =>
        _ <- (if truthyOpt truthyStr (booking_workerId booking) then
                worker <~ worker_findUnique_id (default "" (booking_workerId booking)) ;;
                match worker with
                | Some worker =>
                    _ <: emitToUser (worker_userId worker) "payment:completed"
                           [("bookingId", JStr (payment_bookingId payment));
                            ("amount", JNum (payment_amount payment));
                            ("method", JStr "MTN_MOMO")] ;;
                    _ <~ notification_create
                           {| notification_userId := worker_userId worker;
                              notification_type := "PAYMENT_RECEIVED";
                              notification_title := "Payment Received";
                              notification_body :=
                                "Mobile money payment of GHS "
                                ++ numberToString (payment_amount payment) ++ " received";
                              notification_data :=
                                [("bookingId", JStr (payment_bookingId payment))] |} ;;
                    Done tt
                | None => Done tt
                end
              else Done tt) ;;
        _ <: emitToUser (booking_customerId booking) "payment:success"
               [("bookingId", JStr (payment_bookingId payment))] ;;
        Done tt
      end
    else if statusIs (webhook_status body) "FAILED" then
      _ <~ payment_update (payment_id payment) paymentFailed ;;
      match paymentBooking with
      | None => Throw (TypeError "Cannot read properties of null (reading 'customerId')")
      | Some booking =>
        _ <: emitToUser (booking_customerId booking) "payment:failed"
               [("bookingId", JStr (payment_bookingId payment))] ;;
        Done tt
      end
    else Done tt
  end.

End Webhook.

(** What a webhook that is matched does to a payment. *)
Definition webhookData (w : World) (body : WebhookBody) (p : Payment) : Payment :=
  if statusIs (webhook_status body) "SUCCESSFUL" then paymentCompleted (clock w) p
  else if statusIs (webhook_status body) "FAILED" then paymentFailed p
  else p.

(** No payment has a reference of the provider. *)
Definition withoutReferences (w : World) : bool :=
  forallb (fun p => bool_decide (payment_providerRef p = None)) (payments w).

(** The seeded database with the references of the seed script on its two
    payments, and webhooks of the provider. *)
Module Provider.

Definition referred (ref : string) (p : Payment) : Payment :=
  {| payment_id := payment_id p; payment_bookingId := payment_bookingId p;
     payment_amount := payment_amount p; payment_method := payment_method p;
     payment_status := payment_status p; payment_paidAt := payment_paidAt p;
     payment_providerRef := Some ref |}.

Definition world : World :=
  withPayments [referred "MTN_REF_001" (Seed.paid Seed.sink 55);
                referred "MTN_REF_002" (Seed.paid Seed.outlet 80)] Seed.world.

Definition webhook (ref status : string) : WebhookBody :=
  {| webhook_transactionId := ref; webhook_status := Some (JStr status) |}.

(** The phone repair is completed for 35 and its customer asks to pay by
    MTN mobile money. *)
Definition payMomo : Request InitiateBody :=
  {| req_user := Seed.asCustomer "2"; req_params_id := "";
     req_body := {| initiateBody_bookingId := Some (JStr "booking-2");
                    initiateBody_method := Some (JStr "MTN_MOMO");
                    initiateBody_phone := Some (JStr "0241234567") |} |}.

Definition calls : list Call :=
  [PatchStatus (Seed.patch (Seed.asWorker "2") Seed.screen "COMPLETED" (Some 35%Q));
   PostInitiate payMomo].

End Provider.

(** ** Vocabulary of the further properties *)

(** The notification a status update leaves for the customer. *)
Definition statusNotifications (b : Booking) (s : BookingStatus) : list Notification :=
  match notificationTypes s with
  | Some (type, title, body) =>
      [{| notification_userId := booking_customerId b;
          notification_type := type;
          notification_title := title;
          notification_body := body;
          notification_data := [("bookingId", JStr (booking_id b))] |}]
  | None => []
  end.

(** The socket events of a status update: one for the room of the booking,
    and one for the customer when there is a notification. *)
Definition statusEvents (b : Booking) (s : BookingStatus) : list Emitted :=
  {| emitted_room := "booking:" ++ booking_id b;
     emitted_event := "booking:status";
     emitted_data := [("bookingId", JStr (booking_id b)); ("status", JStr (statusName s))] |}
  :: match notificationTypes s with
     | Some (type, title, body) =>
         [{| emitted_room := "user:" ++ booking_customerId b;
             emitted_event := "notification";
             emitted_data := [("type", JStr type); ("title", JStr title);
                              ("body", JStr body)] |}]
     | None => []
     end.

(** Who may ask for a target status in the status update. *)
Definition entitled (w : World) (b : Booking) (user : AuthUser) (target : BookingStatus)
  : bool :=
  if bool_decide (target = CANCELLED)
  then isWorkerOf (workerOf w b) user || isCustomerOf b user
  else isWorkerOf (workerOf w b) user.

(** The notification that accepting a booking leaves for its customer. *)
Definition acceptedNotification (b : Booking) : Notification :=
  {| notification_userId := booking_customerId b;
     notification_type := "BOOKING_ACCEPTED";
     notification_title := "Booking Accepted";
     notification_body := "A worker has accepted your service request";
     notification_data := [("bookingId", JStr (booking_id b))] |}.

(** A conversation with one more participant. *)
Definition joined (userId : string) (c : Conversation) : Conversation :=
  {| conversation_id := conversation_id c;
     conversation_bookingId := conversation_bookingId c;
     conversation_participants := conversation_participants c ++ [userId] |}.

(** The services that the creation of a booking accepts for a requested
    worker: of that worker, verified, in the category, and active. *)
Definition offeredBy (w : World) (workerId : option string) (categoryId : string)
    (s : WorkerService) : bool :=
  match findWorkerById w (service_workerId s) with
  | Some k =>
      bool_decide (Some (worker_id k) = workerId)
      && bool_decide (worker_verificationStatus k = VERIFIED)
  | None => false
  end
  && String.eqb (service_categoryId s) categoryId
  && service_isActive s.

(** The notification that the creation of a booking leaves for the
    requested worker. *)
Definition requestNotification (k : Worker) (b : Booking) (categoryName : string)
  : Notification :=
  {| notification_userId := worker_userId k;
     notification_type := "BOOKING_REQUEST";
     notification_title := "New Booking Request";
     notification_body := "New " ++ categoryName ++ " service request";
     notification_data := [("bookingId", JStr (booking_id b))] |}.

(** The notifications that the cancellation by an administrator leaves: one
    for the worker of the booking when it has one that exists, then one for
    the customer. *)
Definition adminCancelNotifications (w : World) (b : Booking) : list Notification :=
  (match (if truthyOpt truthyStr (booking_workerId b)
          then findWorkerById w (default "" (booking_workerId b))
          else None) with
   | Some k =>
       [{| notification_userId := worker_userId k;
           notification_type := "BOOKING_CANCELLED";
           notification_title := "Booking Cancelled";
           notification_body := "A booking has been cancelled by admin.";
           notification_data := [("bookingId", JStr (booking_id b))] |}]
   | None => []
   end
   ++ [{| notification_userId := booking_customerId b;
          notification_type := "BOOKING_CANCELLED";
          notification_title := "Booking Cancelled";
          notification_body := "Your booking has been cancelled.";
          notification_data := [("bookingId", JStr (booking_id b))] |}])%list.

(** ** The work of the assigned worker *)

(** The [updateData] of a status update for a booking that has a worker. *)
Definition workerUpdate (now : Z) (data : StatusData) : BookingUpdateInput :=
  {| set_status := Some (data_status data);
     set_workerId := None;
     set_estimatedPrice := None;
     set_finalPrice :=
       if bool_decide (data_status data = COMPLETED)
       then if truthyOpt truthyNum (data_finalPrice data) then data_finalPrice data
            else None
       else None;
     set_startedAt :=
       if bool_decide (data_status data = IN_PROGRESS) then Some now else None;
     set_completedAt :=
       if bool_decide (data_status data = COMPLETED) then Some now else None |}.

(** The requests by which the worker of an accepted booking does the work
    and its customer pays in cash. *)
Definition statusRequest (user : AuthUser) (id status : string) (price : option Q)
  : Request StatusBody :=
  {| req_user := user; req_params_id := id;
     req_body := {| body_status := Some (JStr status);
                    body_finalPrice := JNum <$> price |} |}.

Definition cashRequest (user : AuthUser) (bookingId : string) : Request InitiateBody :=
  {| req_user := user; req_params_id := "";
     req_body := {| initiateBody_bookingId := Some (JStr bookingId);
                    initiateBody_method := Some (JStr "CASH");
                    initiateBody_phone := None |} |}.

Definition workDone (worker : AuthUser) (id : string) (price : Q) : list Call :=
  [PatchStatus (statusRequest worker id "WORKER_EN_ROUTE" None);
   PatchStatus (statusRequest worker id "IN_PROGRESS" None);
   PatchStatus (statusRequest worker id "COMPLETED" (Some price))].

(** ** POST /api/v1/reviews *)

Record Review := {
  review_id : string;
  review_bookingId : string;
  review_customerId : string;
  review_workerId : string;
  review_rating : Q;
  review_comment : option string;
}.

(** The two columns of a worker that are computed from the reviews. *)
Record Ratings := {
  averageRating : Q;
  totalReviews : nat;
}.

(** The database with the table of the reviews and those columns, by the id
    of the worker. *)
Record Reviewed := {
  base : World;
  reviews : list Review;
  ratings : gmap string Ratings;
}.

Record ReviewBody := {
  reviewBody_bookingId : option JValue;
  reviewBody_rating : option JValue;
  reviewBody_comment : option JValue;
}.

Record ReviewData := {
  reviewData_bookingId : string;
  reviewData_rating : Q;
  reviewData_comment : option string;
}.

(** [Number.isInteger] *)
Definition isInteger (q : Q) : bool := (Qnum q mod Zpos (Qden q) =? 0)%Z.

(** [z.number().int().min(1).max(5)] *)
Definition zRating (v : option JValue) : option Q :=
  match v with
  | Some (JNum q) =>
      if isInteger q && Qle_bool 1 q && Qle_bool q 5 then Some q else None
  | _ => None
  end.

Definition findReview (s : Reviewed) (bookingId : string) : option Review :=
  find (fun r => String.eqb (review_bookingId r) bookingId) (reviews s).

(** The rows of [where: { workerId }]. *)
Definition reviewsOf (workerId : string) (rows : list Review) : list Review :=
  filter (fun r => String.eqb (review_workerId r) workerId = true) rows.

Definition total (l : list Q) : Q := fold_right Qplus 0%Q l.

(** [_avg], which is null when there is no row. *)
Definition average (l : list Q) : option Q :=
  match l with
  | [] => None
  | _ => Some (total l / inject_Z (Z.of_nat (length l)))%Q
  end.

(** [avg || 0] *)
Definition orZero (avg : option Q) : Q :=
  match avg with
  | Some q => if truthyNum q then q else 0%Q
  | None => 0%Q
  end.

Section Reviews.

Variable numberToString : Q -> string.
Variable strLength : string -> nat.

(** [z.string().max(1000).optional()] *)
Definition zCommentOptional (v : option JValue) : option (option string) :=
  match v with
  | None => Some None
  | Some (JStr s) => if (strLength s <=? 1000)%nat then Some (Some s) else None
  | Some _ => None
  end.

Definition createReviewSchema (body : ReviewBody) : Error + ReviewData :=
  match zString (reviewBody_bookingId body),
        zRating (reviewBody_rating body),
        zCommentOptional (reviewBody_comment body) with
  | Some b, Some r, Some c =>
      inr {| reviewData_bookingId := b; reviewData_rating := r; reviewData_comment := c |}
  | b, r, c =>
      inl (ZodError (issue "bookingId" b ++ issue "rating" r ++ issue "comment" c))
  end.

(** The handler, one request at a time: the state after it and its
    response.  After its checks the booking has no review and its worker is
    there, so [prisma.review.create] and [prisma.worker.update] have nothing
    to refuse; the review gets the next id of the database. *)
Definition post_review (req : Request ReviewBody) (s : Reviewed)
  : Reviewed * Result Review :=
  match createReviewSchema (req_body req) with
  | inl zodError => (s, Err zodError)
  | inr data =>
    match findBooking (base s) (reviewData_bookingId data) with
    | None => (s, Err (AppError 404 "Booking not found" "NOT_FOUND"))
    | Some booking =>
      if negb (String.eqb (booking_customerId booking) (user_id (req_user req))) then
        (s, Err (AppError 403 "Not your booking" "FORBIDDEN"))
      else if negb (bool_decide (booking_status booking = COMPLETED)) then
        (s, Err (AppError 400 "Booking is not completed" "NOT_COMPLETED"))
      else
        match findReview s (booking_id booking) with
        | Some _ => (s, Err (AppError 400 "Review already exists" "ALREADY_REVIEWED"))
        | None =>
          match (if truthyOpt truthyStr (booking_workerId booking)
                 then workerOf (base s) booking else None) with
          | None => (s, Err (AppError 400 "No worker assigned to booking" "NO_WORKER"))
          | Some worker =>
            let workerId := default "" (booking_workerId booking) in
            let review :=
              {| review_id := cuid (base s) (idgen (base s));
                 review_bookingId := booking_id booking;
                 review_customerId := user_id (req_user req);
                 review_workerId := workerId;
                 review_rating := reviewData_rating data;
                 review_comment := reviewData_comment data |} in
            let created := (reviews s ++ [review])%list in
            let workerReviews := reviewsOf workerId created in
            let stats :=
              {| averageRating := orZero (average (review_rating <$> workerReviews));
                 totalReviews := length workerReviews |} in
            ({| base := fst (notification_create
                     {| notification_userId := worker_userId worker;
                        notification_type := "REVIEW_RECEIVED";
                        notification_title := "New Review";
                        notification_body :=
                          "You received a " ++ numberToString (reviewData_rating data)
                          ++ "-star review";
                        notification_data :=
                          [("bookingId", JStr (booking_id booking));
                           ("reviewId", JStr (review_id review))] |}
                     (fst (emitToUser (worker_userId worker) "review:new"
                             [("bookingId", JStr (booking_id booking));
                              ("rating", JNum (reviewData_rating data))]
                             (withIdgen (S (idgen (base s))) (base s)))));
                reviews := created;
                ratings := <[workerId := stats]> (ratings s) |},
             Ok review)
          end
        end
    end
  end.

End Reviews.

(** Every review of the table has a rating from 1 to 5. *)
Definition ratedInRange (rows : list Review) : Prop :=
  forall r, In r rows -> (1 <= review_rating r)%Q /\ (review_rating r <= 5)%Q.

(** The seeded database with the review of the plumber, and the request of
    a customer to rate a booking. *)
Module Feedback.

Definition state : Reviewed :=
  {| base := Seed.world;
     reviews := [{| review_id := "review-0"; review_bookingId := "booking-0";
                    review_customerId := "customer-0"; review_workerId := "worker-0";
                    review_rating := 5;
                    review_comment := Some "Excellent service! Very professional." |}];
     ratings := {[ "worker-0" := {| averageRating := 5; totalReviews := 1 |} ]} |}.

Definition rate (user : AuthUser) (b : Booking) (rating : Q) : Request ReviewBody :=
  {| req_user := user; req_params_id := "";
     req_body := {| reviewBody_bookingId := Some (JStr (booking_id b));
                    reviewBody_rating := Some (JNum rating);
                    reviewBody_comment := None |} |}.

(** The review that the customer of the electrician writes with four
    stars. *)
Definition fourStars : Review :=
  {| review_id := "cuid-0"; review_bookingId := "booking-1";
     review_customerId := "customer-1"; review_workerId := "worker-1";
     review_rating := 4; review_comment := None |}.

End Feedback.

(** ** Ghana phone numbers (common/utils/phone.ts) *)

(** A string is the sequence of its code units.  [\d] is an ASCII digit; a
    character outside ASCII is made of units that the cleaning removes,
    here as in JavaScript, so the lengths that are compared agree. *)
Definition isDigit (c : ascii) : bool :=
  (48 <=? nat_of_ascii c)%nat && (nat_of_ascii c <=? 57)%nat.

(** The characters that [replace(/[^\d+]/g, '')] leaves. *)
Definition phoneChar (c : ascii) : bool := isDigit c || Ascii.eqb c "+"%char.

Fixpoint keep (p : ascii -> bool) (s : string) : string :=
  match s with
  | EmptyString => EmptyString
  | String c s' => if p c then String c (keep p s') else keep p s'
  end.

Fixpoint allChars (p : ascii -> bool) (s : string) : bool :=
  match s with
  | EmptyString => true
  | String c s' => p c && allChars p s'
  end.

(** [s.startsWith(prefix)] *)
Definition startsWith (s prefix : string) : bool := String.prefix prefix s.

(** [s.substring(n)] *)
Definition substringFrom (n : nat) (s : string) : string :=
  String.substring n (String.length s - n) s.

(** [s.substring(a, b)], for [a <= b] *)
Definition substringBetween (a b : nat) (s : string) : string :=
  String.substring a (b - a) s.

(** [prefixes.includes(s)] *)
Definition includesPrefix (l : list string) (s : string) : bool :=
  existsb (String.eqb s) l.

Definition GHANA_COUNTRY_CODE : string := "+233".

Definition VALID_PREFIXES : list string :=
  ["20"; "24"; "26"; "27"; "50"; "54"; "55"; "57"; "59"].

(** [None] is the [Error('Invalid phone number format')] that is thrown. *)
Definition normalizeGhanaPhone (phone : string) : option string :=
  let cleaned := keep phoneChar phone in
  let cleaned := if startsWith cleaned "+" then substringFrom 1 cleaned else cleaned in
  let cleaned := if startsWith cleaned "233" then substringFrom 3 cleaned else cleaned in
  let cleaned := if startsWith cleaned "0" then substringFrom 1 cleaned else cleaned in
  if negb (String.length cleaned =? 9)%nat then None
  else Some (GHANA_COUNTRY_CODE ++ cleaned).

Definition isValidGhanaPhone (phone : string) : bool :=
  match normalizeGhanaPhone phone with
  | Some normalized =>
      let withoutCountryCode := substringFrom 4 normalized in
      let prefix := substringBetween 0 2 withoutCountryCode in
      includesPrefix VALID_PREFIXES prefix
  | None => false
  end.

Inductive Carrier := MTN | Vodafone | AirtelTigo | Unknown.

Definition getCarrier (phone : string) : Carrier :=
  match normalizeGhanaPhone phone with
  | Some normalized =>
      let prefix := substringBetween 4 6 normalized in
      if includesPrefix ["24"; "54"; "55"; "59"] prefix then MTN
      else if includesPrefix ["20"; "50"] prefix then Vodafone
      else if includesPrefix ["26"; "27"; "57"] prefix then AirtelTigo
      else Unknown
  | None => Unknown
  end.

Definition formatPhoneForDisplay (phone : string) : option string :=
  match normalizeGhanaPhone phone with
  | Some normalized =>
      let digits := substringFrom 4 normalized in
      Some (GHANA_COUNTRY_CODE ++ " " ++ substringBetween 0 2 digits ++ " "
            ++ substringBetween 2 5 digits ++ " " ++ substringFrom 5 digits)
  | None => None
  end.


(** * Properties *)

(** ** Running a handler *)

Lemma run_bind {A B} (h : Handler A) (f : A -> Handler B) (w : World) :
  run (bind h f) w =
  match run h w with
  | (w', Ok a) => run (f a) w'
  | (w', Err e) => (w', Err e)
  end.
Proof.
  revert w.
  induction h as [a | e | X q k IH | X g k IH]; intros w; simpl.
  - reflexivity.
  - reflexivity.
  - destruct (q w) as [w' [e | x]]; [reflexivity | apply IH].
  - destruct (g w) as [w' x]. apply IH.
Qed.

(** A request that is given its turns with no other request in flight ends
    as [run] says: the two ways of running a handler agree. *)
Lemma turns_settled {R} (h : Handler R) (w : World) :
  exists n h',
    turns n (snd (settle h w)) (fst (settle h w)) = (fst (run h w), h')
    /\ response h' = Some (snd (run h w)).
Proof.
  revert w.
  induction h as [r | e | X q k IH | X f k IH]; intros w; simpl.
  - exists 0%nat, (Done r). split; reflexivity.
  - exists 0%nat, (Throw e). split; reflexivity.
  - destruct (q w) as [w2 [e | x]] eqn:Hq.
    + exists 1%nat, (Throw e). simpl. unfold turn. simpl. rewrite Hq.
      split; reflexivity.
    + destruct (IH x w2) as (n & h' & Hn & Hr).
      exists (S n), h'. simpl. unfold turn. simpl. rewrite Hq.
      destruct (settle (k x) w2) as [w3 h3]. simpl in Hn.
      split; [exact Hn | exact Hr].
  - destruct (f w) as [w2 x]. apply IH.
Qed.

Lemma settle_settled {R} (h : Handler R) (w : World) :
  settle (snd (settle h w)) (fst (settle h w)) = settle h w.
Proof.
  revert w.
  induction h as [r | e | X q k IH | X f k IH]; intros w; simpl; try reflexivity.
  destruct (f w) as [w2 x]. apply IH.
Qed.

Lemma turn_settled {R} (h : Handler R) (w : World) :
  turn (snd (settle h w)) (fst (settle h w)) = turn h w.
Proof. unfold turn. rewrite settle_settled. reflexivity. Qed.

Lemma turns_more {R} (n : nat) (h h' : Handler R) (w w' : World) (r : Result R) :
  turns n h w = (w', h') -> response h' = Some r -> turns (S n) h w = (w', h').
Proof.
  revert h w.
  induction n as [| n IH]; intros h w Hn Hr.
  - simpl in Hn. injection Hn as -> ->.
    destruct h'; simpl in Hr; try discriminate Hr; reflexivity.
  - change (turns (S (S n)) h w)
      with (match turn h w with (w2, h2) => turns (S n) h2 w2 end).
    simpl in Hn. destruct (turn h w) as [w2 h2].
    apply IH; assumption.
Qed.

Lemma turns_run {R} (h : Handler R) (w : World) :
  exists n h',
    turns n h w = (fst (run h w), h') /\ response h' = Some (snd (run h w)).
Proof.
  destruct (turns_settled h w) as (n & h' & Hn & Hr).
  exists (S n), h'. split; [| exact Hr].
  apply (turns_more n _ _ _ _ _ Hn) in Hr.
  change (turns (S n) h w) with (match turn h w with (w2, h2) => turns n h2 w2 end).
  rewrite <- turn_settled. exact Hr.
Qed.

Lemma runInterleaved_alone {R} (n : nat) (h : Handler R) (w : World) :
  runInterleaved (replicate n 0%nat) [h] w
  = (fst (turns n h w), [snd (turns n h w)]).
Proof.
  revert h w.
  induction n as [| n IH]; intros h w; simpl; [reflexivity |].
  destruct (turn h w) as [w' h']. simpl. apply IH.
Qed.

(** The error middleware answers a schema error with 400 VALIDATION_ERROR
    and an [AppError] with its own status and code. *)
Lemma errorHandler_codes (fieldErrors : list string) (statusCode : nat)
    (message code : string) :
  response_status (errorHandler (ZodError fieldErrors)) = 400%nat
  /\ response_code (errorHandler (ZodError fieldErrors)) = "VALIDATION_ERROR"
  /\ response_status (errorHandler (AppError statusCode message code)) = statusCode
  /\ response_code (errorHandler (AppError statusCode message code)) = code.
Proof. repeat split. Qed.

(** ** Rows found after an update *)

Section Rows.

Context {A : Type} (key : A -> string) (f : A -> A).
Hypothesis key_f : forall r, key (f r) = key r.

Lemma find_updateRows (k k' : string) (rows : list A) :
  find (fun r => String.eqb (key r) k') (updateRows key k f rows) =
  if String.eqb k k'
  then f <$> find (fun r => String.eqb (key r) k') rows
  else find (fun r => String.eqb (key r) k') rows.
Proof.
  induction rows as [| r rows IH]; simpl.
  - destruct (String.eqb k k'); reflexivity.
  - destruct (String.eqb (key r) k) eqn:Hk; simpl.
    + rewrite key_f.
      apply String.eqb_eq in Hk. subst k.
      destruct (String.eqb (key r) k') eqn:Hk'; simpl; [reflexivity | exact IH].
    + destruct (String.eqb (key r) k') eqn:Hk'; simpl; [| exact IH].
      apply String.eqb_eq in Hk'. subst k'. rewrite String.eqb_sym, Hk. reflexivity.
Qed.

End Rows.

Lemma find_key {A} (key : A -> string) (k : string) (rows : list A) (r : A) :
  find (fun r => String.eqb (key r) k) rows = Some r -> key r = k.
Proof.
  intros H. apply find_some in H. destruct H as [_ H].
  apply String.eqb_eq in H. exact H.
Qed.

Lemma applyUpdate_id (data : BookingUpdateInput) (b : Booking) :
  booking_id (applyUpdate data b) = booking_id b.
Proof. reflexivity. Qed.

Lemma findBooking_id (w : World) (id : string) (b : Booking) :
  findBooking w id = Some b -> booking_id b = id.
Proof. apply find_key. Qed.

Lemma findBooking_self (w : World) (id : string) (b : Booking) :
  findBooking w id = Some b -> findBooking w (booking_id b) = Some b.
Proof.
  intros H. rewrite (findBooking_id _ _ _ H). exact H.
Qed.

Lemma findBooking_rewritten (w w' : World) (k id : string) (data : BookingUpdateInput) :
  bookings w' = updateRows booking_id k (applyUpdate data) (bookings w) ->
  findBooking w' id =
  if String.eqb k id then applyUpdate data <$> findBooking w id else findBooking w id.
Proof.
  intros Hbs. unfold findBooking. rewrite Hbs.
  apply find_updateRows. apply applyUpdate_id.
Qed.

Lemma setOr_known {A} (new old : option A) : old <> None -> setOr new old <> None.
Proof. destruct new, old; simpl; congruence. Qed.

(** ** What the status update does *)

(** The [updateData] of a status update, key by key. *)
Lemma patch_updateData_run (userId : string) (b : Booking) (data : StatusData) (w : World) :
  exists r, run (patch_updateData userId b data) w = (w, r) /\
    forall upd, r = Ok upd ->
      set_status upd = Some (data_status data)
      /\ set_estimatedPrice upd = None
      /\ set_workerId upd =
           (if bool_decide (data_status data = ACCEPTED)
               && negb (truthyOpt truthyStr (booking_workerId b))
            then worker_id <$> findWorkerByUserId w userId else None)
      /\ set_startedAt upd =
           (if bool_decide (data_status data = IN_PROGRESS) then Some (clock w) else None)
      /\ set_completedAt upd =
           (if bool_decide (data_status data = COMPLETED) then Some (clock w) else None)
      /\ set_finalPrice upd =
           (if bool_decide (data_status data = COMPLETED)
            then match data_finalPrice data with
                 | Some p => if truthyNum p then Some p else None
                 | None => None
                 end
            else None).
Proof.
  unfold patch_updateData.
  destruct data as [status price]; simpl.
  destruct status; simpl;
    repeat match goal with
      | |- context [truthyOpt truthyStr ?x] => destruct (truthyOpt truthyStr x); simpl
      | |- context [findWorkerByUserId ?w ?u] => destruct (findWorkerByUserId w u); simpl
      | |- context [match price with _ => _ end] => destruct price as [p |]; simpl
      | |- context [truthyNum ?p] => destruct (truthyNum p); simpl
      end;
    eexists; (split; [reflexivity |]); intros upd Hupd;
    try discriminate; injection Hupd as <-; simpl; repeat split; reflexivity.
Qed.

Lemma patch_notify_run (b : Booking) (s : BookingStatus) (w : World) :
  exists w', run (patch_notify b s) w = (w', Ok tt)
    /\ bookings w' = bookings w /\ sameButBookings w w'.
Proof.
  unfold patch_notify, sameButBookings.
  destruct (notificationTypes s) as [[[type title] body] |]; simpl;
    eexists; (split; [reflexivity |]); simpl; repeat split; reflexivity.
Qed.

(** A status update either throws and leaves the world as it was, or passes
    every check and rewrites the booking with the [updateData] it built. *)
Lemma patch_status_inv (req : Request StatusBody) (w w' : World) (r : Result Booking) :
  run (patch_status req) w = (w', r) ->
  (exists e, r = Err e /\ w' = w) \/
  (exists data b upd,
      updateBookingStatusSchema (req_body req) = inr data
      /\ findBooking w (req_params_id req) = Some b
      /\ transitionAllowed (booking_status b) (data_status data) = true
      /\ permissionChecks (data_status data)
           (isWorkerOf (workerOf w b) (req_user req)) (isCustomerOf b (req_user req)) = None
      /\ run (patch_updateData (user_id (req_user req)) b data) w = (w, Ok upd)
      /\ r = Ok (applyUpdate upd b)
      /\ bookings w' = updateRows booking_id (booking_id b) (applyUpdate upd) (bookings w)
      /\ sameButBookings w w').
Proof.
  unfold patch_status.
  destruct (updateBookingStatusSchema (req_body req)) as [e | data] eqn:Hparse; simpl.
  { intros [= <- <-]. left. eauto. }
  destruct (findBooking w (req_params_id req)) as [b |] eqn:Hfind; simpl.
  2: { intros [= <- <-]. left. eauto. }
  destruct (transitionAllowed (booking_status b) (data_status data)) eqn:Hallowed; simpl.
  2: { intros [= <- <-]. left. eauto. }
  destruct (permissionChecks _ _ _) as [forbidden |] eqn:Hperm; simpl.
  { intros [= <- <-]. left. eauto. }
  rewrite run_bind.
  destruct (patch_updateData_run (user_id (req_user req)) b data w) as (ru & Hrun & _).
  rewrite Hrun.
  destruct ru as [upd | e].
  2: { intros [= <- <-]. left. eauto. }
  simpl. unfold booking_update.
  rewrite (findBooking_id _ _ _ Hfind), Hfind.
  rewrite run_bind.
  match goal with
  | |- context [run (patch_notify ?b ?s) ?w0] =>
      destruct (patch_notify_run b s w0) as (w1 & -> & Hb & Hsame)
  end.
  simpl. intros [= <- <-]. right.
  exists data, b, upd. rewrite (findBooking_id _ _ _ Hfind) in *.
  repeat split; try assumption; try reflexivity; try (apply Hsame).
Qed.

(** ** Pairs outside the transition table (claim C1) *)

Lemma transitionAllowed_table (from to : BookingStatus) :
  transitionAllowed from to = true <-> In (from, to) transitionTable.
Proof.
  destruct from, to; vm_compute; split; intros H;
    try reflexivity; try discriminate;
    repeat (destruct H as [H | H]; try discriminate H); try contradiction;
    tauto.
Qed.

(** The statuses the schema of the status update accepts as a target: every
    status but PENDING. *)
Lemma statusEnum_statusName (to : BookingStatus) :
  statusEnum (Some (JStr (statusName to))) =
  if bool_decide (to = PENDING) then None else Some to.
Proof. destruct to; reflexivity. Qed.

(** C1 (amended): for an existing booking and a request that passes the
    schema, a pair (current status, target status) outside the transition
    table makes the status update throw INVALID_STATUS_TRANSITION (400) with
    a message that names both statuses, and nothing is written; a target the
    schema does not accept (PENDING is one) is refused before that as a
    validation error on the field [status], and nothing is written either. *)
Theorem patch_status_outside_table (w : World) (req : Request StatusBody) (b : Booking) :
  findBooking w (req_params_id req) = Some b ->
  (forall data,
      updateBookingStatusSchema (req_body req) = inr data ->
      ~ In (booking_status b, data_status data) transitionTable ->
      run (patch_status req) w
      = (w, Err (invalidTransition (booking_status b) (data_status data))))
  /\ (statusEnum (body_status (req_body req)) = None ->
      exists fieldErrors,
        run (patch_status req) w = (w, Err (ZodError fieldErrors))
        /\ In "status" fieldErrors)
  /\ statusEnum (Some (JStr (statusName PENDING))) = None.
Proof.
  intros Hfind. split; [| split].
  - intros data Hparse Hout.
    unfold patch_status. rewrite Hparse. simpl. rewrite Hfind. simpl.
    destruct (transitionAllowed (booking_status b) (data_status data)) eqn:Hallowed.
    + apply transitionAllowed_table in Hallowed. contradiction.
    + reflexivity.
  - intros Hnone.
    unfold patch_status, updateBookingStatusSchema. rewrite Hnone.
    destruct (optionalPositive _); simpl; eexists; (split; [reflexivity |]);
      simpl; auto.
  - reflexivity.
Qed.

(** The seeded COMPLETED booking cannot be moved to ACCEPTED. *)
Lemma patch_status_outside_table_witness :
  run (patch_status (Seed.patch (Seed.asWorker "0") Seed.sink "ACCEPTED" None)) Seed.world
  = (Seed.world, Err (invalidTransition COMPLETED ACCEPTED)).
Proof.
  refine (proj1 (patch_status_outside_table Seed.world
                   (Seed.patch (Seed.asWorker "0") Seed.sink "ACCEPTED" None)
                   Seed.sink _)
            {| data_status := ACCEPTED; data_finalPrice := None |} _ _).
  - reflexivity.
  - reflexivity.
  - vm_compute. intros H.
    repeat (destruct H as [H | H]; try discriminate H). exact H.
Defined.

(** C1, as stated, fails for the target PENDING: the pair (ACCEPTED, PENDING)
    is outside the table, and the request is refused by the schema with a
    validation error on the field [status], not with
    INVALID_STATUS_TRANSITION. *)
Lemma patch_status_target_pending :
  findBooking Seed.world (booking_id Seed.cleaning) = Some Seed.cleaning
  /\ booking_status Seed.cleaning = ACCEPTED
  /\ ~ In (ACCEPTED, PENDING) transitionTable
  /\ run (patch_status (Seed.patch (Seed.asWorker "3") Seed.cleaning "PENDING" None))
       Seed.world
     = (Seed.world, Err (ZodError ["status"]))
  /\ ZodError ["status"] <> invalidTransition ACCEPTED PENDING.
Proof.
  repeat split.
  - intros H. vm_compute in H.
    repeat (destruct H as [H | H]; try discriminate H). exact H.
  - discriminate.
Qed.

(** ** Who may request a transition (claim C6) *)

(** C6 (amended): in the status update, a transition to CANCELLED succeeds
    only for the customer of the booking or its assigned worker, and a
    transition to any other status succeeds only for the assigned worker;
    the role of the user is never read, so an administrator has no way
    around the ownership check there.  Whenever the pair is in the
    transition table, the request of any other user fails with FORBIDDEN
    (403) and nothing is written. *)
Theorem patch_status_authorization (w w' : World) (req : Request StatusBody)
    (data : StatusData) (b : Booking) (r : Result Booking) :
  updateBookingStatusSchema (req_body req) = inr data ->
  findBooking w (req_params_id req) = Some b ->
  run (patch_status req) w = (w', r) ->
  let isWorker := isWorkerOf (workerOf w b) (req_user req) in
  let isCustomer := isCustomerOf b (req_user req) in
  let entitled :=
    if bool_decide (data_status data = CANCELLED) then isWorker || isCustomer
    else isWorker in
  (isOk r = true \/ w' <> w -> entitled = true)
  /\ (transitionAllowed (booking_status b) (data_status data) = true ->
      entitled = false ->
      w' = w /\ exists message, r = Err (AppError 403 message "FORBIDDEN")).
Proof.
  intros Hparse Hfind Hrun isWorker isCustomer entitled.
  assert (Hperm : permissionChecks (data_status data) isWorker isCustomer = None
                  <-> entitled = true).
  { unfold permissionChecks, entitled.
    destruct (bool_decide (data_status data = CANCELLED)), isWorker, isCustomer;
      simpl; split; intros H; try reflexivity; discriminate. }
  split.
  - intros Hsucc.
    apply patch_status_inv in Hrun.
    destruct Hrun as [(e & -> & ->) | (data' & b' & upd & Hparse' & Hfind' & _ & Hp & _)].
    + destruct Hsucc as [Hok | Hne]; [discriminate Hok | contradiction].
    + rewrite Hparse in Hparse'. injection Hparse' as <-.
      rewrite Hfind in Hfind'. injection Hfind' as <-.
      apply Hperm. exact Hp.
  - intros Hallowed Hno.
    unfold patch_status in Hrun.
    rewrite Hparse in Hrun. simpl in Hrun. rewrite Hfind in Hrun. simpl in Hrun.
    rewrite Hallowed in Hrun. simpl in Hrun.
    fold isWorker isCustomer in Hrun.
    destruct (permissionChecks (data_status data) isWorker isCustomer) as [e |] eqn:Hp.
    + simpl in Hrun. injection Hrun as <- <-. split; [reflexivity |].
      unfold permissionChecks in Hp.
      destruct (bool_decide (data_status data = CANCELLED));
        destruct (negb isWorker); try destruct (negb isCustomer);
        simpl in Hp; try discriminate Hp; injection Hp as <-; eauto.
    + rewrite (proj1 Hperm eq_refl) in Hno. discriminate Hno.
Qed.

(** The worker of the seeded ACCEPTED booking sets out: the update succeeds,
    so the user is the worker of the booking. *)
Lemma patch_status_authorization_witness :
  isWorkerOf (workerOf Seed.world Seed.cleaning) (Seed.asWorker "3") = true.
Proof.
  refine (proj1 (patch_status_authorization Seed.world
                   (fst (run (patch_status (Seed.patch (Seed.asWorker "3") Seed.cleaning
                                              "WORKER_EN_ROUTE" None)) Seed.world))
                   (Seed.patch (Seed.asWorker "3") Seed.cleaning "WORKER_EN_ROUTE" None)
                   {| data_status := WORKER_EN_ROUTE; data_finalPrice := None |}
                   Seed.cleaning
                   (snd (run (patch_status (Seed.patch (Seed.asWorker "3") Seed.cleaning
                                              "WORKER_EN_ROUTE" None)) Seed.world))
                   _ _ _) _).
  - reflexivity.
  - reflexivity.
  - vm_compute. reflexivity.
  - left. vm_compute. reflexivity.
Defined.

(** C6, as stated, fails for an administrator: the request of an
    administrator who is not the assigned worker, for a pair of the table,
    is refused with FORBIDDEN like that of any other user. *)
Lemma patch_status_admin_forbidden :
  user_role Seed.asAdmin = ADMIN
  /\ findBooking Seed.world (booking_id Seed.cleaning) = Some Seed.cleaning
  /\ In (booking_status Seed.cleaning, WORKER_EN_ROUTE) transitionTable
  /\ run (patch_status (Seed.patch Seed.asAdmin Seed.cleaning "WORKER_EN_ROUTE" None))
       Seed.world
     = (Seed.world, Err (AppError 403 "Only worker can update status" "FORBIDDEN")).
Proof.
  repeat split. vm_compute. tauto.
Qed.

(** ** The final price (claim C7) *)

Lemma positiveNum_lt (q : Q) : positiveNum q = true <-> (0 < q)%Q.
Proof.
  unfold positiveNum, Qlt. simpl. rewrite Z.ltb_lt. lia.
Qed.

Lemma positiveNum_truthy (q : Q) : positiveNum q = true -> truthyNum q = true.
Proof.
  unfold positiveNum, truthyNum. rewrite Z.ltb_lt. intros H.
  destruct (Z.eqb_spec (Qnum q) 0); [lia | reflexivity].
Qed.

Lemma updateBookingStatusSchema_inr (body : StatusBody) (data : StatusData) :
  updateBookingStatusSchema body = inr data ->
  statusEnum (body_status body) = Some (data_status data)
  /\ optionalPositive (body_finalPrice body) = Some (data_finalPrice data).
Proof.
  unfold updateBookingStatusSchema.
  destruct (statusEnum _), (optionalPositive _); intros H;
    try discriminate H; injection H as <-; split; reflexivity.
Qed.

Lemma optionalPositive_Some (v : option JValue) (p : Q) :
  optionalPositive v = Some (Some p) -> v = Some (JNum p) /\ positiveNum p = true.
Proof.
  destruct v as [[| | q | | |] |]; simpl; try discriminate.
  destruct (positiveNum q) eqn:Hq; [| discriminate].
  intros [= <-]. split; [reflexivity | exact Hq].
Qed.

(** C7: a status update writes [finalPrice] only on a transition into
    COMPLETED and only with the positive number the request supplied (and
    then it does persist it); with any other target the supplied price is
    ignored; a price that is not positive is refused with a validation error
    on the field [finalPrice], whatever the target, and nothing is
    written. *)
Theorem patch_status_finalPrice (w w' : World) (req : Request StatusBody)
    (r : Result Booking) :
  run (patch_status req) w = (w', r) ->
  (forall id b b',
      findBooking w id = Some b -> findBooking w' id = Some b' ->
      booking_finalPrice b' <> booking_finalPrice b ->
      exists p,
        body_finalPrice (req_body req) = Some (JNum p) /\ (0 < p)%Q
        /\ statusEnum (body_status (req_body req)) = Some COMPLETED
        /\ id = req_params_id req /\ booking_finalPrice b' = Some p)
  /\ (forall p b',
        body_finalPrice (req_body req) = Some (JNum p) ->
        statusEnum (body_status (req_body req)) = Some COMPLETED ->
        r = Ok b' ->
        (0 < p)%Q /\ booking_finalPrice b' = Some p
        /\ findBooking w' (req_params_id req) = Some b')
  /\ (forall p,
        body_finalPrice (req_body req) = Some (JNum p) -> (p <= 0)%Q ->
        w' = w
        /\ exists fieldErrors,
             r = Err (ZodError fieldErrors) /\ In "finalPrice" fieldErrors).
Proof.
  intros Hrun. split; [| split].
  - intros id b b' Hb Hb' Hne.
    apply patch_status_inv in Hrun.
    destruct Hrun as [(e & -> & ->) | (data & b0 & upd & Hparse & Hfind & _ & _ & Hupd & _ & Hbs & _)].
    { rewrite Hb in Hb'. injection Hb' as <-. contradiction. }
    unfold findBooking in Hb'. rewrite Hbs in Hb'.
    rewrite (find_updateRows booking_id _ (applyUpdate_id upd)) in Hb'.
    fold (findBooking w id) in Hb'. rewrite Hb in Hb'.
    destruct (String.eqb (booking_id b0) id) eqn:Hid.
    2: { injection Hb' as <-. contradiction. }
    apply String.eqb_eq in Hid. simpl in Hb'. injection Hb' as <-.
    destruct (patch_updateData_run (user_id (req_user req)) b0 data w)
      as (ru & Hru & Hkeys).
    rewrite Hru in Hupd. injection Hupd as ->.
    destruct (Hkeys upd eq_refl) as (_ & _ & _ & _ & _ & Hprice).
    apply updateBookingStatusSchema_inr in Hparse. destruct Hparse as [Hs Hp].
    simpl in Hne. rewrite Hprice in Hne.
    destruct (bool_decide (data_status data = COMPLETED)) eqn:Hc.
    2: { simpl in Hne. contradiction. }
    apply bool_decide_eq_true in Hc.
    destruct (data_finalPrice data) as [p |] eqn:Hdp.
    2: { simpl in Hne. contradiction. }
    apply optionalPositive_Some in Hp. destruct Hp as [Hbody Hpos].
    rewrite (positiveNum_truthy _ Hpos) in Hne.
    exists p. repeat split.
    + exact Hbody.
    + apply positiveNum_lt. exact Hpos.
    + rewrite Hs. f_equal. exact Hc.
    + rewrite <- Hid. apply (findBooking_id _ _ _ Hfind).
    + simpl. rewrite Hprice. simpl. rewrite ?(positiveNum_truthy _ Hpos). reflexivity.
  - intros p b' Hbody Hstatus ->.
    apply patch_status_inv in Hrun.
    destruct Hrun as [(e & He & _) | (data & b0 & upd & Hparse & Hfind & _ & _ & Hupd & Hr & Hbs & _)].
    { discriminate He. }
    injection Hr as ->.
    destruct (patch_updateData_run (user_id (req_user req)) b0 data w)
      as (ru & Hru & Hkeys).
    rewrite Hru in Hupd. injection Hupd as ->.
    destruct (Hkeys upd eq_refl) as (_ & _ & _ & _ & _ & Hprice).
    apply updateBookingStatusSchema_inr in Hparse. destruct Hparse as [Hs Hp].
    rewrite Hstatus in Hs. injection Hs as Hs.
    rewrite Hbody in Hp. simpl in Hp.
    destruct (positiveNum p) eqn:Hpos; [| discriminate Hp].
    injection Hp as Hp.
    rewrite <- Hs, <- Hp in Hprice. simpl in Hprice.
    rewrite (positiveNum_truthy _ Hpos) in Hprice.
    repeat split.
    + apply positiveNum_lt. exact Hpos.
    + simpl. rewrite Hprice. reflexivity.
    + unfold findBooking. rewrite Hbs.
      rewrite (find_updateRows booking_id _ (applyUpdate_id upd)).
      rewrite (findBooking_id _ _ _ Hfind), String.eqb_refl.
      fold (findBooking w (req_params_id req)). rewrite Hfind. reflexivity.
  - intros p Hbody Hle.
    assert (Hpos : positiveNum p = false).
    { destruct (positiveNum p) eqn:Hpos; [| reflexivity].
      apply positiveNum_lt in Hpos. apply Qle_not_lt in Hle. contradiction. }
    unfold patch_status, updateBookingStatusSchema in Hrun.
    rewrite Hbody in Hrun. simpl in Hrun. rewrite Hpos in Hrun.
    destruct (statusEnum _); simpl in Hrun; injection Hrun as <- <-;
      (split; [reflexivity |]); eexists; (split; [reflexivity |]);
      simpl; auto.
Qed.

(** The worker of the seeded IN_PROGRESS booking completes it for 55. *)
Lemma patch_status_finalPrice_witness :
  (0 < 55)%Q
  /\ booking_finalPrice
       (applyUpdate
          {| set_status := Some COMPLETED; set_workerId := None;
             set_estimatedPrice := None; set_finalPrice := Some 55%Q;
             set_startedAt := None; set_completedAt := Some 1000%Z |} Seed.screen)
     = Some 55%Q
  /\ findBooking
       (fst (run (patch_status (Seed.patch (Seed.asWorker "2") Seed.screen "COMPLETED"
                                  (Some 55%Q))) Seed.world))
       (booking_id Seed.screen)
     = Some (applyUpdate
               {| set_status := Some COMPLETED; set_workerId := None;
                  set_estimatedPrice := None; set_finalPrice := Some 55%Q;
                  set_startedAt := None; set_completedAt := Some 1000%Z |} Seed.screen).
Proof.
  refine (proj1 (proj2 (patch_status_finalPrice Seed.world _
                          (Seed.patch (Seed.asWorker "2") Seed.screen "COMPLETED" (Some 55%Q))
                          _ _))
            55%Q _ _ _ _).
  - vm_compute. reflexivity.
  - reflexivity.
  - reflexivity.
  - reflexivity.
Defined.

(** ** The frame of a status update (claim C10) *)

(** The columns of a booking that no [updateData] of the status update
    names. *)
Lemma applyUpdate_frame (data : BookingUpdateInput) (b : Booking) :
  set_estimatedPrice data = None ->
  booking_id (applyUpdate data b) = booking_id b
  /\ booking_customerId (applyUpdate data b) = booking_customerId b
  /\ booking_categoryId (applyUpdate data b) = booking_categoryId b
  /\ booking_description (applyUpdate data b) = booking_description b
  /\ booking_latitude (applyUpdate data b) = booking_latitude b
  /\ booking_longitude (applyUpdate data b) = booking_longitude b
  /\ booking_address (applyUpdate data b) = booking_address b
  /\ booking_estimatedPrice (applyUpdate data b) = booking_estimatedPrice b
  /\ booking_scheduledAt (applyUpdate data b) = booking_scheduledAt b
  /\ booking_createdAt (applyUpdate data b) = booking_createdAt b.
Proof.
  intros He. simpl. rewrite He. simpl. repeat split; reflexivity.
Qed.

(** C10: a successful status update rewrites, in the booking it names, at
    most the columns status, workerId, startedAt, completedAt and
    finalPrice; the customer, the category, the description, the
    coordinates, the address, the estimated price and the times of
    scheduling and creation are as before, every other booking is as before,
    and so is every other table. *)
Theorem patch_status_frame (w w' : World) (req : Request StatusBody) (b' : Booking) :
  run (patch_status req) w = (w', Ok b') ->
  exists b,
    findBooking w (req_params_id req) = Some b
    /\ findBooking w' (req_params_id req) = Some b'
    /\ booking_id b' = booking_id b
    /\ booking_customerId b' = booking_customerId b
    /\ booking_categoryId b' = booking_categoryId b
    /\ booking_description b' = booking_description b
    /\ booking_latitude b' = booking_latitude b
    /\ booking_longitude b' = booking_longitude b
    /\ booking_address b' = booking_address b
    /\ booking_estimatedPrice b' = booking_estimatedPrice b
    /\ booking_scheduledAt b' = booking_scheduledAt b
    /\ booking_createdAt b' = booking_createdAt b
    /\ (forall id, id <> req_params_id req -> findBooking w' id = findBooking w id)
    /\ sameButBookings w w'.
Proof.
  intros Hrun. apply patch_status_inv in Hrun.
  destruct Hrun as [(e & He & _) | (data & b & upd & _ & Hfind & _ & _ & Hupd & Hr & Hbs & Hsame)].
  { discriminate He. }
  injection Hr as ->.
  destruct (patch_updateData_run (user_id (req_user req)) b data w)
    as (ru & Hru & Hkeys).
  rewrite Hru in Hupd. injection Hupd as ->.
  destruct (Hkeys upd eq_refl) as (_ & Hestimated & _).
  pose proof (findBooking_id _ _ _ Hfind) as Hid.
  assert (Hfound : forall id, findBooking w' id =
                     if String.eqb (booking_id b) id
                     then applyUpdate upd <$> findBooking w id else findBooking w id).
  { intros id. unfold findBooking. rewrite Hbs.
    apply find_updateRows. apply applyUpdate_id. }
  exists b. split; [exact Hfind |]. split.
  { rewrite Hfound, Hid, String.eqb_refl, Hfind. reflexivity. }
  destruct (applyUpdate_frame upd b Hestimated)
    as (H1 & H2 & H3 & H4 & H5 & H6 & H7 & H8 & H9 & H10).
  repeat (split; [assumption |]).
  split; [| exact Hsame].
  intros id Hne. rewrite Hfound, Hid.
  destruct (String.eqb_spec (req_params_id req) id); [congruence | reflexivity].
Qed.

(** The worker of the seeded ACCEPTED booking sets out: the address of the
    booking is as before. *)
Lemma patch_status_frame_witness :
  exists b,
    findBooking Seed.world (booking_id Seed.cleaning) = Some b
    /\ booking_status b = ACCEPTED
    /\ booking_status
         (applyUpdate (statusOnly WORKER_EN_ROUTE) Seed.cleaning) = WORKER_EN_ROUTE
    /\ booking_address (applyUpdate (statusOnly WORKER_EN_ROUTE) Seed.cleaning)
       = booking_address b.
Proof.
  destruct (patch_status_frame Seed.world
              (fst (run (patch_status (Seed.patch (Seed.asWorker "3") Seed.cleaning
                                         "WORKER_EN_ROUTE" None)) Seed.world))
              (Seed.patch (Seed.asWorker "3") Seed.cleaning "WORKER_EN_ROUTE" None)
              (applyUpdate (statusOnly WORKER_EN_ROUTE) Seed.cleaning)
              eq_refl)
    as (b & Hfind & _ & _ & _ & _ & _ & _ & _ & Haddress & _).
  exists b. split; [exact Hfind |].
  injection Hfind as <-.
  split; [reflexivity |]. split; [reflexivity |]. exact Haddress.
Defined.

(** ** What accepting a booking does *)

Lemma conversationParticipant_create_found (w : World) (k userId : string)
    (c : Conversation) :
  findConversation w k = Some c ->
  exists w',
    conversationParticipant_create (conversation_id c) userId w = (w', inr tt)
    /\ bookings w' = bookings w /\ sameCatalogue w w'.
Proof.
  intros Hfind. unfold conversationParticipant_create.
  assert (Hex : existsb (fun c0 => String.eqb (conversation_id c0) (conversation_id c))
                  (conversations w) = true).
  { apply existsb_exists. exists c. split.
    - apply find_some in Hfind. apply Hfind.
    - apply String.eqb_refl. }
  rewrite Hex. eexists. split; [reflexivity |].
  unfold sameCatalogue. simpl. repeat split; reflexivity.
Qed.

(** Accepting either throws and leaves the world as it was, or passes every
    check and rewrites the booking: the user has the role WORKER and a
    verified worker profile, the booking is PENDING, and the worker has an
    active service of the category of the booking. *)
Lemma post_accept_inv (req : Request unit) (w w' : World) (r : Result Booking) :
  run (post_accept req) w = (w', r) ->
  (exists e, r = Err e /\ w' = w) \/
  (exists worker b service,
      user_role (req_user req) = WORKER
      /\ findWorkerByUserId w (user_id (req_user req)) = Some worker
      /\ worker_verificationStatus worker = VERIFIED
      /\ findBooking w (req_params_id req) = Some b
      /\ booking_status b = PENDING
      /\ In service (workerServices w)
      /\ service_workerId service = worker_id worker
      /\ service_categoryId service = booking_categoryId b
      /\ service_isActive service = true
      /\ r = Ok (applyUpdate (acceptData worker service) b)
      /\ bookings w' = updateRows booking_id (booking_id b)
                         (applyUpdate (acceptData worker service)) (bookings w)
      /\ sameCatalogue w w').
Proof.
  unfold post_accept, authorize. simpl.
  destruct (bool_decide (WORKER = user_role (req_user req))) eqn:Hrole; simpl.
  2: { intros [= <- <-]. left. eauto. }
  apply bool_decide_eq_true in Hrole.
  destruct (findWorkerByUserId w (user_id (req_user req))) as [worker |] eqn:Hworker; simpl.
  2: { intros [= <- <-]. left. eauto. }
  destruct (bool_decide (worker_verificationStatus worker = VERIFIED)) eqn:Hverified; simpl.
  2: { intros [= <- <-]. left. eauto. }
  apply bool_decide_eq_true in Hverified.
  destruct (findBooking w (req_params_id req)) as [b |] eqn:Hfind; simpl.
  2: { intros [= <- <-]. left. eauto. }
  destruct (bool_decide (booking_status b = PENDING)) eqn:Hpending; simpl.
  2: { intros [= <- <-]. left. eauto. }
  apply bool_decide_eq_true in Hpending.
  destruct (find _ (workerServices w)) as [service |] eqn:Hservice; simpl.
  2: { intros [= <- <-]. left. eauto. }
  apply find_some in Hservice. destruct Hservice as [Hin Hwhere].
  apply andb_prop in Hwhere. destruct Hwhere as [Hwhere Hactive].
  apply andb_prop in Hwhere. destruct Hwhere as [Hwid Hcat].
  apply String.eqb_eq in Hwid. apply String.eqb_eq in Hcat.
  unfold booking_update.
  rewrite (findBooking_id _ _ _ Hfind), Hfind.
  fold (acceptData worker service).
  set (w1 := withBookings _ w).
  unfold conversation_findUnique.
  rewrite run_bind.
  intros Hrun. right. exists worker, b, service.
  assert (Hshape : exists w2, (w', r) = (w2, Ok (applyUpdate (acceptData worker service) b))
                              /\ bookings w2 = bookings w1 /\ sameCatalogue w1 w2).
  { rewrite <- Hrun. clear Hrun.
    destruct (findConversation w1 (req_params_id req)) as [c |] eqn:Hconv; simpl.
    - destruct (conversationParticipant_create_found w1 _ (user_id (req_user req)) c Hconv)
        as (w2 & -> & Hb & Hsame).
      simpl. eexists. split; [reflexivity |]. simpl. split; [exact Hb |].
      unfold sameCatalogue in *. simpl. exact Hsame.
    - eexists. split; [reflexivity |]. unfold sameCatalogue. simpl.
      repeat split; reflexivity. }
  destruct Hshape as (w2 & [= -> ->] & Hb & Hsame).
  repeat split; try assumption; try reflexivity;
    try (symmetry; exact Hrole); try apply Hsame.
  rewrite Hb. unfold w1. simpl. rewrite (findBooking_id _ _ _ Hfind). reflexivity.
Qed.

(** ** Claiming an unassigned booking (claim C4) *)

(** A status update never assigns a booking that has no worker: the user is
    not its worker, and only the worker may move it to ACCEPTED. *)
Lemma patch_status_unassigned (w w' : World) (req : Request StatusBody) (b : Booking)
    (r : Result Booking) :
  findBooking w (req_params_id req) = Some b ->
  booking_workerId b = None ->
  statusEnum (body_status (req_body req)) = Some ACCEPTED ->
  run (patch_status req) w = (w', r) ->
  w' = w /\ isOk r = false.
Proof.
  intros Hfind Hnone Hstatus Hrun.
  apply patch_status_inv in Hrun.
  destruct Hrun as [(e & -> & ->) | (data & b0 & upd & Hparse & Hfind' & _ & Hperm & _)].
  { split; reflexivity. }
  rewrite Hfind in Hfind'. injection Hfind' as <-.
  apply updateBookingStatusSchema_inr in Hparse. destruct Hparse as [Hs _].
  rewrite Hstatus in Hs. injection Hs as Hs.
  unfold workerOf in Hperm. rewrite <- Hs, Hnone in Hperm. discriminate Hperm.
Qed.

(** C4: a booking that is PENDING and has no worker is claimed (the request
    succeeds, or anything at all is written) only by a user whose worker
    profile is VERIFIED and has an active service of the category of the
    booking; the claim of any other user fails and writes nothing.  This
    holds of the accept endpoint, which checks both, and of the status
    update, through which such a claim never succeeds. *)
Theorem claim_needs_verified_offering (w : World) (b : Booking) :
  findBooking w (booking_id b) = Some b ->
  booking_status b = PENDING ->
  booking_workerId b = None ->
  (forall req w' r,
      req_params_id req = booking_id b ->
      run (post_accept req) w = (w', r) ->
      (isOk r = true \/ w' <> w -> claimant w (req_user req) (booking_categoryId b))
      /\ (~ claimant w (req_user req) (booking_categoryId b) -> w' = w /\ isOk r = false))
  /\ (forall req w' r,
        req_params_id req = booking_id b ->
        statusEnum (body_status (req_body req)) = Some ACCEPTED ->
        run (patch_status req) w = (w', r) ->
        (isOk r = true \/ w' <> w -> claimant w (req_user req) (booking_categoryId b))
        /\ (w' = w /\ isOk r = false)).
Proof.
  intros Hfind Hpending Hnone. split.
  - intros req w' r Hid Hrun.
    apply post_accept_inv in Hrun.
    destruct Hrun as [(e & -> & ->) | (worker & b0 & service & _ & Hworker & Hverified
                                       & Hfind' & _ & Hin & Hwid & Hcat & Hactive & _)].
    + split.
      * intros [Hok | Hne]; [discriminate Hok | contradiction].
      * intros _. split; reflexivity.
    + rewrite Hid, Hfind in Hfind'. injection Hfind' as <-.
      assert (Hclaimant : claimant w (req_user req) (booking_categoryId b)).
      { exists worker, service. repeat split; assumption. }
      split; [intros _; exact Hclaimant | intros Hno; contradiction].
  - intros req w' r Hid Hstatus Hrun.
    rewrite <- Hid in Hfind.
    destruct (patch_status_unassigned w w' req b r Hfind Hnone Hstatus Hrun) as [-> Hr].
    split; [| split; [reflexivity | exact Hr]].
    intros [Hok | Hne]; [congruence | contradiction].
Qed.

(** The carpenter of the seed accepts the unassigned booking of the seed. *)
Lemma claim_needs_verified_offering_witness :
  claimant Seed.world (Seed.asWorker "4") (booking_categoryId Seed.wardrobe).
Proof.
  refine (proj1 (proj1 (claim_needs_verified_offering Seed.world Seed.wardrobe _ _ _)
                   (Seed.post (Seed.asWorker "4") Seed.wardrobe)
                   (fst (run (post_accept (Seed.post (Seed.asWorker "4") Seed.wardrobe))
                           Seed.world))
                   (snd (run (post_accept (Seed.post (Seed.asWorker "4") Seed.wardrobe))
                           Seed.world))
                   _ _) _).
  - reflexivity.
  - reflexivity.
  - reflexivity.
  - reflexivity.
  - vm_compute. reflexivity.
  - left. vm_compute. reflexivity.
Defined.

(** ** Creating a booking (claim C9) *)

Lemma find_app_new {A} (p : A -> bool) (rows : list A) (r : A) :
  find p (rows ++ [r]) =
  match find p rows with
  | Some x => Some x
  | None => if p r then Some r else None
  end.
Proof.
  induction rows as [| x rows IH]; simpl.
  - reflexivity.
  - destruct (p x); [reflexivity | exact IH].
Qed.

Section Creation.

Variable strLength : string -> nat.
Variable isoDatetime : string -> option Z.

(** Creating a booking writes at most one row to the bookings, a new one,
    PENDING, with the worker of the request; it may still answer with an
    error when the conversation cannot be created after it. *)
Lemma post_booking_inv (req : Request CreateBody) (w w' : World) (r : Result Booking) :
  run (post_booking strLength isoDatetime req) w = (w', r) ->
  sameCatalogue w w' /\
  ((bookings w' = bookings w /\ isOk r = false) \/
   (exists data b,
       createBookingSchema strLength isoDatetime (req_body req) = inr data
       /\ findBooking w (booking_id b) = None
       /\ bookings w' = (bookings w ++ [b])%list
       /\ booking_status b = PENDING
       /\ booking_workerId b = create_workerId data
       /\ booking_customerId b = user_id (req_user req)
       /\ booking_categoryId b = create_categoryId data
       /\ (forall b', r = Ok b' -> b' = b))).
Proof.
  unfold post_booking, sameCatalogue.
  destruct (createBookingSchema strLength isoDatetime (req_body req)) as [e | data] eqn:Hparse;
    simpl.
  { intros [= <- <-]. split; [repeat split | left; split]; reflexivity. }
  destruct (categories w !! create_categoryId data) as [name |] eqn:Hcat; simpl.
  2: { intros [= <- <-]. split; [repeat split | left; split]; reflexivity. }
  rewrite run_bind.
  set (price := run _ w).
  assert (Hprice : exists rp, price = (w, rp)).
  { unfold price.
    destruct (truthyOpt truthyStr (create_workerId data)); simpl; [| eauto].
    destruct (find _ (workerServices w)); simpl; eauto. }
  destruct Hprice as (rp & ->).
  destruct rp as [estimatedPrice | e].
  2: { intros [= <- <-]. split; [repeat split | left; split]; reflexivity. }
  simpl. unfold booking_create.
  set (data' := Build_BookingCreateInput _ _ _ _ _ _ _ _ _ _).
  set (b := Build_Booking _ _ _ _ _ _ _ _ _ _ _ _ _ _ _).
  destruct (findBooking w (cuid w (idgen w))) as [taken |] eqn:Hfresh.
  { intros [= <- <-]. split; [repeat split | left; split]; reflexivity. }
  assert (Hstatus : booking_status b = PENDING).
  { unfold b, data'. simpl.
    destruct (truthyOpt truthyStr (create_workerId data)); reflexivity. }
  set (w1 := withIdgen _ _).
  revert w' r.
  match goal with
  | |- forall w' r, _ = (w', r) -> @?G w' r =>
      assert (Hcreated : forall w2 r2,
                 bookings w2 = bookings w1 -> sameCatalogue w1 w2 ->
                 (forall b', r2 = Ok b' -> b' = b) -> G w2 r2)
  end.
  { intros w2 r2 Hb Hsame Hr. cbv beta. split; [exact Hsame |].
    right. exists data, b. rewrite Hb.
    repeat split; try reflexivity; try assumption. }
  intros w' r.
  destruct (new_workerId data') as [wid |] eqn:Hwid;
    destruct (workerOf w b) as [k |] eqn:Hk.
  2: { intros [= <- <-]. split; [repeat split | left; split]; reflexivity. }
  all: unfold data' in Hwid; simpl in Hwid.
  2: { unfold workerOf, b, data' in Hk. simpl in Hk. discriminate Hk. }
  all: simpl; rewrite run_bind; rewrite Hwid; simpl.
  1: destruct (truthyStr wid); simpl.
  all: unfold conversation_create;
    match goal with
    | |- context [findConversation ?w0 ?k] => destruct (findConversation w0 k) eqn:Hconv
    end; simpl;
    try (rewrite Hwid; simpl); try (destruct (truthyStr wid); simpl);
    intros [= <- <-]; apply Hcreated;
    try reflexivity; try (unfold sameCatalogue; simpl; tauto);
    try (intros b' [= <-]; reflexivity); try discriminate.
Qed.

Lemma createBookingSchema_workerId (body : CreateBody) (data : CreateData) :
  createBookingSchema strLength isoDatetime body = inr data ->
  zStringOptional (createBody_workerId body) = Some (create_workerId data).
Proof.
  unfold createBookingSchema.
  destruct (zString _), (zStringOptional _), (zStringBetween _ _ _ _),
    (zNumberBetween _ _ _), (zNumberBetween _ _ _), (zStringBetween _ _ _ _),
    (zDatetimeOptional _ _);
    intros H; try discriminate H; injection H as <-; reflexivity.
Qed.

(** C9: whatever the request, a booking that the create endpoint writes is
    PENDING, also when the request names a worker: the row is written with
    that worker and the status PENDING.  The booking of a successful
    response is such a row. *)
Theorem post_booking_pending (req : Request CreateBody) (w w' : World)
    (r : Result Booking) :
  run (post_booking strLength isoDatetime req) w = (w', r) ->
  (forall id b,
      findBooking w id = None -> findBooking w' id = Some b ->
      booking_status b = PENDING
      /\ (forall workerId,
            createBody_workerId (req_body req) = Some (JStr workerId) ->
            booking_workerId b = Some workerId)
      /\ (createBody_workerId (req_body req) = None -> booking_workerId b = None))
  /\ (forall b,
        r = Ok b ->
        findBooking w (booking_id b) = None /\ findBooking w' (booking_id b) = Some b).
Proof.
  intros Hrun. apply post_booking_inv in Hrun.
  destruct Hrun as [_ [[Hsame Hr] | (data & b0 & Hparse & Hfresh & Hbs & Hstatus & Hworker & _ & _ & Hresp)]].
  - split.
    + intros id b Hnone Hsome. unfold findBooking in *. rewrite Hsame in Hsome. congruence.
    + intros b ->. discriminate Hr.
  - assert (Hfound : forall id, findBooking w' id =
                       match findBooking w id with
                       | Some x => Some x
                       | None => if String.eqb (booking_id b0) id then Some b0 else None
                       end).
    { intros id. unfold findBooking. rewrite Hbs, find_app_new. reflexivity. }
    apply createBookingSchema_workerId in Hparse.
    split.
    + intros id b Hnone Hsome. rewrite Hfound, Hnone in Hsome.
      destruct (String.eqb (booking_id b0) id); [| discriminate Hsome].
      injection Hsome as <-.
      split; [exact Hstatus |]. rewrite Hworker. split.
      * intros workerId Hbody. rewrite Hbody in Hparse. simpl in Hparse. congruence.
      * intros Hbody. rewrite Hbody in Hparse. simpl in Hparse. congruence.
    + intros b Hb. apply Hresp in Hb. subst b.
      split; [exact Hfresh |].
      rewrite Hfound, Hfresh, String.eqb_refl. reflexivity.
Qed.

End Creation.

(** A customer asks for the carpenter of the seed by name: the booking is
    created PENDING with that worker. *)
Lemma post_booking_pending_witness :
  booking_status Seed.shelf = PENDING /\ booking_workerId Seed.shelf = Some "worker-4".
Proof.
  pose (end0 := run (post_booking String.length Seed.noDatetime Seed.shelfRequest)
                  Seed.world).
  destruct (proj1 (post_booking_pending String.length Seed.noDatetime Seed.shelfRequest
                     Seed.world (fst end0) (snd end0) eq_refl)
              (booking_id Seed.shelf) Seed.shelf eq_refl eq_refl) as (H1 & H2 & _).
  split; [exact H1 | exact (H2 "worker-4" eq_refl)].
Defined.

(** ** Initiating a payment (claim C8) *)

Lemma findPayment_upserted (w : World) (k : string) (update : Payment -> Payment) :
  (forall p, payment_bookingId (update p) = payment_bookingId p) ->
  find (fun p => String.eqb (payment_bookingId p) k)
    (updateRows payment_bookingId k update (payments w))
  = update <$> findPayment w k.
Proof.
  intros Hkey. rewrite (find_updateRows payment_bookingId update Hkey).
  rewrite String.eqb_refl. reflexivity.
Qed.

Section Payments.

Variable numberToString : Q -> string.

Lemma initiate_notifyWorker_run (b : Booking) (amount : Q) (w : World) :
  exists w', run (initiate_notifyWorker numberToString b amount) w = (w', Ok tt)
    /\ bookings w' = bookings w /\ payments w' = payments w.
Proof.
  unfold initiate_notifyWorker.
  destruct (truthyOpt truthyStr (booking_workerId b)); simpl; [| eauto].
  destruct (findWorkerById w _); simpl; eauto.
Qed.

(** Initiating a payment writes the payments only for a COMPLETED booking of
    the user that has no COMPLETED payment yet, and then the payment of the
    booking has the method of the request, is COMPLETED and dated for cash
    and PROCESSING and not dated otherwise. *)
Lemma post_initiate_inv (req : Request InitiateBody) (w w' : World)
    (r : Result (Payment * string)) :
  run (post_initiate numberToString req) w = (w', r) ->
  bookings w' = bookings w /\
  ((payments w' = payments w /\ isOk r = false) \/
   (exists data b p,
       initiatePaymentSchema (req_body req) = inr data
       /\ findBooking w (initiate_bookingId data) = Some b
       /\ booking_customerId b = user_id (req_user req)
       /\ booking_status b = COMPLETED
       /\ payment_status <$> findPayment w (booking_id b) <> Some PAYMENT_COMPLETED
       /\ findPayment w' (booking_id b) = Some p
       /\ payment_bookingId p = booking_id b
       /\ payment_method p = initiate_method data
       /\ payment_status p =
            (if bool_decide (initiate_method data = CASH)
             then PAYMENT_COMPLETED else PAYMENT_PROCESSING)
       /\ payment_paidAt p =
            (if bool_decide (initiate_method data = CASH) then Some (clock w) else None)
       /\ (forall p' message, r = Ok (p', message) -> p' = p))).
Proof.
  unfold post_initiate.
  destruct (initiatePaymentSchema (req_body req)) as [e | data] eqn:Hparse; simpl.
  { intros [= <- <-]. split; [| left; split]; reflexivity. }
  destruct (findBooking w (initiate_bookingId data)) as [b |] eqn:Hfind; simpl.
  2: { intros [= <- <-]. split; [| left; split]; reflexivity. }
  destruct (String.eqb (booking_customerId b) (user_id (req_user req))) eqn:Hmine; simpl.
  2: { intros [= <- <-]. split; [| left; split]; reflexivity. }
  apply String.eqb_eq in Hmine.
  destruct (bool_decide (booking_status b = COMPLETED)) eqn:Hcompleted; simpl.
  2: { intros [= <- <-]. split; [| left; split]; reflexivity. }
  apply bool_decide_eq_true in Hcompleted.
  destruct (bool_decide (payment_status <$> findPayment w (booking_id b)
                         = Some PAYMENT_COMPLETED)) eqn:Hpaid; simpl.
  { intros [= <- <-]. split; [| left; split]; reflexivity. }
  apply bool_decide_eq_false in Hpaid.
  destruct (orNum (booking_finalPrice b) (booking_estimatedPrice b)) as [amount |]; simpl.
  2: { intros [= <- <-]. split; [| left; split]; reflexivity. }
  destruct (truthyNum amount); simpl.
  2: { intros [= <- <-]. split; [| left; split]; reflexivity. }
  rewrite run_bind.
  set (cash := bool_decide (initiate_method data = CASH)).
  assert (Hpaid_at : run (if cash then Sync newDate (fun now => Done (Some now))
                          else Done None) w
                     = (w, Ok (if cash then Some (clock w) else None))).
  { destruct cash; reflexivity. }
  rewrite Hpaid_at. simpl.
  set (status := if cash then PAYMENT_COMPLETED else PAYMENT_PROCESSING).
  set (paidAt := if cash then Some (clock w) else None).
  unfold payment_upsert.
  revert w' r.
  match goal with
  | |- forall w' r, _ = (w', r) -> @?G w' r =>
      assert (Hwritten : forall w1 w2 p r2,
                 bookings w1 = bookings w ->
                 findPayment w1 (booking_id b) = Some p ->
                 payment_bookingId p = booking_id b ->
                 payment_method p = initiate_method data ->
                 payment_status p = status -> payment_paidAt p = paidAt ->
                 bookings w2 = bookings w1 -> payments w2 = payments w1 ->
                 (forall p' message, r2 = Ok (p', message) -> p' = p) ->
                 G w2 r2)
  end.
  { intros w1 w2 p r2 Hb Hp Hk Hm Hs Ht Hb2 Hp2 Hr. cbv beta.
    split; [congruence |]. right. exists data, b, p.
    unfold findPayment in *. rewrite Hp2.
    repeat split; try assumption; try reflexivity. }
  intros w' r.
  destruct (findPayment w (booking_id b)) as [p0 |] eqn:Hp0.
  - set (w1 := withPayments _ w).
    set (p := Build_Payment _ _ _ _ _ _ _).
    assert (Hp : findPayment w1 (booking_id b) = Some p).
    { unfold findPayment, w1. simpl. rewrite findPayment_upserted; [| reflexivity].
      rewrite Hp0. reflexivity. }
    assert (Hk : payment_bookingId p = booking_id b).
    { apply (find_key payment_bookingId _ _ _ Hp0). }
    destruct (initiate_method data) eqn:Hmethod; simpl.
    3: { rewrite run_bind.
         destruct (initiate_notifyWorker_run b amount w1) as (w2 & -> & Hb2 & Hp2).
         simpl. intros [= <- <-].
         apply (Hwritten w1 w2 p); try assumption; try reflexivity.
         intros p' message [= <- _]. reflexivity. }
    all: destruct (truthyOpt truthyStr (initiate_phone data)); simpl;
      intros [= <- <-]; apply (Hwritten w1 w1 p); try assumption; try reflexivity;
      try (intros p' message [= <- _]; reflexivity); try discriminate.
  - set (w1 := withIdgen _ _).
    set (p := Build_Payment _ _ _ _ _ _ _).
    assert (Hp : findPayment w1 (booking_id b) = Some p).
    { unfold findPayment, w1. simpl. rewrite find_app_new.
      fold (findPayment w (booking_id b)). rewrite Hp0. simpl.
      rewrite String.eqb_refl. reflexivity. }
    destruct (initiate_method data) eqn:Hmethod; simpl.
    3: { rewrite run_bind.
         destruct (initiate_notifyWorker_run b amount w1) as (w2 & -> & Hb2 & Hp2).
         simpl. intros [= <- <-].
         apply (Hwritten w1 w2 p); try assumption; try reflexivity.
         intros p' message [= <- _]. reflexivity. }
    all: destruct (truthyOpt truthyStr (initiate_phone data)); simpl;
      intros [= <- <-]; apply (Hwritten w1 w1 p); try assumption; try reflexivity;
      try (intros p' message [= <- _]; reflexivity); try discriminate.
Qed.

(** C8: initiating a payment succeeds only for a booking that is COMPLETED
    and has no COMPLETED payment; otherwise it fails and the payments are
    as before.  On success the payment of the booking is recorded as
    COMPLETED with [paidAt] the time of the request when the method is CASH,
    and as PROCESSING with no [paidAt] when it is MTN_MOMO or
    VODAFONE_CASH. *)
Theorem post_initiate_guard (req : Request InitiateBody) (w w' : World)
    (r : Result (Payment * string)) :
  run (post_initiate numberToString req) w = (w', r) ->
  (forall p message,
      r = Ok (p, message) ->
      exists b,
        findBooking w (payment_bookingId p) = Some b
        /\ booking_status b = COMPLETED
        /\ payment_status <$> findPayment w (booking_id b) <> Some PAYMENT_COMPLETED
        /\ findPayment w' (booking_id b) = Some p
        /\ match payment_method p with
           | CASH =>
               payment_status p = PAYMENT_COMPLETED /\ payment_paidAt p = Some (clock w)
           | MTN_MOMO | VODAFONE_CASH =>
               payment_status p = PAYMENT_PROCESSING /\ payment_paidAt p = None
           end)
  /\ (forall data b,
        initiatePaymentSchema (req_body req) = inr data ->
        findBooking w (initiate_bookingId data) = Some b ->
        booking_status b <> COMPLETED
        \/ payment_status <$> findPayment w (booking_id b) = Some PAYMENT_COMPLETED ->
        isOk r = false /\ payments w' = payments w /\ bookings w' = bookings w).
Proof.
  intros Hrun. apply post_initiate_inv in Hrun.
  destruct Hrun as [Hbookings [[Hsame Hr] | (data & b & p & Hparse & Hfind & _ & Hcompleted
                                             & Hunpaid & Hp & Hk & Hm & Hs & Ht & Hresp)]].
  - split.
    + intros p message ->. discriminate Hr.
    + intros data b _ _ _. repeat split; assumption.
  - split.
    + intros p' message Hok. apply Hresp in Hok. subst p'.
      exists b. split.
      { rewrite Hk, (findBooking_id _ _ _ Hfind). exact Hfind. }
      repeat (split; [assumption |]).
      rewrite Hm.
      destruct (initiate_method data); split; first [exact Hs | exact Ht].
    + intros data' b' Hparse' Hfind' Hbad.
      rewrite Hparse in Hparse'. injection Hparse' as <-.
      rewrite Hfind in Hfind'. injection Hfind' as <-.
      destruct Hbad as [Hbad | Hbad]; contradiction.
Qed.

End Payments.

(** The customer of the completed phone repair pays in cash. *)
Lemma post_initiate_guard_witness :
  exists b,
    findBooking Seed.repaired "booking-2" = Some b
    /\ booking_status b = COMPLETED
    /\ payment_status <$> findPayment Seed.repaired (booking_id b) <> Some PAYMENT_COMPLETED
    /\ findPayment (fst (run (post_initiate Seed.numerator Seed.payCash) Seed.repaired))
         (booking_id b)
       = Some Seed.cashPayment
    /\ payment_status Seed.cashPayment = PAYMENT_COMPLETED
    /\ payment_paidAt Seed.cashPayment = Some (clock Seed.repaired).
Proof.
  exact (proj1 (post_initiate_guard Seed.numerator Seed.payCash Seed.repaired
                  (fst (run (post_initiate Seed.numerator Seed.payCash) Seed.repaired))
                  (snd (run (post_initiate Seed.numerator Seed.payCash) Seed.repaired))
                  eq_refl)
           Seed.cashPayment "Cash payment recorded" eq_refl).
Defined.


(** ** What the cancellation by an administrator does *)

Lemma admin_post_cancel_inv (req : Request unit) (w w' : World) (r : Result Booking) :
  run (admin_post_cancel req) w = (w', r) ->
  (w' = w /\ isOk r = false) \/
  (exists b,
      user_role (req_user req) = ADMIN
      /\ findBooking w (req_params_id req) = Some b
      /\ r = Ok (applyUpdate (statusOnly CANCELLED) b)
      /\ bookings w' = updateRows booking_id (req_params_id req)
                         (applyUpdate (statusOnly CANCELLED)) (bookings w)
      /\ sameCatalogue w w').
Proof.
  unfold admin_post_cancel, adminOnly.
  destruct (bool_decide (user_role (req_user req) = ADMIN)) eqn:Hrole; simpl.
  2: { intros [= <- <-]. left. split; reflexivity. }
  apply bool_decide_eq_true in Hrole.
  unfold booking_update.
  destruct (findBooking w (req_params_id req)) as [b |] eqn:Hfind; simpl.
  2: { intros [= <- <-]. left. split; reflexivity. }
  rewrite run_bind.
  set (w1 := withBookings _ w).
  set (b' := applyUpdate (statusOnly CANCELLED) b).
  intros Hrun. right. exists b.
  assert (Hshape : exists w2, (w', r) = (w2, Ok b')
                              /\ bookings w2 = bookings w1 /\ sameCatalogue w1 w2).
  { rewrite <- Hrun. clear Hrun. unfold sameCatalogue.
    destruct (truthyOpt truthyStr (booking_workerId b)); simpl.
    - destruct (findWorkerById w1 (default "" (booking_workerId b))); simpl;
        eexists; (split; [reflexivity |]); simpl; repeat split; reflexivity.
    - eexists; (split; [reflexivity |]); simpl; repeat split; reflexivity. }
  destruct Hshape as (w2 & [= -> ->] & Hb & Hsame).
  repeat split; try assumption; try reflexivity; try apply Hsame.
Qed.

(** ** What a call does to the bookings *)

Section Serving.

Variable numberToString : Q -> string.
Variable strLength : string -> nat.
Variable isoDatetime : string -> option Z.

(** No call deletes a booking; a booking it leaves under an id that had none
    is PENDING; a booking it changes is changed as [rewrites] says. *)
Lemma serve_finds (c : Call) (w : World) (id : string) :
  match findBooking w id,
        findBooking (serve numberToString strLength isoDatetime c w) id with
  | Some b, Some b' => b' = b \/ rewrites c b b'
  | Some _, None => False
  | None, Some b' => booking_status b' = PENDING
  | None, None => True
  end.
Proof.
  destruct c as [req | req | req | req | req]; simpl.
  - (* POST /bookings *)
    destruct (run (post_booking strLength isoDatetime req) w) as [w' r] eqn:Hrun.
    apply post_booking_inv in Hrun. simpl.
    destruct Hrun as [_ [[Hsame _] | (data & b0 & _ & _ & Hbs & Hstatus & _)]].
    + unfold findBooking. rewrite Hsame.
      destruct (find _ (bookings w)); auto.
    + unfold findBooking. rewrite Hbs, find_app_new.
      destruct (find _ (bookings w)); [auto |].
      destruct (String.eqb (booking_id b0) id); [exact Hstatus | exact I].
  - (* PATCH /bookings/:id/status *)
    destruct (run (patch_status req) w) as [w' r] eqn:Hrun.
    apply patch_status_inv in Hrun. simpl.
    destruct Hrun as [(e & _ & ->) | (data & b0 & upd & _ & Hfind & Hallowed & Hperm
                                      & Hupd & _ & Hbs & _)].
    { destruct (findBooking w id); auto. }
    rewrite (findBooking_rewritten _ _ _ id _ Hbs).
    destruct (String.eqb_spec (booking_id b0) id) as [<- |].
    2: { destruct (findBooking w id); auto. }
    rewrite (findBooking_self _ _ _ Hfind). simpl. right.
    destruct (patch_updateData_run (user_id (req_user req)) b0 data w)
      as (ru & Hru & Hkeys).
    rewrite Hru in Hupd. injection Hupd as ->.
    destruct (Hkeys upd eq_refl) as (Hs & _ & Hw & _).
    simpl. rewrite Hs, Hw. simpl.
    repeat split.
    + exact Hallowed.
    + intros Htruthy. rewrite Htruthy, andb_false_r. reflexivity.
    + intros Hnc. unfold permissionChecks in Hperm.
      destruct (bool_decide (data_status data = CANCELLED)) eqn:Hc.
      { apply bool_decide_eq_true in Hc. contradiction. }
      unfold workerOf in Hperm.
      destruct (booking_workerId b0); [discriminate | discriminate Hperm].
    + apply setOr_known.
  - (* POST /bookings/:id/accept *)
    destruct (run (post_accept req) w) as [w' r] eqn:Hrun.
    apply post_accept_inv in Hrun. simpl.
    destruct Hrun as [(e & _ & ->) | (worker & b0 & service & _ & _ & _ & Hfind
                                      & Hpending & _ & _ & _ & _ & _ & Hbs & _)].
    { destruct (findBooking w id); auto. }
    rewrite (findBooking_rewritten _ _ _ id _ Hbs).
    destruct (String.eqb_spec (booking_id b0) id) as [<- |].
    2: { destruct (findBooking w id); auto. }
    rewrite (findBooking_self _ _ _ Hfind). simpl. right.
    repeat split; [exact Hpending | discriminate].
  - (* POST /payments/initiate *)
    destruct (run (post_initiate numberToString req) w) as [w' r] eqn:Hrun.
    apply post_initiate_inv in Hrun. simpl.
    destruct Hrun as [Hsame _]. unfold findBooking. rewrite Hsame.
    destruct (find _ (bookings w)); auto.
  - (* POST /admin/bookings/:id/cancel *)
    destruct (run (admin_post_cancel req) w) as [w' r] eqn:Hrun.
    apply admin_post_cancel_inv in Hrun. simpl.
    destruct Hrun as [[-> _] | (b0 & _ & Hfind & _ & Hbs & _)].
    { destruct (findBooking w id); auto. }
    rewrite (findBooking_rewritten _ _ _ id _ Hbs).
    destruct (String.eqb_spec (req_params_id req) id) as [<- |].
    2: { destruct (findBooking w id); auto. }
    rewrite Hfind. simpl. right. split; reflexivity.
Qed.

(** ** Terminal bookings (claim C2) *)

Lemma transitionAllowed_terminal (from to : BookingStatus) :
  terminal from = true -> transitionAllowed from to = false.
Proof. destruct from; simpl; intros H; try discriminate H; reflexivity. Qed.

Lemma serve_terminal (c : Call) (w : World) (b : Booking) :
  publicApi c = true ->
  findBooking w (booking_id b) = Some b ->
  terminal (booking_status b) = true ->
  findBooking (serve numberToString strLength isoDatetime c w) (booking_id b) = Some b.
Proof.
  intros Hpublic Hfind Hterminal.
  pose proof (serve_finds c w (booking_id b)) as H.
  rewrite Hfind in H.
  destruct (findBooking (serve numberToString strLength isoDatetime c w) (booking_id b))
    as [b' |]; [| contradiction].
  destruct H as [-> | H]; [reflexivity |].
  destruct c; simpl in H, Hpublic; try contradiction; try discriminate Hpublic.
  - destruct H as [H _].
    rewrite (transitionAllowed_terminal _ _ Hterminal) in H. discriminate H.
  - destruct H as [H _]. rewrite H in Hterminal. discriminate Hterminal.
Qed.

(** C2 (amended): a booking that is COMPLETED or CANCELLED is never changed
    through the public API: every status update and every accept that names
    it fails and writes nothing, and after any sequence of public calls the
    booking is the same row.  The cancellation by an administrator is
    outside this: it checks no status, succeeds on a terminal booking too
    and leaves it CANCELLED, with the worker it had. *)
Theorem terminal_booking_frozen (w : World) (b : Booking) :
  findBooking w (booking_id b) = Some b ->
  terminal (booking_status b) = true ->
  (forall req, req_params_id req = booking_id b ->
     exists e, run (patch_status req) w = (w, Err e))
  /\ (forall req, req_params_id req = booking_id b ->
       exists e, run (post_accept req) w = (w, Err e))
  /\ (forall calls, forallb publicApi calls = true ->
       findBooking (serveAll numberToString strLength isoDatetime calls w) (booking_id b)
       = Some b)
  /\ (forall req, req_params_id req = booking_id b -> user_role (req_user req) = ADMIN ->
       exists w' b',
         run (admin_post_cancel req) w = (w', Ok b')
         /\ findBooking w' (booking_id b) = Some b'
         /\ booking_status b' = CANCELLED
         /\ booking_workerId b' = booking_workerId b).
Proof.
  intros Hfind Hterminal. split; [| split; [| split]].
  - intros req Hid.
    destruct (run (patch_status req) w) as [w' r] eqn:Hrun.
    pose proof Hrun as Hinv. apply patch_status_inv in Hinv.
    destruct Hinv as [(e & -> & ->) | (data & b0 & upd & _ & Hfind' & Hallowed & _)].
    + eauto.
    + rewrite Hid, Hfind in Hfind'. injection Hfind' as <-.
      rewrite (transitionAllowed_terminal _ _ Hterminal) in Hallowed.
      discriminate Hallowed.
  - intros req Hid.
    destruct (run (post_accept req) w) as [w' r] eqn:Hrun.
    pose proof Hrun as Hinv. apply post_accept_inv in Hinv.
    destruct Hinv as [(e & -> & ->) | (worker & b0 & service & _ & _ & _ & Hfind'
                                       & Hpending & _)].
    + eauto.
    + rewrite Hid, Hfind in Hfind'. injection Hfind' as <-.
      rewrite Hpending in Hterminal. discriminate Hterminal.
  - intros calls. revert w Hfind.
    induction calls as [| c calls IH]; intros w Hfind Hpublic; simpl.
    + exact Hfind.
    + simpl in Hpublic. apply andb_prop in Hpublic. destruct Hpublic as [Hc Hcalls].
      apply IH; [| exact Hcalls].
      apply serve_terminal; assumption.
  - intros req Hid Hrole.
    unfold admin_post_cancel, adminOnly. rewrite Hrole. simpl.
    unfold booking_update. rewrite Hid, Hfind. simpl. rewrite run_bind.
    set (w1 := withBookings _ w).
    assert (Hfound : findBooking w1 (booking_id b)
                     = Some (applyUpdate (statusOnly CANCELLED) b)).
    { rewrite (findBooking_rewritten w w1 (booking_id b) _ (statusOnly CANCELLED) eq_refl).
      rewrite String.eqb_refl, Hfind. reflexivity. }
    destruct (truthyOpt truthyStr (booking_workerId b)); simpl.
    + destruct (findWorkerById w1 (default "" (booking_workerId b))); simpl;
        eexists; eexists; (split; [reflexivity |]); (split; [exact Hfound |]);
        split; reflexivity.
    + eexists; eexists; (split; [reflexivity |]); (split; [exact Hfound |]);
        split; reflexivity.
Qed.

(** ** The worker of a booking (claim C5) *)

(** C5 (amended): a worker id that is set (not null, and not the empty
    string, which the handlers read as unset) is kept by every call except
    an accept of a booking that is still PENDING: the status update assigns
    a worker only to a booking that has none, the cancellation by an
    administrator, the creation of another booking and the payments never
    write the column, and an accept of a booking that is not PENDING is
    refused.  A booking may be without a worker while PENDING or CANCELLED
    (an unassigned booking that was cancelled) and in no other status: every
    call keeps that every booking past PENDING and not cancelled has a
    worker. *)
Theorem assigned_worker_kept (c : Call) (w : World) :
  (forall id b,
      findBooking w id = Some b ->
      truthyOpt truthyStr (booking_workerId b) = true ->
      isAccept c = false \/ booking_status b <> PENDING ->
      exists b',
        findBooking (serve numberToString strLength isoDatetime c w) id = Some b'
        /\ booking_workerId b' = booking_workerId b)
  /\ (workersKnown w -> workersKnown (serve numberToString strLength isoDatetime c w)).
Proof.
  split.
  - intros id b Hfind Hset Hnot.
    pose proof (serve_finds c w id) as H. rewrite Hfind in H.
    destruct (findBooking (serve numberToString strLength isoDatetime c w) id) as [b' |];
      [| contradiction].
    exists b'. split; [reflexivity |].
    destruct H as [-> | H]; [reflexivity |].
    destruct c; simpl in H; try contradiction.
    + destruct H as (_ & H & _). apply H. exact Hset.
    + destruct H as (Hpending & _).
      destruct Hnot as [Hnot | Hnot]; [discriminate Hnot | contradiction].
    + apply H.
  - intros Hknown id b' Hfind' Hnp Hnc.
    pose proof (serve_finds c w id) as H. rewrite Hfind' in H.
    destruct (findBooking w id) as [b |] eqn:Hfind; [| contradiction].
    destruct H as [-> | H]; [apply (Hknown id); assumption |].
    destruct c; simpl in H; try contradiction.
    + destruct H as (_ & _ & H1 & H2). apply H2, H1. exact Hnc.
    + apply H.
    + destruct H as [H _]. contradiction.
Qed.

End Serving.

(** Three public calls leave the seeded COMPLETED booking as it is. *)
Lemma terminal_booking_frozen_witness :
  findBooking
    (serveAll Seed.numerator String.length Seed.noDatetime
       [PatchStatus (Seed.patch (Seed.asWorker "0") Seed.sink "CANCELLED" None);
        PostAccept (Seed.post (Seed.asWorker "0") Seed.sink);
        PostBooking Seed.shelfRequest]
       Seed.world)
    (booking_id Seed.sink)
  = Some Seed.sink.
Proof.
  refine (proj1 (proj2 (proj2 (terminal_booking_frozen Seed.numerator String.length
                                 Seed.noDatetime Seed.world Seed.sink _ _)))
            _ _).
  - reflexivity.
  - reflexivity.
  - reflexivity.
Defined.

(** C2, as stated, fails for the cancellation by an administrator: it
    succeeds on a COMPLETED booking and leaves it CANCELLED. *)
Lemma admin_cancels_completed :
  findBooking Seed.world (booking_id Seed.sink) = Some Seed.sink
  /\ booking_status Seed.sink = COMPLETED
  /\ snd (run (admin_post_cancel (Seed.post Seed.asAdmin Seed.sink)) Seed.world)
     = Ok (applyUpdate (statusOnly CANCELLED) Seed.sink)
  /\ booking_status
       <$> findBooking (fst (run (admin_post_cancel (Seed.post Seed.asAdmin Seed.sink))
                               Seed.world))
             (booking_id Seed.sink)
     = Some CANCELLED.
Proof. repeat split. Qed.

(** The worker of the seeded ACCEPTED booking sets out and is still its
    worker. *)
Lemma assigned_worker_kept_witness :
  exists b',
    findBooking
      (serve Seed.numerator String.length Seed.noDatetime
         (PatchStatus (Seed.patch (Seed.asWorker "3") Seed.cleaning "WORKER_EN_ROUTE" None))
         Seed.world)
      (booking_id Seed.cleaning)
    = Some b'
    /\ booking_workerId b' = Some "worker-3".
Proof.
  refine (proj1 (assigned_worker_kept Seed.numerator String.length Seed.noDatetime
                   (PatchStatus (Seed.patch (Seed.asWorker "3") Seed.cleaning
                                   "WORKER_EN_ROUTE" None))
                   Seed.world)
            (booking_id Seed.cleaning) Seed.cleaning _ _ _).
  - reflexivity.
  - reflexivity.
  - left. reflexivity.
Defined.

(** C5, as stated, fails twice.  A customer who cancels a booking that no
    worker has claimed leaves it CANCELLED without a worker.  And the accept
    endpoint checks the status only: a booking created for the carpenter of
    the seed is PENDING with that worker, and the accept of another verified
    carpenter succeeds and replaces the worker. *)
Lemma worker_null_or_replaced :
  (booking_status Seed.wardrobe = PENDING
   /\ booking_workerId Seed.wardrobe = None
   /\ snd (run (patch_status (Seed.patch (Seed.asCustomer "1") Seed.wardrobe "CANCELLED" None))
             Seed.world)
      = Ok (applyUpdate (statusOnly CANCELLED) Seed.wardrobe)
   /\ booking_status (applyUpdate (statusOnly CANCELLED) Seed.wardrobe) = CANCELLED
   /\ booking_workerId (applyUpdate (statusOnly CANCELLED) Seed.wardrobe) = None)
  /\ (findBooking Seed.requested (booking_id Seed.shelf) = Some Seed.shelf
      /\ booking_workerId Seed.shelf = Some "worker-4"
      /\ isOk (snd (run (post_accept (Seed.post (Seed.asWorker "6") Seed.shelf))
                      Seed.requested)) = true
      /\ booking_workerId
           <$> findBooking (fst (run (post_accept (Seed.post (Seed.asWorker "6") Seed.shelf))
                                   Seed.requested))
                 (booking_id Seed.shelf)
         = Some (Some "worker-6")).
Proof. vm_compute. repeat split. Qed.

(** ** Two workers accepting at once (claim C3) *)

(** Handled one after the other, only the first accept of a booking
    succeeds: a later accept of a verified worker finds the booking ACCEPTED
    and is refused with NOT_AVAILABLE, and nothing is written. *)
Lemma post_accept_once (w w1 : World) (first second : Request unit) (b1 : Booking)
    (worker : Worker) :
  run (post_accept first) w = (w1, Ok b1) ->
  req_params_id second = req_params_id first ->
  user_role (req_user second) = WORKER ->
  findWorkerByUserId w (user_id (req_user second)) = Some worker ->
  worker_verificationStatus worker = VERIFIED ->
  run (post_accept second) w1
  = (w1, Err (AppError 400 "Booking is not available" "NOT_AVAILABLE")).
Proof.
  intros Hfirst Hid Hrole Hworker Hverified.
  apply post_accept_inv in Hfirst.
  destruct Hfirst as [(e & He & _) | (k & b & service & _ & _ & _ & Hfind & _ & _ & _ & _
                                      & _ & _ & Hbs & Hsame)].
  { discriminate He. }
  assert (Hfound : findBooking w1 (req_params_id second)
                   = Some (applyUpdate (acceptData k service) b)).
  { rewrite (findBooking_rewritten w w1 (booking_id b) _ _ Hbs).
    rewrite Hid, (findBooking_id _ _ _ Hfind), String.eqb_refl, Hfind. reflexivity. }
  assert (Hworker1 : findWorkerByUserId w1 (user_id (req_user second)) = Some worker).
  { unfold findWorkerByUserId in *. destruct Hsame as (_ & -> & _). exact Hworker. }
  unfold post_accept, authorize. rewrite Hrole. simpl.
  rewrite Hworker1. simpl. rewrite Hverified. simpl.
  rewrite Hfound. reflexivity.
Qed.

(** The two carpenters of the example, one after the other. *)
Lemma post_accept_in_turn :
  snd (runInterleaved Seed.queued Seed.rivals Seed.contested)
  = [Done (applyUpdate (acceptData (Seed.worker "4" VERIFIED) (Seed.service "4" "4" 120))
             Seed.wardrobe);
     Throw (AppError 400 "Booking is not available" "NOT_AVAILABLE")]
  /\ booking_workerId
       <$> findBooking (fst (runInterleaved Seed.queued Seed.rivals Seed.contested))
             (booking_id Seed.wardrobe)
     = Some (Some "worker-4").
Proof. vm_compute. repeat split. Qed.

(** C3 fails on the code: the accept endpoint reads the booking and writes
    it in two separate operations, and the write is not conditional.  When
    two verified carpenters accept the PENDING, unassigned booking of the
    seed and each has read it before the other writes, both requests
    succeed, each response names its own worker, no request fails with
    NOT_AVAILABLE, and the booking ends with the worker who wrote last. *)
Theorem post_accept_race_two_winners :
  booking_status Seed.wardrobe = PENDING
  /\ booking_workerId Seed.wardrobe = None
  /\ map response (snd (runInterleaved Seed.raced Seed.rivals Seed.contested))
     = [Some (Ok (applyUpdate
                    (acceptData (Seed.worker "4" VERIFIED) (Seed.service "4" "4" 120))
                    Seed.wardrobe));
        Some (Ok (applyUpdate
                    (acceptData (Seed.worker "6" VERIFIED) (Seed.service "6" "4" 110))
                    Seed.wardrobe))]
  /\ booking_workerId
       <$> findBooking (fst (runInterleaved Seed.raced Seed.rivals Seed.contested))
             (booking_id Seed.wardrobe)
     = Some (Some "worker-6").
Proof. vm_compute. repeat split. Qed.
(** * Further properties of the handlers *)

(** ** Reading a booking or a payment *)

Lemma workerOf_id (w : World) (b : Booking) (k : Worker) :
  workerOf w b = Some k -> booking_workerId b = Some (worker_id k).
Proof.
  unfold workerOf, findWorkerById. destruct (booking_workerId b) as [wid |]; [| discriminate].
  intros H. apply (find_key worker_id) in H. rewrite H. reflexivity.
Qed.

(** X1: Reading a booking writes nothing.  It answers to the customer of the
    booking, to the user of its worker and to an administrator: with the
    booking of that id as stored, the worker the booking names and the
    payment of that booking.  Anyone else gets FORBIDDEN (403), and a
    missing booking is NOT_FOUND (404) for everyone. *)
Theorem get_booking_access (req : Request unit) (w : World) :
  fst (run (get_booking req) w) = w
  /\ match snd (run (get_booking req) w) with
     | Ok (b, k, p) =>
         findBooking w (req_params_id req) = Some b
         /\ booking_id b = req_params_id req
         /\ k = workerOf w b
         /\ p = findPayment w (booking_id b)
         /\ (forall k0, k = Some k0 -> booking_workerId b = Some (worker_id k0))
         /\ (forall p0, p = Some p0 -> payment_bookingId p0 = booking_id b)
         /\ (isCustomerOf b (req_user req) || isWorkerOf k (req_user req)
             || bool_decide (user_role (req_user req) = ADMIN)) = true
     | Err e =>
         match findBooking w (req_params_id req) with
         | None => e = AppError 404 "Booking not found" "NOT_FOUND"
         | Some b =>
             e = AppError 403 "Access denied" "FORBIDDEN"
             /\ isCustomerOf b (req_user req) = false
             /\ isWorkerOf (workerOf w b) (req_user req) = false
             /\ user_role (req_user req) <> ADMIN
         end
     end.
Proof.
  unfold get_booking. simpl.
  destruct (findBooking w (req_params_id req)) as [b |] eqn:Hfind; simpl.
  2: { split; reflexivity. }
  destruct (isCustomerOf b (req_user req)) eqn:Hcustomer,
    (isWorkerOf (workerOf w b) (req_user req)) eqn:Hworker,
    (bool_decide (user_role (req_user req) = ADMIN)) eqn:Hadmin; simpl;
    (split; [reflexivity |]);
    try (split; [reflexivity |];
         split; [exact (findBooking_id _ _ _ Hfind) |];
         split; [reflexivity |]; split; [reflexivity |];
         split; [intros k0 Hk0; exact (workerOf_id _ _ _ Hk0) |];
         split; [intros p0 Hp0; exact (find_key payment_bookingId _ _ _ Hp0) |];
         rewrite ?Hcustomer, ?Hworker; reflexivity).
  repeat split. apply bool_decide_eq_false in Hadmin. exact Hadmin.
Qed.

(** X2: The payment of a booking is shown to those the booking is shown to, and
    to nobody else: its customer, the user of its worker and an
    administrator get the payment, anyone else FORBIDDEN (403); nothing is
    written. *)
Theorem get_payment_access (user : AuthUser) (id : string) (w : World) (p : Payment)
    (b : Booking) :
  findPaymentById w id = Some p ->
  findBooking w (payment_bookingId p) = Some b ->
  fst (run (get_payment {| req_user := user; req_params_id := id; req_body := tt |}) w) = w
  /\ isOk (snd (run (get_payment {| req_user := user; req_params_id := id;
                                   req_body := tt |}) w))
     = isOk (snd (run (get_booking {| req_user := user; req_params_id := booking_id b;
                                      req_body := tt |}) w))
  /\ snd (run (get_payment {| req_user := user; req_params_id := id; req_body := tt |}) w)
     = if isOk (snd (run (get_booking {| req_user := user; req_params_id := booking_id b;
                                         req_body := tt |}) w))
       then Ok p
       else Err (AppError 403 "Access denied" "FORBIDDEN").
Proof.
  intros Hp Hb. unfold get_payment, get_booking. simpl. rewrite Hp, Hb.
  rewrite (findBooking_self _ _ _ Hb). simpl.
  destruct (isCustomerOf b user), (isWorkerOf (workerOf w b) user),
    (bool_decide (user_role user = ADMIN)); simpl; repeat split; reflexivity.
Qed.

(** The worker of the first seeded booking reads its payment. *)
Lemma get_payment_access_witness :
  run (get_payment {| req_user := Seed.asWorker "0"; req_params_id := "payment-booking-0";
                      req_body := tt |}) Seed.world
  = (Seed.world, Ok (Seed.paid Seed.sink 55)).
Proof.
  destruct (get_payment_access (Seed.asWorker "0") "payment-booking-0" Seed.world
              (Seed.paid Seed.sink 55) Seed.sink eq_refl eq_refl) as (Hw & _ & Hr).
  rewrite (surjective_pairing (run _ _)), Hw, Hr. reflexivity.
Defined.

(** ** More on the status update *)

Lemma patch_notify_effect (b : Booking) (s : BookingStatus) (w : World) :
  exists w',
    run (patch_notify b s) w = (w', Ok tt)
    /\ notifications w' = (notifications w ++ statusNotifications b s)%list
    /\ emitted w' = (emitted w ++ tl (statusEvents b s))%list.
Proof.
  unfold patch_notify, statusNotifications, statusEvents.
  destruct (notificationTypes s) as [[[type title] body] |]; simpl.
  - eexists. split; [reflexivity |]. simpl. split; reflexivity.
  - exists w. rewrite !app_nil_r. repeat split.
Qed.

Lemma permissionChecks_entitled (w : World) (b : Booking) (user : AuthUser)
    (target : BookingStatus) :
  permissionChecks target (isWorkerOf (workerOf w b) user) (isCustomerOf b user) = None
  <-> entitled w b user target = true.
Proof.
  unfold permissionChecks, entitled.
  destruct (bool_decide (target = CANCELLED)), (isWorkerOf (workerOf w b) user),
    (isCustomerOf b user); simpl; split; intros H; try reflexivity; discriminate H.
Qed.

Lemma find_found {A} (p : A -> bool) (rows : list A) (r : A) :
  In r rows -> p r = true -> exists r', find p rows = Some r'.
Proof.
  intros Hin Hp. destruct (find p rows) as [r' |] eqn:Hfind; [eauto |].
  rewrite (find_none _ _ Hfind r Hin) in Hp. discriminate Hp.
Qed.

(** The user of the worker of a booking has a worker profile. *)
Lemma isWorkerOf_profile (w : World) (b : Booking) (user : AuthUser) :
  isWorkerOf (workerOf w b) user = true ->
  exists k, findWorkerByUserId w (user_id user) = Some k.
Proof.
  unfold isWorkerOf, workerOf, findWorkerById, findWorkerByUserId.
  destruct (booking_workerId b) as [wid |]; [| discriminate].
  destruct (find _ (workers w)) as [k |] eqn:Hk; [| discriminate].
  intros Huser. apply find_some in Hk.
  apply (find_found _ _ k); [apply Hk | exact Huser].
Qed.

(** X3: A status update that passes the schema, names a booking, asks for a
    pair of the transition table and comes from an entitled user always
    succeeds: the booking is stored with the target status and is the
    booking of the response. *)
Theorem patch_status_succeeds (req : Request StatusBody) (w : World)
    (data : StatusData) (b : Booking) :
  updateBookingStatusSchema (req_body req) = inr data ->
  findBooking w (req_params_id req) = Some b ->
  transitionAllowed (booking_status b) (data_status data) = true ->
  entitled w b (req_user req) (data_status data) = true ->
  exists w' b',
    run (patch_status req) w = (w', Ok b')
    /\ findBooking w' (req_params_id req) = Some b'
    /\ booking_status b' = data_status data.
Proof.
  intros Hparse Hfind Hallowed Hentitled.
  pose proof (proj2 (permissionChecks_entitled _ _ _ _) Hentitled) as Hperm.
  destruct (run (patch_status req) w) as [w' r] eqn:Hrun.
  assert (Hupd : exists upd,
             run (patch_updateData (user_id (req_user req)) b data) w = (w, Ok upd)).
  { unfold patch_updateData.
    assert (Hclaim : bool_decide (data_status data = ACCEPTED)
                     && negb (truthyOpt truthyStr (booking_workerId b)) = true ->
                     exists k, findWorkerByUserId w (user_id (req_user req)) = Some k).
    { intros Hc. apply andb_prop in Hc. destruct Hc as [Hc _].
      apply bool_decide_eq_true in Hc.
      apply (isWorkerOf_profile w b). unfold entitled in Hentitled.
      rewrite Hc in Hentitled. exact Hentitled. }
    destruct (bool_decide (data_status data = ACCEPTED)
              && negb (truthyOpt truthyStr (booking_workerId b))) eqn:Hc; simpl.
    - destruct (Hclaim eq_refl) as (k & Hk). rewrite Hk. simpl.
      destruct (bool_decide (data_status data = IN_PROGRESS)),
        (bool_decide (data_status data = COMPLETED)); simpl; eauto.
    - destruct (bool_decide (data_status data = IN_PROGRESS)),
        (bool_decide (data_status data = COMPLETED)); simpl; eauto. }
  destruct Hupd as (upd & Hupd).
  assert (Hok : isOk r = true).
  { unfold patch_status in Hrun.
    rewrite Hparse in Hrun. simpl in Hrun. rewrite Hfind in Hrun. simpl in Hrun.
    rewrite Hallowed, Hperm in Hrun. simpl in Hrun.
    rewrite run_bind, Hupd in Hrun. simpl in Hrun.
    unfold booking_update in Hrun.
    rewrite (findBooking_id _ _ _ Hfind), Hfind in Hrun.
    rewrite run_bind in Hrun.
    match type of Hrun with
    | context [run (patch_notify ?b0 ?s) ?w0] =>
        destruct (patch_notify_effect b0 s w0) as (w1 & Hn & _ & _)
    end.
    rewrite Hn in Hrun. simpl in Hrun. injection Hrun as <- <-. reflexivity. }
  apply patch_status_inv in Hrun.
  destruct Hrun as [(e & -> & _) | (data' & b0 & upd' & Hparse' & Hfind' & _ & _ & Hupd'
                                    & -> & Hbs & _)].
  { discriminate Hok. }
  rewrite Hparse in Hparse'. injection Hparse' as <-.
  rewrite Hfind in Hfind'. injection Hfind' as <-.
  exists w', (applyUpdate upd' b). split; [reflexivity |]. split.
  - rewrite (findBooking_rewritten w w' (booking_id b) _ upd' Hbs).
    rewrite (findBooking_id _ _ _ Hfind), String.eqb_refl, Hfind. reflexivity.
  - destruct (patch_updateData_run (user_id (req_user req)) b data w) as (ru & Hru & Hkeys).
    rewrite Hru in Hupd'. injection Hupd' as ->.
    destruct (Hkeys upd' eq_refl) as (Hs & _). simpl. rewrite Hs. reflexivity.
Qed.

(** What a successful status update leaves beside the booking: the
    notification of the customer, the socket events, and the times. *)
Lemma patch_status_effects (req : Request StatusBody) (w w' : World) (b' : Booking) :
  run (patch_status req) w = (w', Ok b') ->
  exists b,
    findBooking w (req_params_id req) = Some b
    /\ notifications w' = (notifications w ++ statusNotifications b (booking_status b'))%list
    /\ emitted w' = (emitted w ++ statusEvents b (booking_status b'))%list
    /\ booking_startedAt b' =
         (if bool_decide (booking_status b' = IN_PROGRESS)
          then Some (clock w) else booking_startedAt b)
    /\ booking_completedAt b' =
         (if bool_decide (booking_status b' = COMPLETED)
          then Some (clock w) else booking_completedAt b).
Proof.
  intros Hrun. pose proof Hrun as Hinv. apply patch_status_inv in Hinv.
  destruct Hinv as [(e & He & _) | (data & b & upd & Hparse & Hfind & Hallowed & Hperm
                                    & Hupd & Hr & _)].
  { discriminate He. }
  injection Hr as ->.
  destruct (patch_updateData_run (user_id (req_user req)) b data w) as (ru & Hru & Hkeys).
  rewrite Hru in Hupd. injection Hupd as ->.
  destruct (Hkeys upd eq_refl) as (Hs & _ & _ & Hstarted & Hcompleted & _).
  assert (Hstatus : booking_status (applyUpdate upd b) = data_status data).
  { simpl. rewrite Hs. reflexivity. }
  exists b. split; [exact Hfind |].
  unfold patch_status in Hrun.
  rewrite Hparse in Hrun. simpl in Hrun. rewrite Hfind in Hrun. simpl in Hrun.
  rewrite Hallowed, Hperm in Hrun. simpl in Hrun.
  rewrite run_bind, Hru in Hrun. simpl in Hrun.
  unfold booking_update in Hrun.
  rewrite (findBooking_id _ _ _ Hfind), Hfind in Hrun.
  rewrite run_bind in Hrun.
  match type of Hrun with
  | context [run (patch_notify ?b0 ?s) ?w0] =>
      destruct (patch_notify_effect b0 s w0) as (w1 & Hn & Hnotes & Hevents)
  end.
  rewrite Hn in Hrun. simpl in Hrun. injection Hrun as <-.
  rewrite Hstatus. simpl in Hnotes, Hevents.
  split; [exact Hnotes |]. split.
  - rewrite Hevents. unfold statusEvents.
    rewrite (findBooking_id _ _ _ Hfind), <- app_assoc. reflexivity.
  - simpl. rewrite Hstarted, Hcompleted.
    destruct (bool_decide (data_status data = IN_PROGRESS)),
      (bool_decide (data_status data = COMPLETED)); split; reflexivity.
Qed.

(** X4: A successful status update notifies the customer when the booking
    becomes ACCEPTED, WORKER_EN_ROUTE or COMPLETED and nobody when it becomes
    IN_PROGRESS or CANCELLED (the worker of a booking its customer cancels
    gets no notification); it always publishes one [booking:status] event to
    the room of the booking. *)
Theorem patch_status_notifies (req : Request StatusBody) (w w' : World) (b' : Booking) :
  run (patch_status req) w = (w', Ok b') ->
  exists b,
    findBooking w (req_params_id req) = Some b
    /\ notifications w' = (notifications w ++ statusNotifications b (booking_status b'))%list
    /\ emitted w' = (emitted w ++ statusEvents b (booking_status b'))%list
    /\ Forall (fun n => notification_userId n = booking_customerId b)
         (statusNotifications b (booking_status b'))
    /\ length (statusNotifications b (booking_status b')) =
         (if bool_decide (booking_status b' = IN_PROGRESS)
             || bool_decide (booking_status b' = CANCELLED)
          then 0 else 1)%nat.
Proof.
  intros Hrun.
  pose proof Hrun as Hinv. apply patch_status_inv in Hinv.
  destruct Hinv as [(e & He & _) | (data & b0 & upd & Hparse & _ & _ & _ & Hupd & Hr & _)].
  { discriminate He. }
  assert (Hnp : booking_status b' <> PENDING).
  { injection Hr as ->.
    destruct (patch_updateData_run (user_id (req_user req)) b0 data w) as (ru & Hru & Hkeys).
    rewrite Hru in Hupd. injection Hupd as ->.
    destruct (Hkeys upd eq_refl) as (Hs & _). simpl. rewrite Hs. simpl.
    apply updateBookingStatusSchema_inr in Hparse. destruct Hparse as [Hparse _].
    intros Hp. rewrite Hp in Hparse.
    unfold statusEnum in Hparse.
    destruct (body_status (req_body req)) as [[| | | s | |] |]; try discriminate Hparse.
    repeat (destruct (String.eqb s _); [discriminate Hparse |]). discriminate Hparse. }
  destruct (patch_status_effects req w w' b' Hrun) as (b & Hfind & Hn & He & _).
  exists b. repeat (split; [assumption |]).
  unfold statusNotifications.
  destruct (booking_status b'); try contradiction; simpl;
    split; try reflexivity; repeat constructor.
Qed.

(** The worker of the seeded ACCEPTED booking sets out: the customer is
    notified. *)
Lemma patch_status_notifies_witness :
  exists b,
    findBooking Seed.world (booking_id Seed.cleaning) = Some b
    /\ length (statusNotifications b WORKER_EN_ROUTE) = 1%nat.
Proof.
  destruct (patch_status_notifies
              (Seed.patch (Seed.asWorker "3") Seed.cleaning "WORKER_EN_ROUTE" None)
              Seed.world
              (fst (run (patch_status (Seed.patch (Seed.asWorker "3") Seed.cleaning
                                         "WORKER_EN_ROUTE" None)) Seed.world))
              (applyUpdate (statusOnly WORKER_EN_ROUTE) Seed.cleaning) eq_refl)
    as (b & Hfind & _ & _ & _ & Hlen).
  exists b. split; [exact Hfind | exact Hlen].
Defined.

(** X5: A successful status update sets [startedAt] to the time of the request
    when the booking becomes IN_PROGRESS and [completedAt] when it becomes
    COMPLETED, whatever they held, and leaves each of them alone
    otherwise. *)
Theorem patch_status_timestamps (req : Request StatusBody) (w w' : World) (b' : Booking) :
  run (patch_status req) w = (w', Ok b') ->
  exists b,
    findBooking w (req_params_id req) = Some b
    /\ booking_startedAt b' =
         (if bool_decide (booking_status b' = IN_PROGRESS)
          then Some (clock w) else booking_startedAt b)
    /\ booking_completedAt b' =
         (if bool_decide (booking_status b' = COMPLETED)
          then Some (clock w) else booking_completedAt b).
Proof.
  intros Hrun.
  destruct (patch_status_effects req w w' b' Hrun) as (b & Hfind & _ & _ & Hs & Hc).
  exists b. repeat split; assumption.
Qed.

(** The worker of the seeded IN_PROGRESS booking completes it: it is
    completed at the time of the request and started when it was. *)
Lemma patch_status_timestamps_witness :
  exists b,
    findBooking Seed.world (booking_id Seed.screen) = Some b
    /\ Some 1000%Z = Some (clock Seed.world)
    /\ Some 500%Z = booking_startedAt b.
Proof.
  destruct (patch_status_timestamps
              (Seed.patch (Seed.asWorker "2") Seed.screen "COMPLETED" (Some 35%Q))
              Seed.world Seed.repaired
              (applyUpdate
                 {| set_status := Some COMPLETED; set_workerId := None;
                    set_estimatedPrice := None; set_finalPrice := Some 35%Q;
                    set_startedAt := None; set_completedAt := Some 1000%Z |} Seed.screen)
              eq_refl)
    as (b & Hfind & Hs & Hc).
  exists b. split; [exact Hfind |]. split; [exact Hc | exact Hs].
Defined.

(** The customer of the seeded PENDING booking cancels it. *)
Lemma patch_status_succeeds_witness :
  exists w' b',
    run (patch_status (Seed.patch (Seed.asCustomer "1") Seed.wardrobe "CANCELLED" None))
      Seed.world = (w', Ok b')
    /\ findBooking w' (booking_id Seed.wardrobe) = Some b'
    /\ booking_status b' = CANCELLED.
Proof.
  exact (patch_status_succeeds
           (Seed.patch (Seed.asCustomer "1") Seed.wardrobe "CANCELLED" None)
           Seed.world {| data_status := CANCELLED; data_finalPrice := None |}
           Seed.wardrobe eq_refl eq_refl eq_refl eq_refl).
Defined.

(** ** More on accepting a booking *)

Lemma find_map_kept {A} (p : A -> bool) (g : A -> A) (rows : list A) :
  (forall r, p (g r) = p r) -> find p (map g rows) = g <$> find p rows.
Proof.
  intros Hp. induction rows as [| r rows IH]; simpl; [reflexivity |].
  rewrite Hp. destruct (p r); [reflexivity | exact IH].
Qed.

(** X6: What a successful accept writes: the booking becomes ACCEPTED with the
    worker profile of the user and, as estimated price, the base price of
    an active service of that worker in the category of the booking; the
    user joins the conversation of the booking when there is one; the
    customer gets one BOOKING_ACCEPTED notification. *)
Theorem post_accept_effects (req : Request unit) (w w' : World) (b' : Booking) :
  run (post_accept req) w = (w', Ok b') ->
  exists worker b service,
    findWorkerByUserId w (user_id (req_user req)) = Some worker
    /\ findBooking w (req_params_id req) = Some b
    /\ In service (workerServices w)
    /\ service_workerId service = worker_id worker
    /\ service_categoryId service = booking_categoryId b
    /\ service_isActive service = true
    /\ findBooking w' (req_params_id req) = Some b'
    /\ booking_status b' = ACCEPTED
    /\ booking_workerId b' = Some (worker_id worker)
    /\ booking_estimatedPrice b' = Some (service_basePrice service)
    /\ booking_finalPrice b' = booking_finalPrice b
    /\ notifications w' = (notifications w ++ [acceptedNotification b])%list
    /\ findConversation w' (req_params_id req)
       = joined (user_id (req_user req)) <$> findConversation w (req_params_id req).
Proof.
  intros Hrun. pose proof Hrun as Hinv. apply post_accept_inv in Hinv.
  destruct Hinv as [(e & He & _) | (worker & b & service & Hrole & Hworker & Hverified
                                    & Hfind & Hpending & Hin & Hwid & Hcat & Hactive
                                    & Hr & Hbs & _)].
  { discriminate He. }
  injection Hr as ->.
  exists worker, b, service.
  repeat (split; [assumption |]).
  split.
  { rewrite (findBooking_rewritten w w' (booking_id b) _ _ Hbs).
    rewrite (findBooking_id _ _ _ Hfind), String.eqb_refl, Hfind. reflexivity. }
  repeat (split; [reflexivity |]).
  unfold post_accept, authorize in Hrun. simpl in Hrun.
  rewrite Hrole in Hrun. simpl in Hrun.
  rewrite Hworker in Hrun. simpl in Hrun. rewrite Hverified in Hrun. simpl in Hrun.
  rewrite Hfind in Hrun. simpl in Hrun. rewrite Hpending in Hrun. simpl in Hrun.
  destruct (find _ (workerServices w)) as [service' |] eqn:Hservice; simpl in Hrun.
  2: { discriminate Hrun. }
  unfold booking_update in Hrun.
  rewrite (findBooking_id _ _ _ Hfind), Hfind in Hrun.
  rewrite run_bind in Hrun. simpl in Hrun.
  set (w1 := withBookings _ w) in Hrun.
  change (findConversation w1 (req_params_id req))
    with (findConversation w (req_params_id req)) in Hrun.
  unfold acceptedNotification. rewrite (findBooking_id _ _ _ Hfind).
  destruct (findConversation w (req_params_id req)) as [c |] eqn:Hconv; simpl in Hrun.
  - unfold conversationParticipant_create in Hrun.
    assert (Hex : existsb (fun c0 => String.eqb (conversation_id c0) (conversation_id c))
                    (conversations w1) = true).
    { apply existsb_exists. exists c. split.
      - apply find_some in Hconv. apply Hconv.
      - apply String.eqb_refl. }
    rewrite Hex in Hrun. simpl in Hrun. injection Hrun as <- _.
    split; [reflexivity |].
    unfold findConversation. simpl. unfold updateRows.
    rewrite find_map_kept.
    + fold (findConversation w (req_params_id req)). rewrite Hconv. simpl.
      rewrite String.eqb_refl. reflexivity.
    + intros r. destruct (String.eqb (conversation_id r) (conversation_id c)); reflexivity.
  - injection Hrun as <- _. split; [reflexivity |].
    transitivity (findConversation w (req_params_id req)); [reflexivity | exact Hconv].
Qed.

(** The carpenter of the seed accepts the unassigned booking of the seed for
    his base price. *)
Lemma post_accept_effects_witness :
  exists worker b service,
    findWorkerByUserId Seed.world "user-worker-4" = Some worker
    /\ findBooking Seed.world "booking-4" = Some b
    /\ In service (workerServices Seed.world)
    /\ service_workerId service = worker_id worker
    /\ Some "worker-4" = Some (worker_id worker)
    /\ Some 120%Q = Some (service_basePrice service).
Proof.
  destruct (post_accept_effects (Seed.post (Seed.asWorker "4") Seed.wardrobe) Seed.world
              (fst (run (post_accept (Seed.post (Seed.asWorker "4") Seed.wardrobe))
                      Seed.world))
              (applyUpdate (acceptData (Seed.worker "4" VERIFIED) (Seed.service "4" "4" 120))
                 Seed.wardrobe) eq_refl)
    as (worker & b & service & H1 & H2 & H3 & H4 & _ & _ & _ & _ & H9 & H10 & _).
  exists worker, b, service. repeat split; assumption.
Defined.

(** X7: A user with the role WORKER whose worker profile is verified and has an
    active service of the category of a PENDING booking always succeeds in
    accepting it. *)
Theorem post_accept_succeeds (req : Request unit) (w : World) (b : Booking) :
  user_role (req_user req) = WORKER ->
  findBooking w (req_params_id req) = Some b ->
  booking_status b = PENDING ->
  claimant w (req_user req) (booking_categoryId b) ->
  exists w' b',
    run (post_accept req) w = (w', Ok b')
    /\ findBooking w' (req_params_id req) = Some b'
    /\ booking_status b' = ACCEPTED.
Proof.
  intros Hrole Hfind Hpending (worker & service & Hworker & Hverified & Hin & Hwid & Hcat
                               & Hactive).
  destruct (run (post_accept req) w) as [w' r] eqn:Hrun.
  assert (Hok : isOk r = true).
  { unfold post_accept, authorize in Hrun. simpl in Hrun.
    rewrite Hrole in Hrun. simpl in Hrun.
    rewrite Hworker in Hrun. simpl in Hrun. rewrite Hverified in Hrun. simpl in Hrun.
    rewrite Hfind in Hrun. simpl in Hrun. rewrite Hpending in Hrun. simpl in Hrun.
    destruct (find_found
                (fun s => String.eqb (service_workerId s) (worker_id worker)
                          && String.eqb (service_categoryId s) (booking_categoryId b)
                          && service_isActive s)
                (workerServices w) service Hin) as (service' & Hservice).
    { rewrite Hwid, Hcat, Hactive, !String.eqb_refl. reflexivity. }
    rewrite Hservice in Hrun. simpl in Hrun.
    unfold booking_update in Hrun.
    rewrite (findBooking_id _ _ _ Hfind), Hfind in Hrun.
    rewrite run_bind in Hrun. simpl in Hrun.
    set (w1 := withBookings _ w) in Hrun.
    destruct (findConversation w1 (req_params_id req)) as [c |] eqn:Hconv; simpl in Hrun.
    - destruct (conversationParticipant_create_found w1 _ (user_id (req_user req)) c Hconv)
        as (w2 & Hc & _).
      rewrite Hc in Hrun. simpl in Hrun. injection Hrun as _ <-. reflexivity.
    - injection Hrun as _ <-. reflexivity. }
  apply post_accept_inv in Hrun.
  destruct Hrun as [(e & -> & _) | (k & b0 & s & _ & _ & _ & Hfind' & _ & _ & _ & _ & _
                                    & -> & Hbs & _)].
  { discriminate Hok. }
  rewrite Hfind in Hfind'. injection Hfind' as <-.
  exists w', (applyUpdate (acceptData k s) b).
  split; [reflexivity |]. split; [| reflexivity].
  rewrite (findBooking_rewritten w w' (booking_id b) _ _ Hbs).
  rewrite (findBooking_id _ _ _ Hfind), String.eqb_refl, Hfind. reflexivity.
Qed.

(** The carpenter of the seed accepts the unassigned booking of the seed. *)
Lemma post_accept_succeeds_witness :
  exists w' b',
    run (post_accept (Seed.post (Seed.asWorker "4") Seed.wardrobe)) Seed.world = (w', Ok b')
    /\ findBooking w' (booking_id Seed.wardrobe) = Some b'
    /\ booking_status b' = ACCEPTED.
Proof.
  refine (post_accept_succeeds (Seed.post (Seed.asWorker "4") Seed.wardrobe) Seed.world
            Seed.wardrobe eq_refl eq_refl eq_refl _).
  exists (Seed.worker "4" VERIFIED), (Seed.service "4" "4" 120).
  repeat split. simpl. tauto.
Defined.

(** ** More on creating a booking *)

Section MoreCreation.

Variable strLength : string -> nat.
Variable isoDatetime : string -> option Z.

(** X8: The creation of a booking refuses an unknown category with NOT_FOUND
    (404), and a requested worker who has no active service of the category
    as a verified worker with INVALID_WORKER (400); nothing is written. *)
Theorem post_booking_rejects (req : Request CreateBody) (w : World) (data : CreateData) :
  createBookingSchema strLength isoDatetime (req_body req) = inr data ->
  (categories w !! create_categoryId data = None ->
   run (post_booking strLength isoDatetime req) w
   = (w, Err (AppError 404 "Service category not found" "NOT_FOUND")))
  /\ (forall workerId,
        create_workerId data = Some workerId -> workerId <> "" ->
        categories w !! create_categoryId data <> None ->
        (forall s, In s (workerServices w) ->
                   offeredBy w (Some workerId) (create_categoryId data) s = false) ->
        run (post_booking strLength isoDatetime req) w
        = (w, Err (AppError 400 "Worker does not offer this service" "INVALID_WORKER"))).
Proof.
  intros Hparse. split.
  - intros Hcat. unfold post_booking. rewrite Hparse. simpl. rewrite Hcat. reflexivity.
  - intros workerId Hworker Hne Hcat Hnone.
    unfold post_booking. rewrite Hparse. simpl.
    destruct (categories w !! create_categoryId data) as [name |]; [| contradiction].
    simpl. rewrite run_bind, Hworker. simpl.
    assert (Htruthy : truthyStr workerId = true).
    { unfold truthyStr. destruct (String.eqb_spec workerId ""); [contradiction | reflexivity]. }
    rewrite Htruthy. simpl.
    destruct (find _ (workerServices w)) as [s |] eqn:Hfind; [| reflexivity].
    apply find_some in Hfind. destruct Hfind as [Hin Hs].
    specialize (Hnone s Hin). unfold offeredBy in Hnone.
    rewrite Hnone in Hs. discriminate Hs.
Qed.

Lemma offeredBy_worker (w : World) (workerId categoryId : string) (s : WorkerService) :
  offeredBy w (Some workerId) categoryId s = true ->
  exists k,
    findWorkerById w workerId = Some k
    /\ worker_verificationStatus k = VERIFIED
    /\ service_workerId s = workerId
    /\ service_categoryId s = categoryId
    /\ service_isActive s = true.
Proof.
  unfold offeredBy. intros H.
  apply andb_prop in H. destruct H as [H Hactive].
  apply andb_prop in H. destruct H as [H Hcat].
  destruct (findWorkerById w (service_workerId s)) as [k |] eqn:Hk; [| discriminate H].
  apply andb_prop in H. destruct H as [Hid Hv].
  apply bool_decide_eq_true in Hid. apply bool_decide_eq_true in Hv.
  injection Hid as Hid.
  pose proof (find_key worker_id _ _ _ Hk) as Hkey.
  assert (Hs : service_workerId s = workerId) by congruence.
  exists k. rewrite <- Hs. apply String.eqb_eq in Hcat. repeat split; assumption.
Qed.

(** The columns of a booking that has been created, and what was written
    with it. *)
Lemma post_booking_written (req : Request CreateBody) (w w' : World) (b : Booking) :
  run (post_booking strLength isoDatetime req) w = (w', Ok b) ->
  exists data,
    createBookingSchema strLength isoDatetime (req_body req) = inr data
    /\ booking_id b = cuid w (idgen w)
    /\ booking_customerId b = user_id (req_user req)
    /\ booking_categoryId b = create_categoryId data
    /\ booking_description b = create_description data
    /\ booking_latitude b = create_latitude data
    /\ booking_longitude b = create_longitude data
    /\ booking_address b = create_address data
    /\ booking_createdAt b = clock w
    /\ booking_finalPrice b = None
    /\ booking_startedAt b = None
    /\ booking_completedAt b = None
    /\ booking_scheduledAt b =
         (if truthyOpt truthyStr (create_scheduledAt data)
          then create_scheduledAt data ≫= isoDatetime else None)
    /\ if truthyOpt truthyStr (create_workerId data)
       then exists k s name,
           workerOf w b = Some k
           /\ In s (workerServices w)
           /\ offeredBy w (create_workerId data) (create_categoryId data) s = true
           /\ booking_estimatedPrice b = Some (service_basePrice s)
           /\ categories w !! create_categoryId data = Some name
           /\ notifications w' = (notifications w ++ [requestNotification k b name])%list
           /\ conversation_participants <$> findConversation w' (booking_id b)
              = Some [user_id (req_user req); worker_userId k]
       else booking_estimatedPrice b = None
            /\ notifications w' = notifications w
            /\ emitted w' = emitted w
            /\ conversation_participants <$> findConversation w' (booking_id b)
               = Some [user_id (req_user req)].
Proof.
  unfold post_booking.
  destruct (createBookingSchema strLength isoDatetime (req_body req)) as [e | data] eqn:Hparse;
    simpl; [discriminate |].
  destruct (categories w !! create_categoryId data) as [name |] eqn:Hcat; simpl;
    [| discriminate].
  rewrite run_bind.
  intros Hrun. exists data. split; [reflexivity |].
  assert (Hconv : forall (w0 : World) (c : Conversation) k,
             findConversation w0 k = None -> conversation_bookingId c = k ->
             find (fun c0 => String.eqb (conversation_bookingId c0) k)
               (conversations w0 ++ [c]) = Some c).
  { intros w0 c k Hnone Hk. rewrite find_app_new.
    fold (findConversation w0 k). rewrite Hnone, Hk, String.eqb_refl. reflexivity. }
  destruct (truthyOpt truthyStr (create_workerId data)) eqn:Htruthy; simpl in Hrun.
  - destruct (find _ (workerServices w)) as [s |] eqn:Hs; simpl in Hrun; [| discriminate Hrun].
    unfold booking_create in Hrun. simpl in Hrun.
    destruct (findBooking w (cuid w (idgen w))); [discriminate Hrun |].
    destruct (create_workerId data) as [wid |] eqn:Hwid; [| discriminate Htruthy].
    match type of Hrun with
    | context [workerOf w ?b0] => destruct (workerOf w b0) as [k |] eqn:Hk
    end; [| discriminate Hrun].
    simpl in Hrun. rewrite ?run_bind in Hrun. simpl in Hrun.
    simpl in Htruthy. rewrite ?Htruthy in Hrun. simpl in Hrun.
    unfold conversation_create in Hrun.
    match type of Hrun with
    | context [findConversation ?w0 ?k0] =>
        destruct (findConversation w0 k0) eqn:Hc; simpl in Hrun; [discriminate Hrun |];
        pose proof (Hconv w0) as Hconv'
    end.
    rewrite ?Htruthy in Hrun. simpl in Hrun.
    injection Hrun as <- <-. simpl. rewrite Hcat. simpl.
    repeat (split; [reflexivity |]).
    exists k, s, name.
    apply find_some in Hs. destruct Hs as [Hin Hs].
    split; [exact Hk |]. split; [exact Hin |]. split; [exact Hs |].
    repeat (split; [reflexivity |]).
    unfold findConversation. simpl.
    erewrite Hconv'; [reflexivity | exact Hc | reflexivity].
  - revert Hrun. unfold booking_create, workerOf. simpl.
    destruct (findBooking w (cuid w (idgen w))); [discriminate |].
    destruct (create_workerId data) as [wid |] eqn:Hwid; simpl.
    + destruct (findWorkerById w wid) as [k |] eqn:Hk; [| discriminate].
      simpl. rewrite ?run_bind. simpl. simpl in Htruthy. rewrite ?Htruthy. simpl.
      unfold conversation_create.
      match goal with
      | |- context [findConversation ?w0 ?k0] =>
          destruct (findConversation w0 k0) eqn:Hc; simpl; [discriminate |];
          pose proof (Hconv w0) as Hconv'
      end.
      rewrite ?Htruthy. simpl.
      intros [= <- <-]. simpl.
      repeat (split; [reflexivity |]).
      unfold findConversation. simpl.
      erewrite Hconv'; [reflexivity | exact Hc | reflexivity].
    + rewrite ?run_bind. simpl.
      unfold conversation_create.
      match goal with
      | |- context [findConversation ?w0 ?k0] =>
          destruct (findConversation w0 k0) eqn:Hc; simpl; [discriminate |];
          pose proof (Hconv w0) as Hconv'
      end.
      intros [= <- <-]. simpl.
      repeat (split; [reflexivity |]).
      unfold findConversation. simpl.
      erewrite Hconv'; [reflexivity | exact Hc | reflexivity].
Qed.

(** X9: What a successful creation writes.  The booking has the id and the time
    the database gives it, the customer, category, description, place and
    schedule of the request, and no final price or times yet.  When the
    request names a worker, the estimated price is the base price of a
    service that worker offers, the worker is notified and is in the
    conversation with the customer; otherwise there is no estimated price,
    nobody is notified and the customer is alone in the conversation. *)
Theorem post_booking_creates (req : Request CreateBody) (w w' : World) (b : Booking) :
  run (post_booking strLength isoDatetime req) w = (w', Ok b) ->
  exists data,
    createBookingSchema strLength isoDatetime (req_body req) = inr data
    /\ booking_id b = cuid w (idgen w)
    /\ booking_customerId b = user_id (req_user req)
    /\ booking_categoryId b = create_categoryId data
    /\ booking_description b = create_description data
    /\ booking_latitude b = create_latitude data
    /\ booking_longitude b = create_longitude data
    /\ booking_address b = create_address data
    /\ booking_createdAt b = clock w
    /\ booking_finalPrice b = None
    /\ booking_startedAt b = None
    /\ booking_completedAt b = None
    /\ booking_scheduledAt b =
         (if truthyOpt truthyStr (create_scheduledAt data)
          then create_scheduledAt data ≫= isoDatetime else None)
    /\ if truthyOpt truthyStr (create_workerId data)
       then exists k s name,
           workerOf w b = Some k
           /\ In s (workerServices w)
           /\ offeredBy w (create_workerId data) (create_categoryId data) s = true
           /\ booking_estimatedPrice b = Some (service_basePrice s)
           /\ categories w !! create_categoryId data = Some name
           /\ notifications w' = (notifications w ++ [requestNotification k b name])%list
           /\ conversation_participants <$> findConversation w' (booking_id b)
              = Some [user_id (req_user req); worker_userId k]
       else booking_estimatedPrice b = None
            /\ notifications w' = notifications w
            /\ emitted w' = emitted w
            /\ conversation_participants <$> findConversation w' (booking_id b)
               = Some [user_id (req_user req)].
Proof. exact (post_booking_written req w w' b). Qed.

(** X10: The creation of a booking succeeds whenever the request passes the
    schema, the category exists, the worker it may name (not by an empty
    id) offers the category as a verified worker, and the id the database
    generates is the id of no booking and of no booking with a
    conversation. *)
Theorem post_booking_succeeds (req : Request CreateBody) (w : World) (data : CreateData) :
  createBookingSchema strLength isoDatetime (req_body req) = inr data ->
  categories w !! create_categoryId data <> None ->
  create_workerId data <> Some "" ->
  (forall workerId,
      create_workerId data = Some workerId ->
      exists s, In s (workerServices w)
                /\ offeredBy w (Some workerId) (create_categoryId data) s = true) ->
  findBooking w (cuid w (idgen w)) = None ->
  findConversation w (cuid w (idgen w)) = None ->
  exists w' b,
    run (post_booking strLength isoDatetime req) w = (w', Ok b)
    /\ findBooking w' (booking_id b) = Some b
    /\ booking_status b = PENDING.
Proof.
  intros Hparse Hcat Hnonempty Hoffer Hfresh Hnoconv.
  destruct (run (post_booking strLength isoDatetime req) w) as [w' r] eqn:Hrun.
  assert (Hok : isOk r = true).
  { unfold post_booking in Hrun. rewrite Hparse in Hrun. simpl in Hrun.
    destruct (categories w !! create_categoryId data) as [name |]; [| contradiction].
    simpl in Hrun. rewrite run_bind in Hrun.
    unfold booking_create, workerOf in Hrun.
    destruct (create_workerId data) as [wid |] eqn:Hwid.
    - assert (Htruthy : truthyStr wid = true).
      { unfold truthyStr. destruct (String.eqb_spec wid ""); [congruence | reflexivity]. }
      simpl in Hrun. rewrite Htruthy in Hrun. simpl in Hrun.
      destruct (Hoffer wid eq_refl) as (s & Hin & Hs).
      destruct (find_found (offeredBy w (Some wid) (create_categoryId data))
                  (workerServices w) s Hin Hs) as (s' & Hfind).
      unfold offeredBy in Hfind. rewrite Hfind in Hrun. simpl in Hrun.
      rewrite Hfresh in Hrun.
      destruct (offeredBy_worker w wid _ s Hs) as (k & Hk & _).
      rewrite Hk in Hrun. simpl in Hrun.
      rewrite ?run_bind in Hrun. simpl in Hrun.
      rewrite ?Htruthy in Hrun. simpl in Hrun.
      unfold conversation_create in Hrun.
      change (findConversation (withIdgen ?n (withBookings ?l w)) ?k0)
        with (findConversation w k0) in Hrun.
      rewrite Hnoconv in Hrun. simpl in Hrun. rewrite ?Htruthy in Hrun. simpl in Hrun.
      injection Hrun as _ <-. reflexivity.
    - simpl in Hrun. rewrite Hfresh in Hrun. simpl in Hrun.
      rewrite ?run_bind in Hrun. simpl in Hrun.
      unfold conversation_create in Hrun.
      change (findConversation (withIdgen ?n (withBookings ?l w)) ?k0)
        with (findConversation w k0) in Hrun.
      rewrite Hnoconv in Hrun. simpl in Hrun.
      injection Hrun as _ <-. reflexivity. }
  apply post_booking_inv in Hrun.
  destruct Hrun as [_ [[_ Hr] | (data' & b0 & _ & Hfresh' & Hbs & Hstatus & _ & _ & _ & Hresp)]].
  { rewrite Hr in Hok. discriminate Hok. }
  destruct r as [b |]; [| discriminate Hok].
  rewrite (Hresp b eq_refl).
  exists w', b0. split; [reflexivity |]. split; [| exact Hstatus].
  unfold findBooking in *. rewrite Hbs, find_app_new, Hfresh', String.eqb_refl. reflexivity.
Qed.

End MoreCreation.

(** A customer asks the seeded database for a category it does not have. *)
Lemma post_booking_rejects_witness :
  run (post_booking String.length Seed.noDatetime
         {| req_user := Seed.asCustomer "2"; req_params_id := "";
            req_body :=
              {| createBody_categoryId := Some (JStr "category-9");
                 createBody_workerId := None;
                 createBody_description := Some (JStr "Bookshelf needs new hinges");
                 createBody_latitude := Some (JNum 5.6145);
                 createBody_longitude := Some (JNum (-0.2053));
                 createBody_address := Some (JStr "Cantonments, Accra");
                 createBody_scheduledAt := None |} |}) Seed.world
  = (Seed.world, Err (AppError 404 "Service category not found" "NOT_FOUND")).
Proof.
  refine (proj1 (post_booking_rejects String.length Seed.noDatetime _ Seed.world
                   {| create_categoryId := "category-9"; create_workerId := None;
                      create_description := "Bookshelf needs new hinges";
                      create_latitude := 5.6145; create_longitude := -0.2053;
                      create_address := "Cantonments, Accra";
                      create_scheduledAt := None |} _) _).
  - reflexivity.
  - reflexivity.
Defined.

(** A customer asks for the carpenter of the seed by name. *)
Lemma post_booking_succeeds_witness :
  exists w' b,
    run (post_booking String.length Seed.noDatetime Seed.shelfRequest) Seed.world = (w', Ok b)
    /\ findBooking w' (booking_id b) = Some b
    /\ booking_status b = PENDING.
Proof.
  refine (post_booking_succeeds String.length Seed.noDatetime Seed.shelfRequest Seed.world
            {| create_categoryId := "category-4"; create_workerId := Some "worker-4";
               create_description := "Bookshelf needs new hinges";
               create_latitude := 5.6145; create_longitude := -0.2053;
               create_address := "Cantonments, Accra"; create_scheduledAt := None |}
            eq_refl _ _ _ eq_refl eq_refl).
  - discriminate.
  - discriminate.
  - intros workerId [= <-]. exists (Seed.service "4" "4" 120).
    split; [simpl; tauto | reflexivity].
Defined.

(** The booking that request creates has the base price of the carpenter as
    estimated price, and the carpenter is notified and in the
    conversation. *)
Lemma post_booking_creates_witness :
  booking_id Seed.shelf = "cuid-0"
  /\ booking_customerId Seed.shelf = "customer-2"
  /\ booking_createdAt Seed.shelf = 1000%Z.
Proof.
  destruct (post_booking_creates String.length Seed.noDatetime Seed.shelfRequest Seed.world
              (fst (run (post_booking String.length Seed.noDatetime Seed.shelfRequest)
                      Seed.world))
              Seed.shelf eq_refl)
    as (data & _ & H1 & H2 & _ & _ & _ & _ & _ & H3 & _).
  repeat split; assumption.
Defined.

(** ** What the creation of a booking validates *)

Section Validation.

Variable strLength : string -> nat.
Variable isoDatetime : string -> option Z.

Lemma zStringBetween_inv (lo hi : nat) (v : option JValue) (s : string) :
  zStringBetween strLength lo hi v = Some s ->
  v = Some (JStr s) /\ (lo <= strLength s <= hi)%nat.
Proof.
  unfold zStringBetween. destruct v as [[] |]; try discriminate.
  destruct (_ && _) eqn:Hb; [| discriminate].
  intros [= <-]. apply andb_prop in Hb as [H1%Nat.leb_le H2%Nat.leb_le].
  split; [reflexivity | split; assumption].
Qed.

Lemma zNumberBetween_inv (lo hi : Q) (v : option JValue) (q : Q) :
  zNumberBetween lo hi v = Some q ->
  v = Some (JNum q) /\ (lo <= q)%Q /\ (q <= hi)%Q.
Proof.
  unfold zNumberBetween. destruct v as [[] |]; try discriminate.
  destruct (_ && _) eqn:Hb; [| discriminate].
  intros [= <-]. apply andb_prop in Hb as [H1%Qle_bool_iff H2%Qle_bool_iff].
  split; [reflexivity | split; assumption].
Qed.

(** X11: Every booking that the endpoint creates is within the bounds of the
    schema: a description of 10 to 1000 code units and an address of 5 to
    500, as the request gave them, a latitude between -90 and 90 and a
    longitude between -180 and 180. *)
Theorem post_booking_bounds (req : Request CreateBody) (w w' : World) (b : Booking) :
  run (post_booking strLength isoDatetime req) w = (w', Ok b) ->
  createBody_description (req_body req) = Some (JStr (booking_description b))
  /\ (10 <= strLength (booking_description b) <= 1000)%nat
  /\ createBody_address (req_body req) = Some (JStr (booking_address b))
  /\ (5 <= strLength (booking_address b) <= 500)%nat
  /\ createBody_latitude (req_body req) = Some (JNum (booking_latitude b))
  /\ (-90 <= booking_latitude b)%Q /\ (booking_latitude b <= 90)%Q
  /\ createBody_longitude (req_body req) = Some (JNum (booking_longitude b))
  /\ (-180 <= booking_longitude b)%Q /\ (booking_longitude b <= 180)%Q.
Proof.
  intros Hrun.
  destruct (post_booking_written strLength isoDatetime req w w' b Hrun)
    as (data & Hparse & _ & _ & _ & -> & -> & -> & -> & _).
  unfold createBookingSchema in Hparse.
  destruct (zString _), (zStringOptional _),
    (zStringBetween _ 10 _ _) eqn:Hd,
    (zNumberBetween (-90) _ _) eqn:Hla, (zNumberBetween (-180) _ _) eqn:Hlo,
    (zStringBetween _ 5 _ _) eqn:Ha,
    (zDatetimeOptional _ _); try discriminate Hparse.
  injection Hparse as <-. simpl.
  apply zStringBetween_inv in Hd as (-> & Hd).
  apply zStringBetween_inv in Ha as (-> & Ha).
  apply zNumberBetween_inv in Hla as (-> & Hla1 & Hla2).
  apply zNumberBetween_inv in Hlo as (-> & Hlo1 & Hlo2).
  repeat split; try assumption; try apply Hd; try apply Ha.
Qed.

(** X12: A body that the schema refuses is answered with a validation error
    (400) that names at least one field, before anything is read or
    written. *)
Theorem post_booking_invalid (req : Request CreateBody) (w : World) (e : Error) :
  createBookingSchema strLength isoDatetime (req_body req) = inl e ->
  run (post_booking strLength isoDatetime req) w = (w, Err e)
  /\ (exists field fields, e = ZodError (field :: fields))
  /\ response_status (errorHandler e) = 400%nat
  /\ response_code (errorHandler e) = "VALIDATION_ERROR".
Proof.
  intros Hparse. unfold post_booking. rewrite Hparse.
  split; [reflexivity |].
  unfold createBookingSchema in Hparse.
  destruct (zString _), (zStringOptional _), (zStringBetween _ 10 _ _),
    (zNumberBetween (-90) _ _), (zNumberBetween (-180) _ _), (zStringBetween _ 5 _ _),
    (zDatetimeOptional _ _); try discriminate Hparse;
    injection Hparse as <-; (split; [simpl; eauto | split; reflexivity]).
Qed.

End Validation.

(** The booking of the bookshelf. *)
Lemma post_booking_bounds_witness :
  (10 <= String.length (booking_description Seed.shelf) <= 1000)%nat
  /\ (-90 <= booking_latitude Seed.shelf)%Q /\ (booking_latitude Seed.shelf <= 90)%Q.
Proof.
  destruct (post_booking_bounds String.length Seed.noDatetime Seed.shelfRequest Seed.world
              (fst (run (post_booking String.length Seed.noDatetime Seed.shelfRequest)
                      Seed.world))
              Seed.shelf eq_refl)
    as (_ & Hd & _ & _ & _ & Hla1 & Hla2 & _).
  split; [exact Hd |]. split; assumption.
Defined.

(** A description of nine characters. *)
Lemma post_booking_invalid_witness :
  run (post_booking String.length Seed.noDatetime
         {| req_user := Seed.asCustomer "2"; req_params_id := "";
            req_body :=
              {| createBody_categoryId := Some (JStr "category-4");
                 createBody_workerId := None;
                 createBody_description := Some (JStr "Too short");
                 createBody_latitude := Some (JNum 5.6145);
                 createBody_longitude := Some (JNum (-0.2053));
                 createBody_address := Some (JStr "Cantonments, Accra");
                 createBody_scheduledAt := None |} |}) Seed.world
  = (Seed.world, Err (ZodError ["description"])).
Proof.
  exact (proj1 (post_booking_invalid String.length Seed.noDatetime
                  {| req_user := Seed.asCustomer "2"; req_params_id := "";
                     req_body :=
                       {| createBody_categoryId := Some (JStr "category-4");
                          createBody_workerId := None;
                          createBody_description := Some (JStr "Too short");
                          createBody_latitude := Some (JNum 5.6145);
                          createBody_longitude := Some (JNum (-0.2053));
                          createBody_address := Some (JStr "Cantonments, Accra");
                          createBody_scheduledAt := None |} |}
                  Seed.world (ZodError ["description"]) eq_refl)).
Defined.

(** ** More on initiating a payment *)

Section MorePayments.

Variable numberToString : Q -> string.

(** The request of the customer of a COMPLETED, unpaid booking with a
    price: what it writes and what it answers. *)
Lemma post_initiate_written (req : Request InitiateBody) (w : World)
    (data : InitiateData) (b : Booking) (amount : Q) :
  initiatePaymentSchema (req_body req) = inr data ->
  findBooking w (initiate_bookingId data) = Some b ->
  booking_customerId b = user_id (req_user req) ->
  booking_status b = COMPLETED ->
  payment_status <$> findPayment w (booking_id b) <> Some PAYMENT_COMPLETED ->
  orNum (booking_finalPrice b) (booking_estimatedPrice b) = Some amount ->
  truthyNum amount = true ->
  exists w' p,
    run (post_initiate numberToString req) w
    = (w', match initiate_method data with
           | CASH => Ok (p, "Cash payment recorded")
           | _ => if truthyOpt truthyStr (initiate_phone data)
                  then Ok (p, "Payment initiated. Please confirm on your phone.")
                  else Err (AppError 400 "Phone number required for mobile money"
                              "PHONE_REQUIRED")
           end)
    /\ bookings w' = bookings w
    /\ findPayment w' (booking_id b) = Some p
    /\ payment_bookingId p = booking_id b
    /\ payment_amount p = match findPayment w (booking_id b) with
                          | Some p0 => payment_amount p0
                          | None => amount
                          end
    /\ payment_method p = initiate_method data
    /\ payment_status p = (if bool_decide (initiate_method data = CASH)
                           then PAYMENT_COMPLETED else PAYMENT_PROCESSING)
    /\ payment_paidAt p = (if bool_decide (initiate_method data = CASH)
                           then Some (clock w) else None).
Proof.
  intros Hparse Hfind Hmine Hcompleted Hunpaid Hamount Htruthy.
  unfold post_initiate. rewrite Hparse. simpl. rewrite Hfind. simpl.
  rewrite Hmine, String.eqb_refl, Hcompleted. simpl.
  rewrite (bool_decide_eq_false_2 _ Hunpaid). simpl.
  rewrite Hamount, Htruthy. simpl.
  rewrite run_bind.
  set (cash := bool_decide (initiate_method data = CASH)).
  assert (Hpaid_at : run (if cash then Sync newDate (fun now => Done (Some now))
                          else Done None) w
                     = (w, Ok (if cash then Some (clock w) else None))).
  { destruct cash; reflexivity. }
  rewrite Hpaid_at. simpl. unfold payment_upsert.
  destruct (findPayment w (booking_id b)) as [p0 |] eqn:Hp0.
  - set (w1 := withPayments _ w).
    set (p := Build_Payment _ _ _ _ _ _ _).
    assert (Hp : findPayment w1 (booking_id b) = Some p).
    { unfold findPayment, w1. simpl. rewrite findPayment_upserted; [| reflexivity].
      rewrite Hp0. reflexivity. }
    assert (Hk : payment_bookingId p = booking_id b).
    { apply (find_key payment_bookingId _ _ _ Hp0). }
    destruct (initiate_method data) eqn:Hmethod; simpl.
    3: { rewrite run_bind.
         destruct (initiate_notifyWorker_run numberToString b amount w1)
           as (w2 & -> & Hb2 & Hp2).
         simpl. exists w2, p. unfold findPayment in *. rewrite Hp2.
         repeat split; try assumption; try reflexivity. }
    all: exists w1, p; destruct (truthyOpt truthyStr (initiate_phone data)); simpl;
      repeat split; try assumption; try reflexivity.
  - set (w1 := withIdgen _ _).
    set (p := Build_Payment _ _ _ _ _ _ _).
    assert (Hp : findPayment w1 (booking_id b) = Some p).
    { unfold findPayment, w1. simpl. rewrite find_app_new.
      fold (findPayment w (booking_id b)). rewrite Hp0. simpl.
      rewrite String.eqb_refl. reflexivity. }
    destruct (initiate_method data) eqn:Hmethod; simpl.
    3: { rewrite run_bind.
         destruct (initiate_notifyWorker_run numberToString b amount w1)
           as (w2 & -> & Hb2 & Hp2).
         simpl. exists w2, p. unfold findPayment in *. rewrite Hp2.
         repeat split; try assumption; try reflexivity. }
    all: exists w1, p; destruct (truthyOpt truthyStr (initiate_phone data)); simpl;
      repeat split; try assumption; try reflexivity.
Qed.

(** X13: The amount of a payment is fixed when the payment is first recorded:
    the final price of the booking when it has one that is not zero, the
    estimated price otherwise.  A later initiation for the same booking
    rewrites method, status and date of the payment and keeps the amount it
    had. *)
Theorem post_initiate_amount (req : Request InitiateBody) (w : World)
    (data : InitiateData) (b : Booking) (amount : Q) :
  initiatePaymentSchema (req_body req) = inr data ->
  findBooking w (initiate_bookingId data) = Some b ->
  booking_customerId b = user_id (req_user req) ->
  booking_status b = COMPLETED ->
  payment_status <$> findPayment w (booking_id b) <> Some PAYMENT_COMPLETED ->
  orNum (booking_finalPrice b) (booking_estimatedPrice b) = Some amount ->
  truthyNum amount = true ->
  exists p,
    findPayment (fst (run (post_initiate numberToString req) w)) (booking_id b) = Some p
    /\ payment_amount p = match findPayment w (booking_id b) with
                          | Some p0 => payment_amount p0
                          | None => amount
                          end
    /\ Some amount = (if truthyOpt truthyNum (booking_finalPrice b)
                      then booking_finalPrice b else booking_estimatedPrice b).
Proof.
  intros Hparse Hfind Hmine Hcompleted Hunpaid Hamount Htruthy.
  destruct (post_initiate_written req w data b amount Hparse Hfind Hmine Hcompleted
              Hunpaid Hamount Htruthy) as (w' & p & Hrun & _ & Hp & _ & Ha & _).
  exists p. rewrite Hrun. simpl. split; [exact Hp |]. split; [exact Ha |].
  rewrite <- Hamount. reflexivity.
Qed.

(** X14: A mobile-money initiation without a phone number is refused with
    PHONE_REQUIRED (400) only after the payment has been written: the
    booking is left with a PROCESSING payment of the requested method, and a
    payment it had before is overwritten. *)
Theorem post_initiate_phone_required (req : Request InitiateBody) (w : World)
    (data : InitiateData) (b : Booking) (amount : Q) :
  initiatePaymentSchema (req_body req) = inr data ->
  findBooking w (initiate_bookingId data) = Some b ->
  booking_customerId b = user_id (req_user req) ->
  booking_status b = COMPLETED ->
  payment_status <$> findPayment w (booking_id b) <> Some PAYMENT_COMPLETED ->
  orNum (booking_finalPrice b) (booking_estimatedPrice b) = Some amount ->
  truthyNum amount = true ->
  initiate_method data <> CASH ->
  truthyOpt truthyStr (initiate_phone data) = false ->
  exists w' p,
    run (post_initiate numberToString req) w
    = (w', Err (AppError 400 "Phone number required for mobile money" "PHONE_REQUIRED"))
    /\ findPayment w' (booking_id b) = Some p
    /\ payment_method p = initiate_method data
    /\ payment_status p = PAYMENT_PROCESSING
    /\ payment_paidAt p = None.
Proof.
  intros Hparse Hfind Hmine Hcompleted Hunpaid Hamount Htruthy Hmobile Hphone.
  destruct (post_initiate_written req w data b amount Hparse Hfind Hmine Hcompleted
              Hunpaid Hamount Htruthy) as (w' & p & Hrun & _ & Hp & _ & _ & Hm & Hs & Ht).
  exists w', p. rewrite Hrun, Hphone, Hs, Ht.
  rewrite (bool_decide_eq_false_2 _ Hmobile).
  destruct (initiate_method data); try contradiction; repeat split; assumption.
Qed.

(** X15: The customer of a COMPLETED booking with a price and no COMPLETED
    payment can always pay: in cash, or by mobile money with a phone
    number.  The response carries the payment of the booking. *)
Theorem post_initiate_succeeds (req : Request InitiateBody) (w : World)
    (data : InitiateData) (b : Booking) (amount : Q) :
  initiatePaymentSchema (req_body req) = inr data ->
  findBooking w (initiate_bookingId data) = Some b ->
  booking_customerId b = user_id (req_user req) ->
  booking_status b = COMPLETED ->
  payment_status <$> findPayment w (booking_id b) <> Some PAYMENT_COMPLETED ->
  orNum (booking_finalPrice b) (booking_estimatedPrice b) = Some amount ->
  truthyNum amount = true ->
  initiate_method data = CASH \/ truthyOpt truthyStr (initiate_phone data) = true ->
  exists w' p message,
    run (post_initiate numberToString req) w = (w', Ok (p, message))
    /\ findPayment w' (booking_id b) = Some p
    /\ payment_method p = initiate_method data.
Proof.
  intros Hparse Hfind Hmine Hcompleted Hunpaid Hamount Htruthy Hway.
  destruct (post_initiate_written req w data b amount Hparse Hfind Hmine Hcompleted
              Hunpaid Hamount Htruthy) as (w' & p & Hrun & _ & Hp & _ & _ & Hm & _).
  exists w', p. rewrite Hrun.
  destruct Hway as [Hcash | Hphone].
  - rewrite Hcash. eexists. repeat split; try assumption. congruence.
  - rewrite Hphone. destruct (initiate_method data); eexists; repeat split; assumption.
Qed.

(** X16: Once a cash payment has been recorded, a further initiation of the
    customer for that booking is refused with ALREADY_PAID (400) and nothing
    is written. *)
Theorem post_initiate_once (first second : Request InitiateBody) (w w1 : World)
    (p : Payment) (message : string) (data : InitiateData) :
  run (post_initiate numberToString first) w = (w1, Ok (p, message)) ->
  payment_method p = CASH ->
  initiatePaymentSchema (req_body second) = inr data ->
  initiate_bookingId data = payment_bookingId p ->
  user_id (req_user second) = user_id (req_user first) ->
  run (post_initiate numberToString second) w1
  = (w1, Err (AppError 400 "Payment already completed" "ALREADY_PAID")).
Proof.
  intros Hfirst Hcash Hparse Hsame Huser.
  apply post_initiate_inv in Hfirst.
  destruct Hfirst as [Hbs [[_ Hr] | (data1 & b & p1 & _ & Hfind & Hmine & Hcompleted & _
                                     & Hp & Hk & Hm & Hs & _ & Hresp)]].
  { discriminate Hr. }
  rewrite <- (Hresp p message eq_refl) in *.
  assert (Hfind1 : findBooking w1 (initiate_bookingId data) = Some b).
  { unfold findBooking. rewrite Hbs. fold (findBooking w (initiate_bookingId data)).
    rewrite Hsame, Hk, (findBooking_self _ _ _ Hfind). reflexivity. }
  unfold post_initiate. rewrite Hparse. simpl. rewrite Hfind1. simpl.
  rewrite Huser, Hmine, String.eqb_refl, Hcompleted. simpl.
  rewrite Hp. simpl. rewrite Hs, <- Hm, Hcash. reflexivity.
Qed.

(** X17: What an initiation that passes the schema does, in the order the
    handler decides it: a booking that does not exist is NOT_FOUND (404), a
    booking of another customer FORBIDDEN (403; the worker and an
    administrator are refused too), a booking that is not COMPLETED
    NOT_COMPLETED, one that is paid ALREADY_PAID, one without a price that
    is not zero NO_PRICE, each with nothing written; in every other case
    the booking has a payment afterwards. *)
Theorem post_initiate_decides (req : Request InitiateBody) (w : World)
    (data : InitiateData) :
  initiatePaymentSchema (req_body req) = inr data ->
  match findBooking w (initiate_bookingId data) with
  | None =>
      run (post_initiate numberToString req) w
      = (w, Err (AppError 404 "Booking not found" "NOT_FOUND"))
  | Some b =>
      if negb (String.eqb (booking_customerId b) (user_id (req_user req)))
      then run (post_initiate numberToString req) w
           = (w, Err (AppError 403 "Not your booking" "FORBIDDEN"))
      else if negb (bool_decide (booking_status b = COMPLETED))
      then run (post_initiate numberToString req) w
           = (w, Err (AppError 400 "Booking is not completed yet" "NOT_COMPLETED"))
      else if bool_decide (payment_status <$> findPayment w (booking_id b)
                           = Some PAYMENT_COMPLETED)
      then run (post_initiate numberToString req) w
           = (w, Err (AppError 400 "Payment already completed" "ALREADY_PAID"))
      else if truthyOpt truthyNum
                (orNum (booking_finalPrice b) (booking_estimatedPrice b))
      then exists p,
             findPayment (fst (run (post_initiate numberToString req) w)) (booking_id b)
             = Some p
             /\ payment_method p = initiate_method data
      else run (post_initiate numberToString req) w
           = (w, Err (AppError 400 "No price set for booking" "NO_PRICE"))
  end.
Proof.
  intros Hparse.
  destruct (findBooking w (initiate_bookingId data)) as [b |] eqn:Hfind.
  2: { unfold post_initiate. rewrite Hparse. simpl. rewrite Hfind. reflexivity. }
  destruct (negb (String.eqb (booking_customerId b) (user_id (req_user req)))) eqn:Hmine.
  { unfold post_initiate. rewrite Hparse. simpl. rewrite Hfind. simpl.
    rewrite Hmine. reflexivity. }
  destruct (negb (bool_decide (booking_status b = COMPLETED))) eqn:Hcompleted.
  { unfold post_initiate. rewrite Hparse. simpl. rewrite Hfind. simpl.
    rewrite Hmine. simpl. rewrite Hcompleted. reflexivity. }
  destruct (bool_decide (payment_status <$> findPayment w (booking_id b)
                         = Some PAYMENT_COMPLETED)) eqn:Hpaid.
  { unfold post_initiate. rewrite Hparse. simpl. rewrite Hfind. simpl.
    rewrite Hmine. simpl. rewrite Hcompleted. simpl. rewrite Hpaid. reflexivity. }
  destruct (orNum (booking_finalPrice b) (booking_estimatedPrice b)) as [amount |]
    eqn:Hamount; simpl.
  2: { unfold post_initiate. rewrite Hparse. simpl. rewrite Hfind. simpl.
       rewrite Hmine. simpl. rewrite Hcompleted. simpl. rewrite Hpaid. simpl.
       rewrite Hamount. reflexivity. }
  destruct (truthyNum amount) eqn:Htruthy.
  2: { unfold post_initiate. rewrite Hparse. simpl. rewrite Hfind. simpl.
       rewrite Hmine. simpl. rewrite Hcompleted. simpl. rewrite Hpaid. simpl.
       rewrite Hamount. simpl. rewrite Htruthy. reflexivity. }
  apply negb_false_iff, String.eqb_eq in Hmine.
  apply negb_false_iff, bool_decide_eq_true_1 in Hcompleted.
  apply bool_decide_eq_false_1 in Hpaid.
  destruct (post_initiate_written req w data b amount Hparse Hfind Hmine Hcompleted
              Hpaid Hamount Htruthy) as (w' & p & Hrun & _ & Hp & _ & _ & Hm & _).
  exists p. rewrite Hrun. split; assumption.
Qed.

End MorePayments.

(** The customer of the phone repair pays 35 in cash. *)
Lemma post_initiate_amount_witness :
  exists p,
    findPayment (fst (run (post_initiate Seed.numerator Seed.payCash) Seed.repaired))
      "booking-2" = Some p
    /\ payment_amount p = 35%Q.
Proof.
  destruct (post_initiate_amount Seed.numerator Seed.payCash Seed.repaired
              {| initiate_bookingId := "booking-2"; initiate_method := CASH;
                 initiate_phone := None |}
              (Seed.booking "2" "2" (Some "2") "2"
                 "iPhone 13 screen cracked, need replacement"
                 5.6145 (-0.2053) "Cantonments, Accra" COMPLETED (Some 30%Q) (Some 35%Q)
                 (Some 500%Z) (Some 1000%Z))
              35%Q eq_refl eq_refl eq_refl eq_refl)
    as (p & Hp & Ha & _).
  - vm_compute. discriminate.
  - reflexivity.
  - reflexivity.
  - exists p. split; [exact Hp | exact Ha].
Defined.

(** The customer of the phone repair asks for MTN mobile money and gives no
    phone number. *)
Lemma post_initiate_phone_required_witness :
  exists w' p,
    run (post_initiate Seed.numerator
           {| req_user := Seed.asCustomer "2"; req_params_id := "";
              req_body := {| initiateBody_bookingId := Some (JStr "booking-2");
                             initiateBody_method := Some (JStr "MTN_MOMO");
                             initiateBody_phone := None |} |}) Seed.repaired
    = (w', Err (AppError 400 "Phone number required for mobile money" "PHONE_REQUIRED"))
    /\ findPayment w' "booking-2" = Some p
    /\ payment_method p = MTN_MOMO
    /\ payment_status p = PAYMENT_PROCESSING
    /\ payment_paidAt p = None.
Proof.
  refine (post_initiate_phone_required Seed.numerator
            {| req_user := Seed.asCustomer "2"; req_params_id := "";
               req_body := {| initiateBody_bookingId := Some (JStr "booking-2");
                              initiateBody_method := Some (JStr "MTN_MOMO");
                              initiateBody_phone := None |} |} Seed.repaired
            {| initiate_bookingId := "booking-2"; initiate_method := MTN_MOMO;
               initiate_phone := None |}
            (Seed.booking "2" "2" (Some "2") "2"
               "iPhone 13 screen cracked, need replacement"
               5.6145 (-0.2053) "Cantonments, Accra" COMPLETED (Some 30%Q) (Some 35%Q)
               (Some 500%Z) (Some 1000%Z))
            35%Q eq_refl eq_refl eq_refl eq_refl _ eq_refl eq_refl _ eq_refl).
  - vm_compute. discriminate.
  - discriminate.
Defined.

Lemma post_initiate_succeeds_witness :
  exists w' p message,
    run (post_initiate Seed.numerator Seed.payCash) Seed.repaired = (w', Ok (p, message))
    /\ findPayment w' "booking-2" = Some p
    /\ payment_method p = CASH.
Proof.
  refine (post_initiate_succeeds Seed.numerator Seed.payCash Seed.repaired
            {| initiate_bookingId := "booking-2"; initiate_method := CASH;
               initiate_phone := None |}
            (Seed.booking "2" "2" (Some "2") "2"
               "iPhone 13 screen cracked, need replacement"
               5.6145 (-0.2053) "Cantonments, Accra" COMPLETED (Some 30%Q) (Some 35%Q)
               (Some 500%Z) (Some 1000%Z))
            35%Q eq_refl eq_refl eq_refl eq_refl _ eq_refl eq_refl (or_introl eq_refl)).
  vm_compute. discriminate.
Defined.

(** The customer of the phone repair pays in cash twice. *)
Lemma post_initiate_once_witness :
  run (post_initiate Seed.numerator Seed.payCash)
    (fst (run (post_initiate Seed.numerator Seed.payCash) Seed.repaired))
  = (fst (run (post_initiate Seed.numerator Seed.payCash) Seed.repaired),
     Err (AppError 400 "Payment already completed" "ALREADY_PAID")).
Proof.
  exact (post_initiate_once Seed.numerator Seed.payCash Seed.payCash Seed.repaired
           (fst (run (post_initiate Seed.numerator Seed.payCash) Seed.repaired))
           Seed.cashPayment "Cash payment recorded"
           {| initiate_bookingId := "booking-2"; initiate_method := CASH;
              initiate_phone := None |}
           eq_refl eq_refl eq_refl eq_refl eq_refl).
Defined.

(** An administrator cannot initiate the payment of the phone repair. *)
Lemma post_initiate_decides_witness :
  run (post_initiate Seed.numerator
         {| req_user := Seed.asAdmin; req_params_id := "";
            req_body := {| initiateBody_bookingId := Some (JStr "booking-2");
                           initiateBody_method := Some (JStr "CASH");
                           initiateBody_phone := None |} |}) Seed.repaired
  = (Seed.repaired, Err (AppError 403 "Not your booking" "FORBIDDEN")).
Proof.
  exact (post_initiate_decides Seed.numerator
           {| req_user := Seed.asAdmin; req_params_id := "";
              req_body := {| initiateBody_bookingId := Some (JStr "booking-2");
                             initiateBody_method := Some (JStr "CASH");
                             initiateBody_phone := None |} |}
           Seed.repaired
           {| initiate_bookingId := "booking-2"; initiate_method := CASH;
              initiate_phone := None |} eq_refl).
Defined.

(** ** The webhook of the mobile-money provider *)

Lemma updateRows_same {A} (key : A -> string) (k : string) (rows : list A) :
  updateRows key k (fun r => r) rows = rows.
Proof.
  unfold updateRows. induction rows as [| r rows IH]; simpl; [reflexivity |].
  rewrite IH. destruct (String.eqb (key r) k); reflexivity.
Qed.

Lemma find_updateRows_kept {A} (key : A -> string) (k : string) (f : A -> A)
    (p : A -> bool) (rows : list A) (r : A) :
  (forall x, p (f x) = p x) ->
  find p rows = Some r -> key r = k ->
  find p (updateRows key k f rows) = Some (f r).
Proof.
  intros Hp. unfold updateRows.
  induction rows as [| x rows IH]; simpl; [discriminate |].
  intros Hfind Hk.
  destruct (p x) eqn:Hx.
  - injection Hfind as ->. rewrite Hk, String.eqb_refl, Hp, Hx. reflexivity.
  - assert (Hx' : p (if String.eqb (key x) k then f x else x) = false).
    { destruct (String.eqb (key x) k); [rewrite Hp |]; exact Hx. }
    rewrite Hx'. exact (IH Hfind Hk).
Qed.

Lemma forallb_updateRows {A} (key : A -> string) (k : string) (f : A -> A)
    (p : A -> bool) (rows : list A) :
  (forall x, p (f x) = p x) ->
  forallb p (updateRows key k f rows) = forallb p rows.
Proof.
  intros Hp. unfold updateRows.
  induction rows as [| x rows IH]; simpl; [reflexivity |].
  rewrite IH. destruct (String.eqb (key x) k); [rewrite Hp |]; reflexivity.
Qed.

Lemma withoutReferences_unmatched (w : World) (ref : string) :
  withoutReferences w = true -> findPaymentByRef w ref = None.
Proof.
  unfold withoutReferences, findPaymentByRef.
  induction (payments w) as [| p rows IH]; simpl; [reflexivity |].
  intros [Hp Hrows]%andb_prop. apply bool_decide_eq_true_1 in Hp.
  rewrite Hp. rewrite bool_decide_eq_false_2 by discriminate. exact (IH Hrows).
Qed.

Section MoreWebhook.

Variable numberToString : Q -> string.
Variable strLength : string -> nat.
Variable isoDatetime : string -> option Z.

Lemma post_initiate_references (req : Request InitiateBody) (w : World) :
  withoutReferences w = true ->
  withoutReferences (fst (run (post_initiate numberToString req) w)) = true.
Proof.
  intros Hw. unfold post_initiate.
  destruct (initiatePaymentSchema (req_body req)) as [e | data]; simpl; [exact Hw |].
  destruct (findBooking w (initiate_bookingId data)) as [b |]; simpl; [| exact Hw].
  destruct (String.eqb (booking_customerId b) (user_id (req_user req))); simpl;
    [| exact Hw].
  destruct (bool_decide (booking_status b = COMPLETED)); simpl; [| exact Hw].
  destruct (bool_decide (payment_status <$> findPayment w (booking_id b)
                         = Some PAYMENT_COMPLETED)); simpl; [exact Hw |].
  destruct (orNum (booking_finalPrice b) (booking_estimatedPrice b)) as [amount |]; simpl;
    [| exact Hw].
  destruct (truthyNum amount); simpl; [| exact Hw].
  rewrite run_bind.
  set (cash := bool_decide (initiate_method data = CASH)).
  assert (Hpaid_at : run (if cash then Sync newDate (fun now => Done (Some now))
                          else Done None) w
                     = (w, Ok (if cash then Some (clock w) else None))).
  { destruct cash; reflexivity. }
  rewrite Hpaid_at. simpl. unfold payment_upsert.
  assert (Hend : forall (w1 : World) (p : Payment),
             withoutReferences w1 = true ->
             withoutReferences
               (fst (run match initiate_method data with
                         | CASH =>
                             bind (initiate_notifyWorker numberToString b amount)
                               (fun _ => Done (p, "Cash payment recorded"))
                         | _ =>
                             if negb (truthyOpt truthyStr (initiate_phone data))
                             then Throw (AppError 400 "Phone number required for mobile money"
                                           "PHONE_REQUIRED")
                             else Done (p, "Payment initiated. Please confirm on your phone.")
                         end w1)) = true).
  { intros w1 p Hw1.
    destruct (initiate_method data); simpl.
    3: { rewrite run_bind.
         destruct (initiate_notifyWorker_run numberToString b amount w1)
           as (w2 & -> & _ & Hp2).
         simpl. unfold withoutReferences. rewrite Hp2. exact Hw1. }
    all: destruct (truthyOpt truthyStr (initiate_phone data)); exact Hw1. }
  destruct (findPayment w (booking_id b)) as [p0 |]; simpl; apply Hend.
  - unfold withoutReferences. simpl. rewrite forallb_updateRows; [exact Hw | reflexivity].
  - unfold withoutReferences. simpl. rewrite forallb_app. simpl.
    unfold withoutReferences in Hw. rewrite Hw. reflexivity.
Qed.

Lemma serve_references (c : Call) (w : World) :
  withoutReferences w = true ->
  withoutReferences (serve numberToString strLength isoDatetime c w) = true.
Proof.
  intros Hw. destruct c as [req | req | req | req | req]; simpl.
  - destruct (run (post_booking strLength isoDatetime req) w) as [w' r] eqn:Hrun.
    apply post_booking_inv in Hrun. destruct Hrun as [(_ & _ & _ & Hp) _].
    simpl. unfold withoutReferences. rewrite Hp. exact Hw.
  - destruct (run (patch_status req) w) as [w' r] eqn:Hrun.
    apply patch_status_inv in Hrun. simpl.
    destruct Hrun as [(e & _ & ->) | (data & b & upd & _ & _ & _ & _ & _ & _ & _ & Hsame)];
      [exact Hw |].
    destruct Hsame as (_ & _ & _ & Hp & _). unfold withoutReferences. rewrite Hp. exact Hw.
  - destruct (run (post_accept req) w) as [w' r] eqn:Hrun.
    apply post_accept_inv in Hrun. simpl.
    destruct Hrun as [(e & _ & ->) | (k & b & s & Hrest)]; [exact Hw |].
    destruct Hrest as (_ & _ & _ & _ & _ & _ & _ & _ & _ & _ & _ & (_ & _ & _ & Hp)).
    unfold withoutReferences. rewrite Hp. exact Hw.
  - apply post_initiate_references. exact Hw.
  - destruct (run (admin_post_cancel req) w) as [w' r] eqn:Hrun.
    apply admin_post_cancel_inv in Hrun. simpl.
    destruct Hrun as [[-> _] | (b & _ & _ & _ & _ & (_ & _ & _ & Hp))]; [exact Hw |].
    unfold withoutReferences. rewrite Hp. exact Hw.
Qed.

(** X18: A webhook is matched to a payment by the reference of the provider,
    and no handler writes that reference.  So in a database where no
    payment has one, after any calls that create, update, accept or cancel
    bookings and initiate payments there is still none, and every webhook
    that carries a transaction id is acknowledged and changes nothing: a
    mobile-money payment that was initiated stays PROCESSING. *)
Theorem post_webhook_mtn_unmatched (calls : list Call) (w : World) (body : WebhookBody) :
  withoutReferences w = true ->
  withoutReferences (serveAll numberToString strLength isoDatetime calls w) = true
  /\ run (post_webhook_mtn numberToString body)
       (serveAll numberToString strLength isoDatetime calls w)
     = (serveAll numberToString strLength isoDatetime calls w, Ok tt).
Proof.
  intros Hw.
  assert (Hall : withoutReferences (serveAll numberToString strLength isoDatetime calls w)
                 = true).
  { unfold serveAll. revert w Hw.
    induction calls as [| c calls IH]; intros w Hw; simpl; [exact Hw |].
    apply IH, serve_references, Hw. }
  split; [exact Hall |].
  unfold post_webhook_mtn. simpl. unfold payment_findFirst_providerRef.
  rewrite (withoutReferences_unmatched _ _ Hall). reflexivity.
Qed.

(** X19: A webhook that is matched rewrites the payment whatever its status is:
    SUCCESSFUL makes it COMPLETED and dated now, FAILED makes it FAILED and
    leaves the date it had, any other status leaves it alone.  Amount,
    method and reference are kept, no booking is written, and the answer is
    the acknowledgement in each case. *)
Theorem post_webhook_mtn_settles (body : WebhookBody) (w : World) (p : Payment)
    (b : Booking) :
  findPaymentByRef w (webhook_transactionId body) = Some p ->
  findBooking w (payment_bookingId p) = Some b ->
  exists w',
    run (post_webhook_mtn numberToString body) w = (w', Ok tt)
    /\ payments w' = updateRows payment_id (payment_id p) (webhookData w body) (payments w)
    /\ findPaymentByRef w' (webhook_transactionId body) = Some (webhookData w body p)
    /\ bookings w' = bookings w.
Proof.
  intros Hp Hb.
  assert (Hid : exists p0, findPaymentById w (payment_id p) = Some p0).
  { unfold findPaymentByRef in Hp. apply find_some in Hp as [Hin _].
    unfold findPaymentById.
    destruct (find _ (payments w)) as [p0 |] eqn:Hnone; [eauto |].
    apply (find_none _ _ Hnone) in Hin. rewrite String.eqb_refl in Hin. discriminate Hin. }
  destruct Hid as (p0 & Hp0).
  assert (Hfound : forall (w1 : World),
             payments w1 = updateRows payment_id (payment_id p) (webhookData w body)
                             (payments w) ->
             findPaymentByRef w1 (webhook_transactionId body)
             = Some (webhookData w body p)).
  { intros w1 Hw1. unfold findPaymentByRef. rewrite Hw1.
    apply find_updateRows_kept; [| exact Hp | reflexivity].
    intros x. unfold webhookData.
    destruct (statusIs _ "SUCCESSFUL"); [reflexivity |].
    destruct (statusIs _ "FAILED"); reflexivity. }
  unfold post_webhook_mtn. simpl. unfold payment_findFirst_providerRef.
  rewrite Hp, Hb. simpl.
  unfold webhookData in *.
  destruct (statusIs (webhook_status body) "SUCCESSFUL"); simpl.
  - unfold payment_update. rewrite Hp0. simpl. rewrite run_bind.
    destruct (truthyOpt truthyStr (booking_workerId b)); simpl.
    + unfold worker_findUnique_id.
      change (findWorkerById (withPayments ?rows w)) with (findWorkerById w).
      destruct (findWorkerById w (default "" (booking_workerId b))); simpl;
        eexists; (split; [reflexivity |]); simpl;
        (split; [reflexivity |]); (split; [apply Hfound; reflexivity | reflexivity]).
    + eexists. split; [reflexivity |]. simpl.
      split; [reflexivity |]. split; [apply Hfound; reflexivity | reflexivity].
  - destruct (statusIs (webhook_status body) "FAILED"); simpl.
    + unfold payment_update. rewrite Hp0. simpl.
      eexists. split; [reflexivity |]. simpl.
      split; [reflexivity |]. split; [apply Hfound; reflexivity | reflexivity].
    + exists w. split; [reflexivity |].
      split; [symmetry; apply updateRows_same |].
      split; [apply Hfound; symmetry; apply updateRows_same | reflexivity].
Qed.

End MoreWebhook.

(** The customer of the phone repair initiates a mobile-money payment; the
    webhook of the provider reports success and the payment stays as it
    is. *)
Lemma post_webhook_mtn_unmatched_witness :
  payment_status
    <$> findPayment (serveAll Seed.numerator String.length Seed.noDatetime
                       Provider.calls Seed.world) "booking-2"
  = Some PAYMENT_PROCESSING
  /\ run (post_webhook_mtn Seed.numerator (Provider.webhook "MTN_REF_003" "SUCCESSFUL"))
       (serveAll Seed.numerator String.length Seed.noDatetime Provider.calls Seed.world)
     = (serveAll Seed.numerator String.length Seed.noDatetime Provider.calls Seed.world,
        Ok tt).
Proof.
  split; [reflexivity |].
  exact (proj2 (post_webhook_mtn_unmatched Seed.numerator String.length Seed.noDatetime
                  Provider.calls Seed.world
                  (Provider.webhook "MTN_REF_003" "SUCCESSFUL") eq_refl)).
Defined.

(** A webhook that reports a failure for the reference of a COMPLETED
    payment makes it FAILED, with the date it was paid. *)
Lemma post_webhook_mtn_settles_witness :
  exists w' p,
    run (post_webhook_mtn Seed.numerator (Provider.webhook "MTN_REF_001" "FAILED"))
      Provider.world = (w', Ok tt)
    /\ findPaymentByRef w' "MTN_REF_001" = Some p
    /\ payment_status p = PAYMENT_FAILED
    /\ payment_paidAt p = Some 450%Z.
Proof.
  destruct (post_webhook_mtn_settles Seed.numerator
              (Provider.webhook "MTN_REF_001" "FAILED") Provider.world
              (Provider.referred "MTN_REF_001" (Seed.paid Seed.sink 55)) Seed.sink
              eq_refl eq_refl)
    as (w' & Hrun & _ & Hp & _).
  exists w', (webhookData Provider.world (Provider.webhook "MTN_REF_001" "FAILED")
                (Provider.referred "MTN_REF_001" (Seed.paid Seed.sink 55))).
  split; [exact Hrun |]. split; [exact Hp |]. split; reflexivity.
Defined.

(** ** Cancellation by an administrator *)

(** X20: An administrator cancels any booking that exists, whatever its status:
    the row keeps every column but the status, the worker (when there is
    one) and the customer are notified in that order, and no socket event
    is emitted and no payment touched. *)
Theorem admin_post_cancel_effects (req : Request unit) (w : World) (b : Booking) :
  user_role (req_user req) = ADMIN ->
  findBooking w (req_params_id req) = Some b ->
  exists w',
    run (admin_post_cancel req) w = (w', Ok (applyUpdate (statusOnly CANCELLED) b))
    /\ findBooking w' (req_params_id req) = Some (applyUpdate (statusOnly CANCELLED) b)
    /\ booking_workerId (applyUpdate (statusOnly CANCELLED) b) = booking_workerId b
    /\ booking_finalPrice (applyUpdate (statusOnly CANCELLED) b) = booking_finalPrice b
    /\ booking_completedAt (applyUpdate (statusOnly CANCELLED) b) = booking_completedAt b
    /\ notifications w' = (notifications w ++ adminCancelNotifications w b)%list
    /\ emitted w' = emitted w
    /\ payments w' = payments w.
Proof.
  intros Hrole Hfind.
  unfold admin_post_cancel, adminOnly.
  rewrite (bool_decide_eq_true_2 _ Hrole). simpl.
  unfold booking_update. rewrite Hfind. simpl. rewrite run_bind.
  unfold adminCancelNotifications.
  assert (Hid : booking_id b = req_params_id req) by exact (findBooking_id _ _ _ Hfind).
  assert (Hstored : forall w0,
             bookings w0 = updateRows booking_id (req_params_id req)
                             (applyUpdate (statusOnly CANCELLED)) (bookings w) ->
             findBooking w0 (req_params_id req)
             = Some (applyUpdate (statusOnly CANCELLED) b)).
  { intros w0 Hb. unfold findBooking. rewrite Hb.
    rewrite (find_updateRows booking_id _ (applyUpdate_id _)).
    rewrite String.eqb_refl. fold (findBooking w (req_params_id req)).
    rewrite Hfind. reflexivity. }
  destruct (truthyOpt truthyStr (booking_workerId b)); simpl.
  - unfold worker_findUnique_id.
    change (findWorkerById (withBookings ?rows w)) with (findWorkerById w).
    destruct (findWorkerById w (default "" (booking_workerId b))) as [k |]; simpl;
      eexists; (split; [reflexivity |]); simpl;
      (split; [apply Hstored; reflexivity |]);
      repeat split; try reflexivity.
    rewrite <- app_assoc. reflexivity.
  - eexists. split; [reflexivity |]. simpl.
    split; [apply Hstored; reflexivity |]. repeat split; reflexivity.
Qed.

(** X21: The cancellation is refused to everyone but an administrator
    (FORBIDDEN, 403), and for a booking that does not exist the update
    itself fails: the error is Prisma's P2025, which the error middleware
    answers as NOT_FOUND (404).  Nothing is written in either case. *)
Theorem admin_post_cancel_refuses (req : Request unit) (w : World) :
  user_role (req_user req) <> ADMIN \/ findBooking w (req_params_id req) = None ->
  exists e,
    run (admin_post_cancel req) w = (w, Err e)
    /\ response_status (errorHandler e)
       = (if bool_decide (user_role (req_user req) = ADMIN) then 404 else 403)%nat
    /\ response_code (errorHandler e)
       = (if bool_decide (user_role (req_user req) = ADMIN) then "NOT_FOUND"
          else "FORBIDDEN").
Proof.
  intros Hwhy. unfold admin_post_cancel, adminOnly.
  destruct (bool_decide (user_role (req_user req) = ADMIN)) eqn:Hrole.
  - apply bool_decide_eq_true_1 in Hrole.
    destruct Hwhy as [Hother | Hmissing]; [contradiction |].
    simpl. unfold booking_update. rewrite Hmissing. simpl.
    eexists. split; [reflexivity |]. split; reflexivity.
  - eexists. split; [reflexivity |]. split; reflexivity.
Qed.

(** The administrator cancels the house cleaning, which is accepted by
    worker 3. *)
Lemma admin_post_cancel_effects_witness :
  exists w',
    run (admin_post_cancel (Seed.post Seed.asAdmin Seed.cleaning)) Seed.world
    = (w', Ok (applyUpdate (statusOnly CANCELLED) Seed.cleaning))
    /\ notification_userId <$> notifications w' = ["user-worker-3"; "customer-0"]
    /\ emitted w' = [].
Proof.
  destruct (admin_post_cancel_effects (Seed.post Seed.asAdmin Seed.cleaning) Seed.world
              Seed.cleaning eq_refl eq_refl)
    as (w' & Hrun & _ & _ & _ & _ & Hn & He & _).
  exists w'. split; [exact Hrun |]. rewrite Hn, He. split; reflexivity.
Defined.

(** The administrator cancels a booking that does not exist. *)
Lemma admin_post_cancel_refuses_witness :
  exists e,
    run (admin_post_cancel {| req_user := Seed.asAdmin; req_params_id := "booking-9";
                              req_body := tt |}) Seed.world = (Seed.world, Err e)
    /\ response_status (errorHandler e) = 404%nat
    /\ response_code (errorHandler e) = "NOT_FOUND".
Proof.
  exact (admin_post_cancel_refuses
           {| req_user := Seed.asAdmin; req_params_id := "booking-9"; req_body := tt |}
           Seed.world (or_intror eq_refl)).
Defined.

(** ** From an accepted booking to a paid one *)

Lemma patch_updateData_assigned (userId : string) (b : Booking) (data : StatusData)
    (w : World) :
  truthyOpt truthyStr (booking_workerId b) = true ->
  run (patch_updateData userId b data) w = (w, Ok (workerUpdate (clock w) data)).
Proof.
  intros Hassigned. unfold patch_updateData, workerUpdate. rewrite Hassigned.
  destruct data as [status price]. simpl.
  destruct status; simpl; try reflexivity.
  destruct price as [p |]; simpl; [destruct (truthyNum p) |]; reflexivity.
Qed.

(** A status update of the worker of the booking, for a pair of the
    transition table. *)
Lemma patch_status_by_worker (req : Request StatusBody) (w : World) (data : StatusData)
    (b : Booking) (k : Worker) :
  updateBookingStatusSchema (req_body req) = inr data ->
  findBooking w (req_params_id req) = Some b ->
  transitionAllowed (booking_status b) (data_status data) = true ->
  truthyOpt truthyStr (booking_workerId b) = true ->
  workerOf w b = Some k ->
  worker_userId k = user_id (req_user req) ->
  exists w',
    run (patch_status req) w = (w', Ok (applyUpdate (workerUpdate (clock w) data) b))
    /\ findBooking w' (req_params_id req)
       = Some (applyUpdate (workerUpdate (clock w) data) b)
    /\ sameButBookings w w'
    /\ notifications w' = (notifications w ++ statusNotifications b (data_status data))%list.
Proof.
  intros Hparse Hfind Hallowed Hassigned Hworker Huser.
  unfold patch_status. rewrite Hparse. simpl. rewrite Hfind. simpl.
  rewrite Hallowed, Hworker. simpl. rewrite Huser, String.eqb_refl.
  assert (Hperm : permissionChecks (data_status data) true
                    (isCustomerOf b (req_user req)) = None).
  { unfold permissionChecks. destruct (bool_decide _); reflexivity. }
  rewrite Hperm. rewrite run_bind, (patch_updateData_assigned _ _ _ _ Hassigned). simpl.
  unfold booking_update.
  rewrite (findBooking_id _ _ _ Hfind), Hfind. rewrite run_bind.
  match goal with
  | |- context [run (patch_notify ?b0 ?s) ?w0] =>
      destruct (patch_notify_effect b0 s w0) as (w1 & Hn & Hnotes & _);
      destruct (patch_notify_run b0 s w0) as (w1' & Hn' & Hbs & Hsame)
  end.
  rewrite Hn in Hn'. injection Hn' as <-. rewrite Hn. simpl.
  exists w1. split; [reflexivity |].
  split.
  { unfold findBooking. rewrite Hbs. simpl.
    rewrite (find_updateRows booking_id _ (applyUpdate_id _)), String.eqb_refl.
    fold (findBooking w (req_params_id req)). rewrite Hfind. reflexivity. }
  split; [| exact Hnotes].
  destruct Hsame as (H1 & H2 & H3 & H4 & H5 & H6 & H7 & H8).
  repeat split; assumption.
Qed.

Section Work.

Variable numberToString : Q -> string.
Variable strLength : string -> nat.
Variable isoDatetime : string -> option Z.

(** X22: The worker of an ACCEPTED booking can always do the work: the updates
    to WORKER_EN_ROUTE, IN_PROGRESS and COMPLETED with a positive final
    price, one after the other, all succeed.  The booking is then COMPLETED
    with that price and the worker it had, and has the dates of its start
    and of its completion; the customer has been told that the worker is on
    the way and that the service is completed, and nothing about its start.
    The customer can then pay that price in cash. *)
Theorem work_done_and_paid (w : World) (id : string) (b : Booking) (k : Worker)
    (worker customer : AuthUser) (price : Q) :
  findBooking w id = Some b ->
  booking_status b = ACCEPTED ->
  truthyOpt truthyStr (booking_workerId b) = true ->
  workerOf w b = Some k ->
  worker_userId k = user_id worker ->
  booking_customerId b = user_id customer ->
  (0 < price)%Q ->
  findPayment w id = None ->
  exists b' p,
    findBooking (serveAll numberToString strLength isoDatetime (workDone worker id price) w)
      id = Some b'
    /\ booking_status b' = COMPLETED
    /\ booking_workerId b' = booking_workerId b
    /\ booking_finalPrice b' = Some price
    /\ booking_startedAt b' <> None
    /\ booking_completedAt b' <> None
    /\ notification_type
         <$> notifications
               (serveAll numberToString strLength isoDatetime (workDone worker id price) w)
       = ((notification_type <$> notifications w)
            ++ ["WORKER_EN_ROUTE"; "SERVICE_COMPLETED"])%list
    /\ run (post_initiate numberToString (cashRequest customer id))
         (serveAll numberToString strLength isoDatetime (workDone worker id price) w)
       = (serve numberToString strLength isoDatetime (PostInitiate (cashRequest customer id))
            (serveAll numberToString strLength isoDatetime (workDone worker id price) w),
          Ok (p, "Cash payment recorded"))
    /\ payment_bookingId p = id
    /\ payment_amount p = price
    /\ payment_method p = CASH
    /\ payment_status p = PAYMENT_COMPLETED
    /\ payment_paidAt p <> None.
Proof.
  intros Hfind Hstatus Hassigned Hworker Huser Hcustomer Hprice Hunpaid.
  assert (Hpositive : positiveNum price = true) by (apply positiveNum_lt; exact Hprice).
  pose proof (positiveNum_truthy _ Hpositive) as Htruthy.
  unfold workDone, serveAll. cbn [fold_left serve].
  (* on the way *)
  destruct (patch_status_by_worker (statusRequest worker id "WORKER_EN_ROUTE" None) w
              {| data_status := WORKER_EN_ROUTE; data_finalPrice := None |} b k
              eq_refl Hfind) as (w1 & Hrun1 & Hfind1 & Hsame1 & Hnotes1);
    [rewrite Hstatus; reflexivity | exact Hassigned | exact Hworker | exact Huser |].
  rewrite Hrun1. cbn [fst].
  set (b1 := applyUpdate _ b) in *.
  destruct Hsame1 as (_ & Hworkers1 & _ & Hpayments1 & _ & Hclock1 & _).
  (* in progress *)
  destruct (patch_status_by_worker (statusRequest worker id "IN_PROGRESS" None) w1
              {| data_status := IN_PROGRESS; data_finalPrice := None |} b1 k
              eq_refl Hfind1) as (w2 & Hrun2 & Hfind2 & Hsame2 & Hnotes2);
    [reflexivity | exact Hassigned
     | unfold workerOf, findWorkerById in *; simpl; rewrite Hworkers1; exact Hworker
     | exact Huser |].
  rewrite Hrun2. cbn [fst].
  set (b2 := applyUpdate _ b1) in *.
  destruct Hsame2 as (_ & Hworkers2 & _ & Hpayments2 & _ & Hclock2 & _).
  (* completed *)
  assert (Hparse3 : updateBookingStatusSchema
                      (req_body (statusRequest worker id "COMPLETED" (Some price)))
                    = inr {| data_status := COMPLETED; data_finalPrice := Some price |}).
  { unfold updateBookingStatusSchema. simpl. rewrite Hpositive. reflexivity. }
  destruct (patch_status_by_worker (statusRequest worker id "COMPLETED" (Some price)) w2
              {| data_status := COMPLETED; data_finalPrice := Some price |} b2 k
              Hparse3 Hfind2) as (w3 & Hrun3 & Hfind3 & Hsame3 & Hnotes3);
    [reflexivity | exact Hassigned
     | unfold workerOf, findWorkerById in *; simpl; rewrite Hworkers2, Hworkers1;
       exact Hworker
     | exact Huser |].
  rewrite Hrun3. cbn [fst].
  set (b3 := applyUpdate _ b2) in *.
  destruct Hsame3 as (_ & _ & _ & Hpayments3 & _ & Hclock3 & _).
  simpl in Hfind1, Hfind2, Hfind3.
  assert (Hid : booking_id b3 = id) by exact (findBooking_id _ _ _ Hfind).
  (* the payment *)
  destruct (post_initiate_written numberToString (cashRequest customer id) w3
              {| initiate_bookingId := id; initiate_method := CASH; initiate_phone := None |}
              b3 price eq_refl Hfind3 Hcustomer eq_refl)
    as (w4 & p & Hrun4 & _ & _ & Hkey & Hamount & Hmethod & Hpaid & Hpaid_at).
  { rewrite Hid. unfold findPayment. rewrite Hpayments3, Hpayments2, Hpayments1.
    fold (findPayment w id). rewrite Hunpaid. discriminate. }
  { unfold b3. simpl. unfold orNum. simpl. rewrite Htruthy. simpl.
    rewrite Htruthy. reflexivity. }
  { exact Htruthy. }
  exists b3, p. split; [exact Hfind3 |].
  split; [reflexivity |].
  split; [reflexivity |].
  split; [unfold b3; simpl; rewrite Htruthy; reflexivity |].
  split; [simpl; discriminate |].
  split; [simpl; discriminate |].
  split.
  { rewrite Hnotes3, Hnotes2, Hnotes1. simpl.
    rewrite !app_nil_r, !fmap_app, <- app_assoc. reflexivity. }
  cbn [initiate_method] in Hrun4. rewrite Hrun4. cbn [fst].
  split; [reflexivity |].
  split; [rewrite Hkey; exact Hid |].
  split.
  { rewrite Hamount, Hid. unfold findPayment. rewrite Hpayments3, Hpayments2, Hpayments1.
    fold (findPayment w id). rewrite Hunpaid. reflexivity. }
  split; [exact Hmethod |].
  split; [exact Hpaid |].
  rewrite Hpaid_at. simpl. discriminate.
Qed.

End Work.

(** The house cleaning of the seed, accepted by worker 3, is done for 250
    and paid in cash. *)
Lemma work_done_and_paid_witness :
  exists b' p,
    findBooking (serveAll Seed.numerator String.length Seed.noDatetime
                   (workDone (Seed.asWorker "3") "booking-3" 250) Seed.world)
      "booking-3" = Some b'
    /\ booking_status b' = COMPLETED
    /\ booking_finalPrice b' = Some 250%Q
    /\ payment_amount p = 250%Q
    /\ payment_status p = PAYMENT_COMPLETED.
Proof.
  destruct (work_done_and_paid Seed.numerator String.length Seed.noDatetime Seed.world
              "booking-3" Seed.cleaning (Seed.worker "3" VERIFIED)
              (Seed.asWorker "3") (Seed.asCustomer "0") 250
              eq_refl eq_refl eq_refl eq_refl eq_refl eq_refl eq_refl eq_refl)
    as (b' & p & Hfind & Hstatus & _ & Hprice & _ & _ & _ & _ & _ & Hamount & _ & Hpaid & _).
  exists b', p. repeat split; assumption.
Defined.

(** ** Reviews and the ratings of a worker *)

Lemma zRating_range (v : option JValue) (q : Q) :
  zRating v = Some q -> v = Some (JNum q) /\ (1 <= q)%Q /\ (q <= 5)%Q.
Proof.
  unfold zRating. destruct v as [[] |]; try discriminate.
  destruct (_ && _) eqn:Hb; [| discriminate].
  intros [= <-].
  apply andb_prop in Hb as [[_ H1%Qle_bool_iff]%andb_prop H2%Qle_bool_iff].
  repeat split; assumption.
Qed.

Lemma total_range (l : list Q) :
  (forall q, In q l -> (1 <= q)%Q /\ (q <= 5)%Q) ->
  (inject_Z (Z.of_nat (length l)) <= total l)%Q
  /\ (total l <= 5 * inject_Z (Z.of_nat (length l)))%Q.
Proof.
  induction l as [| q l IH]; intros Hl.
  - simpl. split; [apply Qle_refl |]. discriminate.
  - destruct (Hl q (or_introl eq_refl)) as [H1 H5].
    destruct IH as [IH1 IH5]; [intros x Hx; apply Hl; right; exact Hx |].
    change (total (q :: l)) with (q + total l)%Q.
    change (length (q :: l)) with (S (length l)).
    rewrite Nat2Z.inj_succ. unfold Z.succ. rewrite inject_Z_plus.
    change (inject_Z 1) with 1%Q.
    set (n := inject_Z (Z.of_nat (length l))) in *.
    split.
    + assert (Heq : (n + 1 == 1 + n)%Q) by ring.
      rewrite Heq. apply Qplus_le_compat; assumption.
    + assert (Heq : (5 * (n + 1) == 5 + 5 * n)%Q) by ring.
      rewrite Heq. apply Qplus_le_compat; [exact H5 | exact IH5].
Qed.

(** The average of ratings from 1 to 5 is from 1 to 5. *)
Lemma average_range (l : list Q) :
  l <> [] ->
  (forall q, In q l -> (1 <= q)%Q /\ (q <= 5)%Q) ->
  (1 <= orZero (average l))%Q /\ (orZero (average l) <= 5)%Q.
Proof.
  intros Hne Hl. destruct (total_range l Hl) as [H1 H5].
  unfold average. destruct l as [| q l]; [contradiction |].
  set (n := inject_Z (Z.of_nat (length (q :: l)))) in *.
  assert (Hn : (0 < n)%Q).
  { unfold n. change 0%Q with (inject_Z 0). rewrite <- Zlt_Qlt. simpl length. lia. }
  assert (Hlow : (1 <= total (q :: l) / n)%Q).
  { apply Qle_shift_div_l; [exact Hn |]. rewrite Qmult_1_l. exact H1. }
  assert (Hhigh : (total (q :: l) / n <= 5)%Q).
  { apply Qle_shift_div_r; [exact Hn | exact H5]. }
  unfold orZero.
  destruct (truthyNum (total (q :: l) / n)) eqn:Hzero; [split; assumption |].
  exfalso. unfold truthyNum in Hzero. apply negb_false_iff, Z.eqb_eq in Hzero.
  assert (Heq : (total (q :: l) / n == 0)%Q).
  { unfold Qeq. rewrite Hzero. reflexivity. }
  rewrite Heq in Hlow. unfold Qle in Hlow. simpl in Hlow. lia.
Qed.

Section MoreReviews.

Variable numberToString : Q -> string.
Variable strLength : string -> nat.

(** A review is written for a COMPLETED booking of the user that has a
    worker and no review yet. *)
Lemma post_review_inv (req : Request ReviewBody) (s s' : Reviewed) (r : Review) :
  post_review numberToString strLength req s = (s', Ok r) ->
  exists data b k,
    createReviewSchema strLength (req_body req) = inr data
    /\ findBooking (base s) (reviewData_bookingId data) = Some b
    /\ booking_customerId b = user_id (req_user req)
    /\ booking_status b = COMPLETED
    /\ findReview s (booking_id b) = None
    /\ booking_workerId b = Some (review_workerId r)
    /\ workerOf (base s) b = Some k
    /\ review_bookingId r = booking_id b
    /\ review_customerId r = user_id (req_user req)
    /\ review_rating r = reviewData_rating data
    /\ reviews s' = (reviews s ++ [r])%list
    /\ ratings s'
       = <[review_workerId r :=
             {| averageRating :=
                  orZero (average (review_rating
                                     <$> reviewsOf (review_workerId r) (reviews s')));
                totalReviews := length (reviewsOf (review_workerId r) (reviews s')) |}]>
           (ratings s)
    /\ bookings (base s') = bookings (base s)
    /\ workers (base s') = workers (base s).
Proof.
  unfold post_review.
  destruct (createReviewSchema strLength (req_body req)) as [e | data] eqn:Hparse;
    [discriminate |].
  destruct (findBooking (base s) (reviewData_bookingId data)) as [b |] eqn:Hfind;
    [| discriminate].
  destruct (String.eqb (booking_customerId b) (user_id (req_user req))) eqn:Hmine; simpl;
    [| discriminate].
  destruct (bool_decide (booking_status b = COMPLETED)) eqn:Hcompleted; simpl;
    [| discriminate].
  destruct (findReview s (booking_id b)) eqn:Hreview; [discriminate |].
  destruct (booking_workerId b) as [wid |] eqn:Hwid; simpl; [| discriminate].
  destruct (truthyStr wid); [| discriminate].
  destruct (workerOf (base s) b) as [k |] eqn:Hk; [| discriminate].
  intros [= <- <-]. exists data, b, k. simpl.
  apply String.eqb_eq in Hmine. apply bool_decide_eq_true_1 in Hcompleted.
  repeat split; try assumption; reflexivity.
Qed.


(** X24: A booking is reviewed once: when a review has been written, a further
    review of that booking by its customer is refused with
    ALREADY_REVIEWED (400) and nothing is written. *)
Theorem post_review_once (first second : Request ReviewBody) (s s' : Reviewed)
    (r : Review) (data : ReviewData) :
  post_review numberToString strLength first s = (s', Ok r) ->
  createReviewSchema strLength (req_body second) = inr data ->
  reviewData_bookingId data = review_bookingId r ->
  user_id (req_user second) = user_id (req_user first) ->
  post_review numberToString strLength second s'
  = (s', Err (AppError 400 "Review already exists" "ALREADY_REVIEWED")).
Proof.
  intros Hrun Hparse Hsame Huser.
  destruct (post_review_inv _ _ _ _ Hrun)
    as (data1 & b & k & _ & Hfind & Hmine & Hcompleted & Hnone & _ & _ & Hkey & _ & _
        & Hrows & _ & Hbs & _).
  assert (Hfind' : findBooking (base s') (reviewData_bookingId data) = Some b).
  { unfold findBooking. rewrite Hbs. fold (findBooking (base s) (reviewData_bookingId data)).
    rewrite Hsame, Hkey. exact (findBooking_self _ _ _ Hfind). }
  unfold post_review. rewrite Hparse, Hfind', Huser, Hmine, String.eqb_refl, Hcompleted.
  simpl.
  assert (Hreview : findReview s' (booking_id b) = Some r).
  { unfold findReview. rewrite Hrows, find_app_new.
    fold (findReview s (booking_id b)). rewrite Hnone, Hkey, String.eqb_refl.
    reflexivity. }
  rewrite Hreview. reflexivity.
Qed.

(** X25: The rating of a review is a number from 1 to 5, and when every review
    of the table has such a rating, so has every review after a new one and
    the average rating of the reviewed worker is from 1 to 5 as well. *)
Theorem post_review_range (req : Request ReviewBody) (s s' : Reviewed) (r : Review) :
  post_review numberToString strLength req s = (s', Ok r) ->
  ratedInRange (reviews s) ->
  (1 <= review_rating r)%Q /\ (review_rating r <= 5)%Q
  /\ ratedInRange (reviews s')
  /\ exists stats,
       ratings s' !! review_workerId r = Some stats
       /\ (1 <= averageRating stats)%Q /\ (averageRating stats <= 5)%Q.
Proof.
  intros Hrun Hrange.
  destruct (post_review_inv _ _ _ _ Hrun)
    as (data & b & k & Hparse & _ & _ & _ & _ & _ & _ & _ & _ & Hrating & Hrows
        & Hratings & _).
  assert (Hr : (1 <= review_rating r)%Q /\ (review_rating r <= 5)%Q).
  { rewrite Hrating. unfold createReviewSchema in Hparse.
    destruct (zString _), (zRating _) eqn:Hz, (zCommentOptional _ _);
      try discriminate Hparse.
    injection Hparse as <-. simpl. apply zRating_range in Hz. apply Hz. }
  assert (Hall : ratedInRange (reviews s')).
  { intros x Hx. rewrite Hrows in Hx. apply in_app_or in Hx as [Hx | [<- | []]];
      [apply Hrange; exact Hx | exact Hr]. }
  split; [apply Hr |]. split; [apply Hr |]. split; [exact Hall |].
  eexists. rewrite Hratings, lookup_insert_eq. split; [reflexivity |]. simpl.
  apply average_range.
  - unfold reviewsOf. rewrite Hrows, filter_app, fmap_app.
    rewrite filter_cons_True by apply String.eqb_refl. simpl.
    intros H. apply app_eq_nil in H as [_ H]. discriminate H.
  - intros q Hq. apply in_map_iff in Hq as (x & <- & Hx).
    apply Hall. unfold reviewsOf in Hx.
    apply (proj2 (list_elem_of_In _ _)), list_elem_of_filter in Hx as [_ Hx].
    apply (proj1 (list_elem_of_In _ _)). exact Hx.
Qed.

End MoreReviews.


(** The customer of the electrician gives four stars, and then two. *)
Lemma post_review_once_witness :
  post_review Seed.numerator String.length
    (Feedback.rate (Seed.asCustomer "1") Seed.outlet 2)
    (fst (post_review Seed.numerator String.length
            (Feedback.rate (Seed.asCustomer "1") Seed.outlet 4) Feedback.state))
  = (fst (post_review Seed.numerator String.length
            (Feedback.rate (Seed.asCustomer "1") Seed.outlet 4) Feedback.state),
     Err (AppError 400 "Review already exists" "ALREADY_REVIEWED")).
Proof.
  exact (post_review_once Seed.numerator String.length
           (Feedback.rate (Seed.asCustomer "1") Seed.outlet 4)
           (Feedback.rate (Seed.asCustomer "1") Seed.outlet 2)
           Feedback.state
           (fst (post_review Seed.numerator String.length
                   (Feedback.rate (Seed.asCustomer "1") Seed.outlet 4) Feedback.state))
           Feedback.fourStars
           {| reviewData_bookingId := "booking-1"; reviewData_rating := 2;
              reviewData_comment := None |}
           eq_refl eq_refl eq_refl eq_refl).
Defined.

Lemma post_review_range_witness :
  exists stats,
    ratings (fst (post_review Seed.numerator String.length
                    (Feedback.rate (Seed.asCustomer "1") Seed.outlet 4) Feedback.state))
      !! "worker-1" = Some stats
    /\ (1 <= averageRating stats)%Q /\ (averageRating stats <= 5)%Q.
Proof.
  refine (proj2 (proj2 (proj2
            (post_review_range Seed.numerator String.length
               (Feedback.rate (Seed.asCustomer "1") Seed.outlet 4) Feedback.state
               (fst (post_review Seed.numerator String.length
                       (Feedback.rate (Seed.asCustomer "1") Seed.outlet 4)
                       Feedback.state))
               Feedback.fourStars eq_refl _)))).
  intros r [<- | []]. split; unfold Qle; simpl; lia.
Defined.

(** ** Ghana phone numbers *)

Lemma substring_all (s : string) : String.substring 0 (String.length s) s = s.
Proof. induction s as [| c s IH]; simpl; [reflexivity | rewrite IH; reflexivity]. Qed.

Lemma substringFrom_append (prefix s : string) :
  substringFrom (String.length prefix) (prefix ++ s) = s.
Proof.
  unfold substringFrom. induction prefix as [| c prefix IH]; simpl.
  - rewrite Nat.sub_0_r. apply substring_all.
  - exact IH.
Qed.

Lemma keep_allChars (p : ascii -> bool) (s : string) : allChars p (keep p s) = true.
Proof.
  induction s as [| c s IH]; simpl; [reflexivity |].
  destruct (p c) eqn:Hc; simpl; [rewrite Hc |]; exact IH.
Qed.

Lemma keep_id (p : ascii -> bool) (s : string) : allChars p s = true -> keep p s = s.
Proof.
  induction s as [| c s IH]; simpl; [reflexivity |].
  intros [Hc Hs]%andb_prop. rewrite Hc, (IH Hs). reflexivity.
Qed.

Lemma substring_allChars (p : ascii -> bool) (s : string) (n m : nat) :
  allChars p s = true -> allChars p (String.substring n m s) = true.
Proof.
  revert n m. induction s as [| c s IH]; intros n m Hs.
  - destruct n, m; reflexivity.
  - simpl in Hs. apply andb_prop in Hs as [Hc Hs].
    destruct n as [| n]; simpl.
    + destruct m as [| m]; simpl; [reflexivity |].
      rewrite Hc. exact (IH 0%nat m Hs).
    + exact (IH n m Hs).
Qed.

Lemma allChars_append (p : ascii -> bool) (s t : string) :
  allChars p (s ++ t) = allChars p s && allChars p t.
Proof.
  induction s as [| c s IH]; simpl; [reflexivity |].
  rewrite IH, andb_assoc. reflexivity.
Qed.

(** What is left of the number when the three prefixes have been taken
    off. *)
Lemma normalizeGhanaPhone_inv (phone r : string) :
  normalizeGhanaPhone phone = Some r ->
  exists d, r = "+233" ++ d /\ String.length d = 9%nat /\ allChars phoneChar d = true.
Proof.
  unfold normalizeGhanaPhone.
  pose proof (keep_allChars phoneChar phone) as H0.
  set (c0 := keep phoneChar phone) in *.
  set (c1 := if startsWith c0 "+" then substringFrom 1 c0 else c0).
  assert (H1 : allChars phoneChar c1 = true).
  { subst c1. destruct (startsWith c0 "+"); [apply substring_allChars |]; exact H0. }
  set (c2 := if startsWith c1 "233" then substringFrom 3 c1 else c1).
  assert (H2 : allChars phoneChar c2 = true).
  { subst c2. destruct (startsWith c1 "233"); [apply substring_allChars |]; exact H1. }
  set (c3 := if startsWith c2 "0" then substringFrom 1 c2 else c2).
  assert (H3 : allChars phoneChar c3 = true).
  { subst c3. destruct (startsWith c2 "0"); [apply substring_allChars |]; exact H2. }
  destruct (String.length c3 =? 9)%nat eqn:Hlen; simpl; [| discriminate].
  intros [= <-]. exists c3. apply Nat.eqb_eq in Hlen. repeat split; assumption.
Qed.

Lemma length_nine (d : string) :
  String.length d = 9%nat ->
  exists a b c e f g h i j,
    d = String a (String b (String c (String e (String f (String g
          (String h (String i (String j EmptyString)))))))).
Proof.
  intros H.
  do 9 (destruct d as [| ? d]; [discriminate H |]).
  destruct d; [| discriminate H].
  repeat eexists.
Qed.

Lemma startsWith_one (x a : ascii) (s : string) :
  startsWith (String a s) (String x EmptyString) = if ascii_dec x a then true else false.
Proof.
  unfold startsWith. simpl. destruct (ascii_dec x a); [destruct s |]; reflexivity.
Qed.

(** What [normalizeGhanaPhone] does to a number it has returned. *)
Lemma normalizeGhanaPhone_again (d : string) :
  String.length d = 9%nat ->
  allChars phoneChar d = true ->
  normalizeGhanaPhone ("+233" ++ d)
  = if startsWith d "0" then None else Some ("+233" ++ d).
Proof.
  intros Hlen Hd.
  unfold normalizeGhanaPhone.
  rewrite keep_id by (rewrite allChars_append, Hd; reflexivity).
  change (startsWith ("+233" ++ d) "+") with true. cbv iota.
  change (substringFrom 1 ("+233" ++ d))
    with (substringFrom (String.length "+") ("+" ++ ("233" ++ d))).
  rewrite substringFrom_append.
  change (startsWith ("233" ++ d) "233") with (startsWith d ""). 
  replace (startsWith d "") with true by (destruct d; reflexivity). cbv iota.
  change (substringFrom 3 ("233" ++ d)) with (substringFrom (String.length "233") ("233" ++ d)).
  rewrite substringFrom_append.
  destruct (length_nine d Hlen) as (a & b & c & e & f & g & h & i & j & ->).
  rewrite startsWith_one.
  destruct (ascii_dec "0" a); reflexivity.
Qed.

(** X26: A normalized number is [+233] and nine more characters, each a digit
    or a plus sign (the cleaning keeps every plus sign, and only a leading
    one is taken off), thirteen in all. *)
Theorem normalizeGhanaPhone_shape (phone r : string) :
  normalizeGhanaPhone phone = Some r ->
  String.length r = 13%nat
  /\ substringBetween 0 4 r = GHANA_COUNTRY_CODE
  /\ allChars phoneChar r = true
  /\ String.length (substringFrom 4 r) = 9%nat.
Proof.
  intros (d & -> & Hlen & Hd)%normalizeGhanaPhone_inv.
  change (substringFrom 4 ("+233" ++ d))
    with (substringFrom (String.length "+233") ("+233" ++ d)).
  rewrite substringFrom_append.
  split.
  { change (String.length ("+233" ++ d)) with (4 + String.length d)%nat.
    rewrite Hlen. reflexivity. }
  split; [destruct d; reflexivity |].
  split; [rewrite allChars_append, Hd; reflexivity | exact Hlen].
Qed.

(** X27: Normalizing is not idempotent: a number that was returned is returned
    again unchanged unless its part after +233 starts with 0, and then it is
    refused.  A number that [isValidGhanaPhone] accepts is always returned
    again, and accepted again. *)
Theorem normalizeGhanaPhone_twice (phone r : string) :
  normalizeGhanaPhone phone = Some r ->
  normalizeGhanaPhone r
  = (if startsWith (substringFrom 4 r) "0" then None else Some r)
  /\ (isValidGhanaPhone phone = true ->
      normalizeGhanaPhone r = Some r /\ isValidGhanaPhone r = true).
Proof.
  intros Hr.
  destruct (normalizeGhanaPhone_inv _ _ Hr) as (d & -> & Hlen & Hd).
  change (substringFrom 4 ("+233" ++ d))
    with (substringFrom (String.length "+233") ("+233" ++ d)).
  rewrite substringFrom_append.
  split; [apply normalizeGhanaPhone_again; assumption |].
  unfold isValidGhanaPhone at 1. rewrite Hr.
  change (substringFrom 4 ("+233" ++ d))
    with (substringFrom (String.length "+233") ("+233" ++ d)).
  rewrite substringFrom_append.
  intros Hvalid.
  assert (Hzero : startsWith d "0" = false).
  { destruct (length_nine d Hlen) as (a & b & c & e & f & g & h & i & j & ->).
    rewrite startsWith_one. destruct (ascii_dec "0" a) as [<- |]; [| reflexivity].
    simpl in Hvalid. destruct b as [[] [] [] [] [] [] [] []]; discriminate Hvalid. }
  assert (Hagain : normalizeGhanaPhone ("+233" ++ d) = Some ("+233" ++ d)).
  { rewrite (normalizeGhanaPhone_again d Hlen Hd), Hzero. reflexivity. }
  split; [exact Hagain |].
  unfold isValidGhanaPhone. rewrite Hagain.
  change (substringFrom 4 ("+233" ++ d))
    with (substringFrom (String.length "+233") ("+233" ++ d)).
  rewrite substringFrom_append. exact Hvalid.
Qed.

Lemma isDigit_phoneChar (s : string) :
  allChars isDigit s = true -> allChars phoneChar s = true.
Proof.
  induction s as [| c s IH]; simpl; [reflexivity |].
  intros [Hc Hs]%andb_prop. unfold phoneChar at 1. rewrite Hc, (IH Hs). reflexivity.
Qed.

Lemma startsWith_empty (s : string) : startsWith s "" = true.
Proof. destruct s; reflexivity. Qed.

(** X28: The spellings of one number: nine digits [d] that do not start with 0
    are normalized to [+233 d] when they follow 0, 233 or +233, and also by
    themselves unless they start with 233, which is then taken for the
    country code and the number refused. *)
Theorem normalizeGhanaPhone_spellings (d : string) :
  String.length d = 9%nat ->
  allChars isDigit d = true ->
  startsWith d "0" = false ->
  normalizeGhanaPhone ("0" ++ d) = Some ("+233" ++ d)
  /\ normalizeGhanaPhone ("233" ++ d) = Some ("+233" ++ d)
  /\ normalizeGhanaPhone ("+233" ++ d) = Some ("+233" ++ d)
  /\ normalizeGhanaPhone d = if startsWith d "233" then None else Some ("+233" ++ d).
Proof.
  intros Hlen Hdigits Hzero.
  pose proof (isDigit_phoneChar d Hdigits) as Hd.
  split; [| split; [| split]].
  - unfold normalizeGhanaPhone.
    rewrite keep_id by (rewrite allChars_append, Hd; reflexivity).
    change (startsWith ("0" ++ d) "+") with false. cbv iota.
    change (startsWith ("0" ++ d) "233") with false. cbv iota.
    change (startsWith ("0" ++ d) "0") with (startsWith d "").
    rewrite startsWith_empty.
    change (substringFrom 1 ("0" ++ d)) with (substringFrom (String.length "0") ("0" ++ d)).
    rewrite substringFrom_append, Hlen. reflexivity.
  - unfold normalizeGhanaPhone.
    rewrite keep_id by (rewrite allChars_append, Hd; reflexivity).
    change (startsWith ("233" ++ d) "+") with false. cbv iota.
    change (startsWith ("233" ++ d) "233") with (startsWith d "").
    rewrite startsWith_empty.
    change (substringFrom 3 ("233" ++ d))
      with (substringFrom (String.length "233") ("233" ++ d)).
    rewrite substringFrom_append, Hzero, Hlen. reflexivity.
  - rewrite (normalizeGhanaPhone_again d Hlen Hd), Hzero. reflexivity.
  - unfold normalizeGhanaPhone. rewrite (keep_id _ _ Hd).
    destruct (length_nine d Hlen) as (a & b & c & e & f & g & h & i & j & ->).
    assert (Hplus : startsWith (String a (String b (String c (String e (String f
                      (String g (String h (String i (String j "")))))))))
                      "+" = false).
    { rewrite startsWith_one. destruct (ascii_dec "+" a) as [<- |]; [| reflexivity].
      discriminate Hdigits. }
    rewrite Hplus.
    destruct (startsWith _ "233") eqn:Hcode.
    + change (substringFrom 3 (String a (String b (String c (String e (String f
                (String g (String h (String i (String j ""))))))))))
        with (String e (String f (String g (String h (String i (String j "")))))).
      rewrite startsWith_one. destruct (ascii_dec "0" e); reflexivity.
    + rewrite Hzero. reflexivity.
Qed.

(** X29: [isValidGhanaPhone] and [getCarrier] agree: the prefixes that are valid
    are those of the three carriers, so a number is valid exactly when its
    carrier is known. *)
Theorem isValidGhanaPhone_carrier (phone : string) :
  isValidGhanaPhone phone = true <-> getCarrier phone <> Unknown.
Proof.
  unfold isValidGhanaPhone, getCarrier.
  destruct (normalizeGhanaPhone phone) as [r |] eqn:Hr.
  2: { split; [discriminate | congruence]. }
  destruct (normalizeGhanaPhone_inv _ _ Hr) as (d & -> & Hlen & _).
  destruct (length_nine d Hlen) as (a & b & c & e & f & g & h & i & j & ->).
  change (substringBetween 0 2 (substringFrom 4 ("+233" ++ _)))
    with (String a (String b "")).
  change (substringBetween 4 6 ("+233" ++ _)) with (String a (String b "")).
  unfold includesPrefix, VALID_PREFIXES, existsb.
  repeat match goal with
         | |- context [String.eqb ?x ?l] => destruct (String.eqb x l) eqn:?; cbn [orb]
         end;
    (split; [discriminate | congruence]) || (split; [reflexivity || congruence | discriminate || reflexivity]).
Qed.

(** X30: The display format is [+233 dd ddd dddd], sixteen characters, and it is
    read back as the number it shows: normalizing it gives what normalizing
    the normalized number gives. *)
Theorem formatPhoneForDisplay_normalized (phone r : string) :
  normalizeGhanaPhone phone = Some r ->
  exists shown,
    formatPhoneForDisplay phone = Some shown
    /\ String.length shown = 16%nat
    /\ keep phoneChar shown = r
    /\ normalizeGhanaPhone shown = normalizeGhanaPhone r.
Proof.
  intros Hr. unfold formatPhoneForDisplay. rewrite Hr.
  destruct (normalizeGhanaPhone_inv _ _ Hr) as (d & -> & Hlen & Hd).
  destruct (length_nine d Hlen) as (a & b & c & e & f & g & h & i & j & ->).
  eexists. split; [reflexivity |].
  split; [reflexivity |].
  assert (Hkeep : keep phoneChar
                    (GHANA_COUNTRY_CODE ++ " "
                     ++ substringBetween 0 2 (substringFrom 4 ("+233" ++
                          String a (String b (String c (String e (String f
                            (String g (String h (String i (String j ""))))))))))
                     ++ " "
                     ++ substringBetween 2 5 (substringFrom 4 ("+233" ++
                          String a (String b (String c (String e (String f
                            (String g (String h (String i (String j ""))))))))))
                     ++ " "
                     ++ substringFrom 5 (substringFrom 4 ("+233" ++
                          String a (String b (String c (String e (String f
                            (String g (String h (String i (String j "")))))))))))
                  = "+233" ++ String a (String b (String c (String e (String f
                            (String g (String h (String i (String j ""))))))))).
  { change (allChars phoneChar (String a (String b (String c (String e (String f
              (String g (String h (String i (String j ""))))))))))
      with (phoneChar a && (phoneChar b && (phoneChar c && (phoneChar e && (phoneChar f
            && (phoneChar g && (phoneChar h && (phoneChar i && (phoneChar j && true)))))))))
      in Hd.
    repeat (apply andb_prop in Hd as [? Hd]).
    change (keep phoneChar
              (String "+" (String "2" (String "3" (String "3" (String " "
                (String a (String b (String " " (String c (String e (String f
                  (String " " (String g (String h (String i (String j ""))))))))))))))))
            = "+233" ++ String a (String b (String c (String e (String f
                          (String g (String h (String i (String j ""))))))))).
    cbn [keep].
    change (phoneChar "+") with true. change (phoneChar "2") with true.
    change (phoneChar "3") with true. change (phoneChar " ") with false.
    cbv iota.
    repeat match goal with H : phoneChar _ = true |- _ => rewrite H; clear H end.
    reflexivity. }
  split; [exact Hkeep |].
  unfold normalizeGhanaPhone at 1. rewrite Hkeep.
  unfold normalizeGhanaPhone.
  rewrite keep_id by (rewrite allChars_append, Hd; reflexivity).
  reflexivity.
Qed.

Lemma normalizeGhanaPhone_shape_witness :
  normalizeGhanaPhone "024 123-4567" = Some "+233241234567"
  /\ String.length "+233241234567" = 13%nat
  /\ allChars phoneChar "+233241234567" = true.
Proof.
  destruct (normalizeGhanaPhone_shape "024 123-4567" "+233241234567" eq_refl)
    as (Hlen & _ & Hchars & _).
  split; [reflexivity |]. split; assumption.
Defined.

(** Ten digits that start with 00 are normalized, and the result is refused
    when it is normalized again. *)
Lemma normalizeGhanaPhone_twice_witness :
  normalizeGhanaPhone "0012345678" = Some "+233012345678"
  /\ normalizeGhanaPhone "+233012345678" = None.
Proof.
  split; [reflexivity |].
  exact (proj1 (normalizeGhanaPhone_twice "0012345678" "+233012345678" eq_refl)).
Defined.

(** The examples of the documentation. *)
Lemma normalizeGhanaPhone_spellings_witness :
  normalizeGhanaPhone "0241234567" = Some "+233241234567"
  /\ normalizeGhanaPhone "233241234567" = Some "+233241234567"
  /\ normalizeGhanaPhone "+233241234567" = Some "+233241234567"
  /\ normalizeGhanaPhone "241234567" = Some "+233241234567".
Proof.
  exact (normalizeGhanaPhone_spellings "241234567" eq_refl eq_refl eq_refl).
Defined.

Lemma formatPhoneForDisplay_normalized_witness :
  exists shown,
    formatPhoneForDisplay "0241234567" = Some shown
    /\ String.length shown = 16%nat
    /\ keep phoneChar shown = "+233241234567"
    /\ normalizeGhanaPhone shown = normalizeGhanaPhone "+233241234567".
Proof.
  exact (formatPhoneForDisplay_normalized "0241234567" "+233241234567" eq_refl).
Defined.
